(** * Skill Swap Platform: the swap-request lifecycle

    A shallow embedding of the backend's persistence schema
    ([backend/models/database.sql]), of the skill, user and swap models
    ([skill.model.js], [user.model.js], [swap.model.js]), of the [protect]
    middleware and of the swap controller, followed by the properties of the
    swap-request lifecycle that hold of that code.

    Conventions of the embedding:
    - a table is the list of its rows, in storage order; a [SELECT] is a
      [filter]/[flat_map] over those lists and [rows[0]] is the head;
    - every [await execute(...)] is one atomic statement (the pool runs with
      [autoCommit: true]); a model function is a computation in the monad
      [M], which threads the database and stops at the first [throw];
    - [crypto.randomUUID()] and [CURRENT_TIMESTAMP] are explicit arguments
      ([uuid], [now]) of the functions that use them;
    - a thrown [new Error(msg)] is [JsError msg] with the source's message;
      a constraint violation raised by the database is [OraError name]. *)

From Stdlib Require Import String Ascii List ZArith Bool Lia.
Import ListNotations.
Local Open Scope string_scope.

(** ** Errors and the computation monad *)

Inductive js_error : Type :=
| JsError (message : string)
| OraError (constraint : string).

(** ** Schema ([backend/models/database.sql])

    Columns that no modelled statement reads or writes (email, password,
    location, availability, reset tokens, the users' timestamps) are left
    out of the rows. *)

Record user_row := mk_user {
  u_id : string;
  u_name : string;
  u_profile_photo : option string;
  u_is_public : bool;
  u_is_banned : bool;
  u_ban_reason : option string;
  u_role : string
}.

Record skill_row := mk_skill {
  sk_id : string;
  sk_name : string;
  sk_status : string;
  sk_rejection_reason : option string;
  sk_created_at : Z;
  sk_updated_at : Z
}.

Record user_skill_row := mk_user_skill {
  us_id : string;
  us_user_id : string;
  us_skill_id : string
}.

Record swap_row := mk_swap {
  sr_id : string;
  sr_sender_id : string;
  sr_receiver_id : string;
  sr_offered_skill_id : string;
  sr_wanted_skill_id : string;
  sr_message : option string;
  sr_status : string;
  sr_created_at : Z;
  sr_updated_at : Z
}.

Record feedback_row := mk_feedback {
  f_id : string;
  f_swap_id : string;
  f_user_id : string;
  f_rating : Z;
  f_comment : option string;
  f_created_at : Z
}.

Record database := mk_db {
  users : list user_row;
  skills : list skill_row;
  user_skills_offered : list user_skill_row;
  swap_requests : list swap_row;
  feedback : list feedback_row
}.

Definition with_users (db : database) (l : list user_row) : database :=
  mk_db l (skills db) (user_skills_offered db) (swap_requests db) (feedback db).

Definition with_skills (db : database) (l : list skill_row) : database :=
  mk_db (users db) l (user_skills_offered db) (swap_requests db) (feedback db).

Definition with_swap_requests (db : database) (l : list swap_row) : database :=
  mk_db (users db) (skills db) (user_skills_offered db) l (feedback db).

Definition with_feedback (db : database) (l : list feedback_row) : database :=
  mk_db (users db) (skills db) (user_skills_offered db) (swap_requests db) l.

(** The monad of a model function: the database goes in, the value returned
    or the error thrown comes out with the database as the statements
    executed so far left it. *)
Definition M (A : Type) : Type := database -> (js_error + A) * database.

Definition ret {A : Type} (a : A) : M A := fun db => (inr a, db).

Definition throw {A : Type} (e : js_error) : M A := fun db => (inl e, db).

Definition bind {A B : Type} (m : M A) (k : A -> M B) : M B :=
  fun db =>
    match m db with
    | (inl e, db') => (inl e, db')
    | (inr a, db') => k a db'
    end.

(** A [SELECT]: reads the database, never fails, changes nothing. *)
Definition select {A : Type} (q : database -> A) : M A :=
  fun db => (inr (q db), db).

(** An [INSERT], [UPDATE] or [DELETE]: either a constraint is violated and
    the statement has no effect, or the database is replaced. *)
Definition dml {A : Type} (stmt : database -> js_error + (A * database)) : M A :=
  fun db =>
    match stmt db with
    | inl e => (inl e, db)
    | inr (a, db') => (inr a, db')
    end.

Declare Scope model_scope.
Delimit Scope model_scope with model.
Notation "x <- m ;; k" := (bind m (fun x => k))
  (at level 61, m at next level, right associativity) : model_scope.
Notation "m ;;; k" := (bind m (fun _ => k))
  (at level 61, right associativity) : model_scope.

(** [if (cond) { throw new Error(msg); }] *)
Definition throw_if (cond : bool) (msg : string) : M unit :=
  if cond then throw (JsError msg) else ret tt.

Definition succeeded {A : Type} (r : (js_error + A) * database) : bool :=
  match fst r with inr _ => true | inl _ => false end.

(** Length limit of a [VARCHAR2(n)] column on an optional value. *)
Definition fits (n : nat) (v : option string) : bool :=
  match v with
  | None => true
  | Some s => Nat.leb (String.length s) n
  end.

(** [value || null] on an optional string: the empty string is falsy. *)
Definition or_null (v : option string) : option string :=
  match v with
  | Some "" => None
  | _ => v
  end.

Definition has_user (db : database) (uid : string) : bool :=
  existsb (fun u => u_id u =? uid) (users db).

Definition has_skill (db : database) (kid : string) : bool :=
  existsb (fun k => sk_id k =? kid) (skills db).

Definition has_swap (db : database) (sid : string) : bool :=
  existsb (fun sr => sr_id sr =? sid) (swap_requests db).

(** ** String functions used by the queries *)

(** SQL [LOWER] and the case folding it performs, on ASCII letters. *)
Definition lower_ascii (c : ascii) : ascii :=
  let n := nat_of_ascii c in
  if Nat.leb 65 n && Nat.leb n 90 then ascii_of_nat (n + 32) else c.

Fixpoint LOWER (s : string) : string :=
  match s with
  | EmptyString => EmptyString
  | String c r => String (lower_ascii c) (LOWER r)
  end.

(** White space removed by [String.prototype.trim], on ASCII input. *)
Definition is_space (c : ascii) : bool :=
  let n := nat_of_ascii c in
  Nat.eqb n 32 || (Nat.leb 9 n && Nat.leb n 13).

Fixpoint trim_start (s : string) : string :=
  match s with
  | EmptyString => EmptyString
  | String c r => if is_space c then trim_start r else s
  end.

Fixpoint trim_end (s : string) : string :=
  match s with
  | EmptyString => EmptyString
  | String c r =>
      let r' := trim_end r in
      if is_space c && (r' =? "") then "" else String c r'
  end.

Definition trim (s : string) : string := trim_end (trim_start s).

(** SQL [=] on [VARCHAR2]: Oracle stores the empty string as [NULL], and a
    comparison with [NULL] selects no row. *)
Definition sql_eq (a b : string) : bool :=
  if (a =? "") || (b =? "") then false else a =? b.

(** [ORDER BY] a string column (binary collation): insertion sort. *)
Fixpoint insert_by {A : Type} (key : A -> string) (x : A) (l : list A) : list A :=
  match l with
  | [] => [x]
  | y :: r => if String.leb (key x) (key y) then x :: l else y :: insert_by key x r
  end.

Definition order_by {A : Type} (key : A -> string) (l : list A) : list A :=
  fold_right (insert_by key) [] l.

(** ** Skill model ([skill.model.js]) *)

Module SkillModel.

(** The object a skill query returns.  [getSkillByName] fills every field;
    [createSkill] (on insertion) and [getUserOfferedSkills] return
    [{id, name, status}] only, the other fields being [undefined]. *)
Record skill := mk_skill_object {
  id : string;
  name : string;
  status : string;
  details : option (option string * Z * Z)
}.

Definition full_object (k : skill_row) : skill :=
  mk_skill_object (sk_id k) (sk_name k) (sk_status k)
    (Some (sk_rejection_reason k, sk_created_at k, sk_updated_at k)).

Definition short_object (k : skill_row) : skill :=
  mk_skill_object (sk_id k) (sk_name k) (sk_status k) None.

(** [SELECT ... FROM skills WHERE LOWER(name) = LOWER(:name)] *)
Definition select_by_name (nm : string) (db : database) : list skill_row :=
  filter (fun k => sql_eq (LOWER (sk_name k)) (LOWER nm)) (skills db).

Definition getSkillByName (nm : string) : M (option skill) :=
  select (fun db =>
    match select_by_name nm db with
    | [] => None
    | k :: _ => Some (full_object k)
    end).

(** [INSERT INTO skills (id, name) VALUES (:id, :name) RETURNING id, name,
    status]: primary key, [NOT NULL] and [UNIQUE] on the name, the
    column's length; the status defaults to ['pending']. *)
Definition insert_skill (uuid nm : string) (now : Z) : M skill_row :=
  dml (fun db =>
    if has_skill db uuid then inl (OraError "skills.PRIMARY KEY")
    else if nm =? "" then inl (OraError "skills.name NOT NULL")
    else if negb (Nat.leb (String.length nm) 100) then inl (OraError "skills.name VARCHAR2(100)")
    else if existsb (fun k => sk_name k =? nm) (skills db) then inl (OraError "skills.name UNIQUE")
    else
      let k := mk_skill uuid nm "pending" None now now in
      inr (k, with_skills db (skills db ++ [k]))).

Definition createSkill (nm uuid : string) (now : Z) : M skill :=
  (existingSkill <- getSkillByName nm ;;
   match existingSkill with
   | Some k => ret k
   | None =>
       k <- insert_skill uuid (trim nm) now ;;
       ret (short_object k)
   end)%model.

(** [SELECT s.id, s.name, s.status FROM user_skills_offered uso JOIN skills
    s ON uso.skill_id = s.id WHERE uso.user_id = :userId ORDER BY s.name] *)
Definition select_offered (userId : string) (db : database) : list skill_row :=
  order_by sk_name
    (flat_map
       (fun uso => filter (fun k => us_skill_id uso =? sk_id k) (skills db))
       (filter (fun uso => us_user_id uso =? userId) (user_skills_offered db))).

Definition getUserOfferedSkills (userId : string) : M (list skill) :=
  select (fun db => map short_object (select_offered userId db)).

End SkillModel.

(** ** User model ([user.model.js]) *)

Module UserModel.

(** [getUserById]: the first query selects the user [WHERE u.id = :id AND
    u.is_banned = 0] and the function returns [null] when it has no row.
    The object it otherwise builds (the row with its rating aggregate and
    the results of three further [SELECT]s) is abbreviated to the row: the
    callers modelled here only test the result against [null]. *)
Definition getUserById (uid : string) : M (option user_row) :=
  select (fun db =>
    match filter (fun u => (u_id u =? uid) && negb (u_is_banned u)) (users db) with
    | [] => None
    | u :: _ => Some u
    end).

End UserModel.

(** ** Swap model ([swap.model.js]) *)

Module SwapModel.

(** One element of a swap's [feedback] array, and the object [addFeedback]
    returns. *)
Record feedback_object := mk_feedback_object {
  fb_id : string;
  fb_userId : string;
  fb_userName : string;
  fb_userPhoto : option string;
  fb_rating : Z;
  fb_comment : option string;
  fb_createdAt : Z
}.

(** The object [getSwapRequestById] returns: one field per selected column,
    and the swap's feedback. *)
Record swap := mk_swap_object {
  id : string;
  senderId : string;
  senderName : string;
  senderPhoto : option string;
  receiverId : string;
  receiverName : string;
  receiverPhoto : option string;
  offeredSkillId : string;
  offeredSkillName : string;
  wantedSkillId : string;
  wantedSkillName : string;
  message : option string;
  status : string;
  createdAt : Z;
  updatedAt : Z;
  swap_feedback : list feedback_object
}.

(** The argument of [createSwapRequest]. *)
Record swap_data := mk_swap_data {
  sd_senderId : string;
  sd_receiverId : string;
  sd_offeredSkillId : string;
  sd_wantedSkillId : string;
  sd_message : option string
}.

(** [FROM feedback f JOIN users u ON f.user_id = u.id] for one row [f]. *)
Definition feedback_join (db : database) (f : feedback_row) : list feedback_object :=
  map (fun u =>
         mk_feedback_object (f_id f) (f_user_id f) (u_name u) (u_profile_photo u)
           (f_rating f) (f_comment f) (f_created_at f))
      (filter (fun u => f_user_id f =? u_id u) (users db)).

(** [... WHERE f.swap_id = :swapId] *)
Definition select_swap_feedback (swapId : string) (db : database) : list feedback_object :=
  flat_map (feedback_join db) (filter (fun f => f_swap_id f =? swapId) (feedback db)).

(** [... WHERE f.id = :id] *)
Definition select_feedback_by_id (fid : string) (db : database) : list feedback_object :=
  flat_map (feedback_join db) (filter (fun f => f_id f =? fid) (feedback db)).

(** [FROM swap_requests sr JOIN users sender ... JOIN users receiver ... JOIN
    skills offered ... JOIN skills wanted ...] for one row [sr]: the selected
    columns, the feedback not yet attached. *)
Definition swap_join (db : database) (sr : swap_row) : list swap :=
  flat_map (fun sender =>
  flat_map (fun receiver =>
  flat_map (fun offered =>
  map (fun wanted =>
         mk_swap_object (sr_id sr)
           (sr_sender_id sr) (u_name sender) (u_profile_photo sender)
           (sr_receiver_id sr) (u_name receiver) (u_profile_photo receiver)
           (sr_offered_skill_id sr) (sk_name offered)
           (sr_wanted_skill_id sr) (sk_name wanted)
           (sr_message sr) (sr_status sr) (sr_created_at sr) (sr_updated_at sr) [])
      (filter (fun k => sr_wanted_skill_id sr =? sk_id k) (skills db)))
      (filter (fun k => sr_offered_skill_id sr =? sk_id k) (skills db)))
      (filter (fun u => sr_receiver_id sr =? u_id u) (users db)))
      (filter (fun u => sr_sender_id sr =? u_id u) (users db)).

(** [... WHERE sr.id = :id] *)
Definition select_swap_by_id (sid : string) (db : database) : list swap :=
  flat_map (swap_join db) (filter (fun sr => sr_id sr =? sid) (swap_requests db)).

Definition with_swap_feedback (row : swap) (fb : list feedback_object) : swap :=
  mk_swap_object (id row) (senderId row) (senderName row) (senderPhoto row)
    (receiverId row) (receiverName row) (receiverPhoto row)
    (offeredSkillId row) (offeredSkillName row)
    (wantedSkillId row) (wantedSkillName row)
    (message row) (status row) (createdAt row) (updatedAt row) fb.

(** The swap query, [null] when it has no row, else the object built from
    its first row and from the feedback query. *)
Definition getSwapRequestById (sid : string) : M (option swap) :=
  select (fun db =>
    match select_swap_by_id sid db with
    | [] => None
    | row :: _ => Some (with_swap_feedback row (select_swap_feedback sid db))
    end).

(** [INSERT INTO swap_requests (...) VALUES (..., 'pending') RETURNING id]:
    primary key, [NOT NULL] columns, the four foreign keys, the message's
    length; both timestamps default to [CURRENT_TIMESTAMP]. *)
Definition insert_swap_request (uuid : string) (d : swap_data) (now : Z) : M string :=
  dml (fun db =>
    if has_swap db uuid then inl (OraError "swap_requests.PRIMARY KEY")
    else if (sd_senderId d =? "") || (sd_receiverId d =? "")
            || (sd_offeredSkillId d =? "") || (sd_wantedSkillId d =? "")
    then inl (OraError "swap_requests NOT NULL")
    else if negb (has_user db (sd_senderId d)) then inl (OraError "fk_swap_sender")
    else if negb (has_user db (sd_receiverId d)) then inl (OraError "fk_swap_receiver")
    else if negb (has_skill db (sd_offeredSkillId d)) then inl (OraError "fk_swap_offered_skill")
    else if negb (has_skill db (sd_wantedSkillId d)) then inl (OraError "fk_swap_wanted_skill")
    else if negb (fits 500 (or_null (sd_message d))) then inl (OraError "swap_requests.message VARCHAR2(500)")
    else
      let sr := mk_swap uuid (sd_senderId d) (sd_receiverId d)
                  (sd_offeredSkillId d) (sd_wantedSkillId d)
                  (or_null (sd_message d)) "pending" now now in
      inr (uuid, with_swap_requests db (swap_requests db ++ [sr]))).

Definition createSwapRequest (swapData : swap_data) (uuid : string) (now : Z) : M (option swap) :=
  (id_out <- insert_swap_request uuid swapData now ;;
   getSwapRequestById id_out)%model.

Definition statuses : list string := ["pending"; "accepted"; "rejected"; "completed"].

(** [Array.prototype.includes] on strings. *)
Definition includes (l : list string) (s : string) : bool :=
  existsb (fun x => x =? s) l.

Definition quoted (s : string) : string :=
  String "034"%char (s ++ String "034"%char EmptyString).

Definition invalid_status_message : string :=
  "Invalid status. Must be " ++ quoted "pending" ++ ", " ++ quoted "accepted"
  ++ ", " ++ quoted "rejected" ++ ", or " ++ quoted "completed" ++ ".".

(** [UPDATE swap_requests SET status = :status, updated_at =
    CURRENT_TIMESTAMP WHERE id = :id] *)
Definition set_status (status : string) (now : Z) (sr : swap_row) : swap_row :=
  mk_swap (sr_id sr) (sr_sender_id sr) (sr_receiver_id sr)
    (sr_offered_skill_id sr) (sr_wanted_skill_id sr) (sr_message sr)
    status (sr_created_at sr) now.

Definition update_status (sid status : string) (now : Z) : M unit :=
  dml (fun db =>
    inr (tt, with_swap_requests db
               (map (fun sr => if sr_id sr =? sid then set_status status now sr else sr)
                    (swap_requests db)))).

Definition updateSwapRequestStatus (sid status userId : string) (now : Z) : M (option swap) :=
  (throw_if (negb (includes statuses status)) invalid_status_message ;;;
   found <- getSwapRequestById sid ;;
   match found with
   | None => throw (JsError "Swap request not found")
   | Some swap =>
       throw_if (negb (senderId swap =? userId) && negb (receiverId swap =? userId))
         "Not authorized to update this swap request" ;;;
       throw_if (((status =? "accepted") || (status =? "rejected"))
                 && negb (receiverId swap =? userId))
         "Only the receiver can accept or reject a swap request" ;;;
       throw_if ((status =? "completed")
                 && negb (senderId swap =? userId) && negb (receiverId swap =? userId))
         "Only participants can mark a swap as completed" ;;;
       update_status sid status now ;;;
       getSwapRequestById sid
   end)%model.

Definition acceptSwapRequest (sid userId : string) (now : Z) : M (option swap) :=
  updateSwapRequestStatus sid "accepted" userId now.

Definition rejectSwapRequest (sid userId : string) (now : Z) : M (option swap) :=
  updateSwapRequestStatus sid "rejected" userId now.

Definition completeSwapRequest (sid userId : string) (now : Z) : M (option swap) :=
  updateSwapRequestStatus sid "completed" userId now.

(** [DELETE FROM swap_requests WHERE id = :id]; [fk_feedback_swap] is [ON
    DELETE CASCADE].  The value is [rowsAffected]. *)
Definition delete_swap_request (sid : string) : M nat :=
  dml (fun db =>
    inr (List.length (filter (fun sr => sr_id sr =? sid) (swap_requests db)),
         mk_db (users db) (skills db) (user_skills_offered db)
           (filter (fun sr => negb (sr_id sr =? sid)) (swap_requests db))
           (filter (fun f => negb (f_swap_id f =? sid)) (feedback db)))).

Definition deleteSwapRequest (sid userId : string) : M bool :=
  (found <- getSwapRequestById sid ;;
   match found with
   | None => throw (JsError "Swap request not found")
   | Some swap =>
       throw_if (negb (senderId swap =? userId))
         "Only the sender can delete a swap request" ;;;
       throw_if (negb (status swap =? "pending"))
         "Only pending swap requests can be deleted" ;;;
       rowsAffected <- delete_swap_request sid ;;
       ret (Nat.ltb 0 rowsAffected)
   end)%model.

(** [SELECT id FROM feedback WHERE swap_id = :swapId AND user_id = :userId] *)
Definition select_feedback_of (swapId userId : string) (db : database) : list feedback_row :=
  filter (fun f => (f_swap_id f =? swapId) && (f_user_id f =? userId)) (feedback db).

(** [INSERT INTO feedback (id, swap_id, user_id, rating, comment) ...
    RETURNING id]: primary key, the two foreign keys, [CHECK (rating BETWEEN
    1 AND 5)], [uk_feedback_user_swap], the comment's length.  The rating is
    an integer; Oracle stores an empty comment as [NULL]. *)
Definition insert_feedback (uuid swapId userId : string) (rating : Z)
    (comment : option string) (now : Z) : M string :=
  dml (fun db =>
    if existsb (fun f => f_id f =? uuid) (feedback db) then inl (OraError "feedback.PRIMARY KEY")
    else if negb (has_swap db swapId) then inl (OraError "fk_feedback_swap")
    else if negb (has_user db userId) then inl (OraError "fk_feedback_user")
    else if negb ((1 <=? rating)%Z && (rating <=? 5)%Z) then inl (OraError "feedback.rating CHECK")
    else if existsb (fun f => (f_user_id f =? userId) && (f_swap_id f =? swapId)) (feedback db)
    then inl (OraError "uk_feedback_user_swap")
    else if negb (fits 500 comment) then inl (OraError "feedback.comment VARCHAR2(500)")
    else
      let f := mk_feedback uuid swapId userId rating (or_null comment) now in
      inr (uuid, with_feedback db (feedback db ++ [f]))).

Definition addFeedback (swapId userId : string) (rating : Z) (comment : option string)
    (uuid : string) (now : Z) : M feedback_object :=
  (found <- getSwapRequestById swapId ;;
   match found with
   | None => throw (JsError "Swap request not found")
   | Some swap =>
       throw_if (negb (senderId swap =? userId) && negb (receiverId swap =? userId))
         "Only participants can add feedback" ;;;
       throw_if (negb (status swap =? "completed"))
         "Feedback can only be added to completed swaps" ;;;
       checkResult <- select (select_feedback_of swapId userId) ;;
       throw_if (Nat.ltb 0 (List.length checkResult))
         "You have already left feedback for this swap" ;;;
       id_out <- insert_feedback uuid swapId userId rating comment now ;;
       feedbackResult <- select (select_feedback_by_id id_out) ;;
       match feedbackResult with
       | [] => throw (JsError "Error retrieving created feedback")
       | fb :: _ => ret fb
       end
   end)%model.

End SwapModel.

(** ** Responses and the [protect] middleware ([auth.middleware.js]) *)

Inductive payload : Type :=
| SwapPayload (swap : option SwapModel.swap)
| FeedbackPayload (fb : SwapModel.feedback_object)
| MessagePayload (msg : string).

(** [res.status(code).json(...)]: [{success: false, error}], [{success:
    false, errors}] (the validator's messages) or [{success: true, data}]. *)
Inductive response : Type :=
| Fail (code : Z) (error : string)
| Invalid (code : Z) (errors : list string)
| Ok (code : Z) (data : payload).

(** [req.user] as [protect] sets it. *)
Record req_user := mk_req_user {
  ru_id : string;
  ru_name : string;
  ru_role : string
}.

Module Auth.

(** [token] is what extracting and verifying the JWT yields: [None] when
    the request carries no token or [jwt.verify] throws (both answer 401
    with the same message), [Some id] for [decoded.id]. *)
Definition protect (token : option string) (db : database) : response + req_user :=
  match token with
  | None => inl (Fail 401 "Not authorized to access this route")
  | Some uid =>
      match filter (fun u => u_id u =? uid) (users db) with
      | [] => inl (Fail 401 "User not found")
      | user :: _ =>
          if u_is_banned user
          then inl (Fail 403 "Your account has been banned. Please contact support.")
          else inr (mk_req_user (u_id user) (u_name user) (u_role user))
      end
  end.

End Auth.

(** A route [router.verb(path, protect, handler)]. *)
Definition route (token : option string)
    (handler : req_user -> database -> response * database)
    (db : database) : response * database :=
  match Auth.protect token db with
  | inl r => (r, db)
  | inr user => handler user db
  end.

(** [err.message] *)
Definition error_message (e : js_error) : string :=
  match e with
  | JsError m => m
  | OraError c => "ORA: " ++ c
  end.

(** The handlers' outer [try { ... } catch (err) { res.status(500)... }]. *)
Definition catch_500 (m : M response) (db : database) : response * database :=
  match m db with
  | (inl _, db') => (Fail 500 "Server error", db')
  | (inr r, db') => (r, db')
  end.

(** The inner [try { ... } catch (err) { return res.status(400).json({
    success: false, error: err.message }) }] around a model call. *)
Definition catch_400 {A : Type} (m : M A) (ok : A -> response) : M response :=
  fun db =>
    match m db with
    | (inl e, db') => (inr (Fail 400 (error_message e)), db')
    | (inr a, db') => (inr (ok a), db')
    end.

(** ** Swap controller ([swap.controller.js]) with the validators of
    [swap.routes.js] *)

Module SwapController.

(** [check(field, msg).not().isEmpty()] *)
Definition not_empty (value msg : string) : list string :=
  if value =? "" then [msg] else [].

(** The body of [POST /api/swaps]; an absent field is the empty string. *)
Record create_body := mk_create_body {
  receiverId : string;
  offeredSkillId : string;
  wantedSkillId : string;
  message : option string
}.

Definition create_errors (b : create_body) : list string :=
  not_empty (receiverId b) "Receiver ID is required"
  ++ not_empty (offeredSkillId b) "Offered skill ID is required"
  ++ not_empty (wantedSkillId b) "Wanted skill ID is required".

(** [array.some(skill => skill.id === wanted)] *)
Definition some_id (l : list SkillModel.skill) (wanted : string) : bool :=
  existsb (fun skill => SkillModel.id skill =? wanted) l.

Definition createSwapRequest (user : req_user) (b : create_body)
    (uuid : string) (now : Z) : database -> response * database :=
  catch_500
    (match create_errors b with
     | _ :: _ => ret (Invalid 400 (create_errors b))
     | [] =>
         if receiverId b =? ru_id user
         then ret (Fail 400 "You cannot create a swap request with yourself")
         else
           (receiver <- UserModel.getUserById (receiverId b) ;;
            match receiver with
            | None => ret (Fail 404 "Receiver not found")
            | Some _ =>
                offeredSkills <- SkillModel.getUserOfferedSkills (ru_id user) ;;
                if negb (some_id offeredSkills (offeredSkillId b))
                then ret (Fail 400 "Offered skill does not belong to you")
                else
                  receiverOfferedSkills <- SkillModel.getUserOfferedSkills (receiverId b) ;;
                  if negb (some_id receiverOfferedSkills (wantedSkillId b))
                  then ret (Fail 400 "Wanted skill does not belong to receiver")
                  else
                    swapRequest <- SwapModel.createSwapRequest
                                     (SwapModel.mk_swap_data (ru_id user) (receiverId b)
                                        (offeredSkillId b) (wantedSkillId b) (message b))
                                     uuid now ;;
                    ret (Ok 201 (SwapPayload swapRequest))
            end)%model
     end).

Definition acceptSwapRequest (user : req_user) (sid : string) (now : Z)
    : database -> response * database :=
  catch_500 (catch_400 (SwapModel.acceptSwapRequest sid (ru_id user) now)
               (fun swap => Ok 200 (SwapPayload swap))).

Definition rejectSwapRequest (user : req_user) (sid : string) (now : Z)
    : database -> response * database :=
  catch_500 (catch_400 (SwapModel.rejectSwapRequest sid (ru_id user) now)
               (fun swap => Ok 200 (SwapPayload swap))).

Definition completeSwapRequest (user : req_user) (sid : string) (now : Z)
    : database -> response * database :=
  catch_500 (catch_400 (SwapModel.completeSwapRequest sid (ru_id user) now)
               (fun swap => Ok 200 (SwapPayload swap))).

Definition deleteSwapRequest (user : req_user) (sid : string)
    : database -> response * database :=
  catch_500 (catch_400 (SwapModel.deleteSwapRequest sid (ru_id user))
               (fun _ => Ok 200 (MessagePayload "Swap request deleted successfully"))).

Definition rating_message : string := "Rating is required and must be between 1 and 5".

(** [check('rating', msg).isInt({ min: 1, max: 5 })] on an integer rating. *)
Definition feedback_errors (rating : Z) : list string :=
  if (1 <=? rating)%Z && (rating <=? 5)%Z then [] else [rating_message].

Definition addFeedback (user : req_user) (sid : string) (rating : Z)
    (comment : option string) (uuid : string) (now : Z)
    : database -> response * database :=
  catch_500
    (match feedback_errors rating with
     | _ :: _ => ret (Invalid 400 (feedback_errors rating))
     | [] =>
         catch_400 (SwapModel.addFeedback sid (ru_id user) rating comment uuid now)
           (fun fb => Ok 201 (FeedbackPayload fb))
     end).

End SwapController.

(** ** The statement by which [banUser] bans ([admin.controller.js])

    [UPDATE users SET is_banned = 1, ban_reason = :reason, updated_at =
    CURRENT_TIMESTAMP WHERE id = :id] *)

Module AdminController.

Definition ban_row (reason : string) (u : user_row) : user_row :=
  mk_user (u_id u) (u_name u) (u_profile_photo u) (u_is_public u)
    true (Some reason) (u_role u).

Definition ban_statement (uid reason : string) : M unit :=
  dml (fun db =>
    inr (tt, with_users db
               (map (fun u => if u_id u =? uid then ban_row reason u else u) (users db)))).

End AdminController.

(** ** Error kinds

    The code tells failures apart by message (and HTTP status) only.  This
    table names each message of the modelled functions by the kind of
    failure it reports; a database error or any other message is
    [Infrastructure]. *)

Inductive error_kind : Type :=
| NotFound | Forbidden | InvalidState | Unauthenticated
| SelfSwap | SkillNotOwned | SkillNotOffered | ActorBanned
| InvalidRating | DuplicateFeedback | SwapNotCompleted | NotParticipant
| InvalidStatusValue | Infrastructure.

Definition kinds_table : list (string * error_kind) :=
  [ ("Swap request not found", NotFound);
    ("Receiver not found", NotFound);
    ("User not found", NotFound);
    ("Not authorized to access this route", Unauthenticated);
    ("Your account has been banned. Please contact support.", ActorBanned);
    ("Not authorized to update this swap request", Forbidden);
    ("Only the receiver can accept or reject a swap request", Forbidden);
    ("Only participants can mark a swap as completed", Forbidden);
    ("Only the sender can delete a swap request", Forbidden);
    ("Only pending swap requests can be deleted", InvalidState);
    ("Only participants can add feedback", NotParticipant);
    ("Feedback can only be added to completed swaps", SwapNotCompleted);
    ("You have already left feedback for this swap", DuplicateFeedback);
    (SwapController.rating_message, InvalidRating);
    ("You cannot create a swap request with yourself", SelfSwap);
    ("Offered skill does not belong to you", SkillNotOwned);
    ("Wanted skill does not belong to receiver", SkillNotOffered);
    (SwapModel.invalid_status_message, InvalidStatusValue) ].

Definition kind_of_message (m : string) : error_kind :=
  match find (fun entry => fst entry =? m) kinds_table with
  | Some (_, k) => k
  | None => Infrastructure
  end.

Definition kind_of_error (e : js_error) : error_kind :=
  match e with
  | JsError m => kind_of_message m
  | OraError _ => Infrastructure
  end.

(** The kind of a response: none for a success. *)
Definition kind_of_response (r : response) : option error_kind :=
  match r with
  | Fail _ m => Some (kind_of_message m)
  | Invalid _ (m :: _) => Some (kind_of_message m)
  | Invalid _ [] => Some Infrastructure
  | Ok _ _ => None
  end.

(** ** Membership and moderation predicates on the tables *)

(** [skillId] is in [userId]'s offered set. *)
Definition offers (db : database) (userId skillId : string) : bool :=
  existsb (fun uso => (us_user_id uso =? userId) && (us_skill_id uso =? skillId))
          (user_skills_offered db).

(** Some directory entry [skillId] has status ['approved']. *)
Definition approved (db : database) (skillId : string) : bool :=
  existsb (fun k => (sk_id k =? skillId) && (sk_status k =? "approved")) (skills db).

(** Some row of [userId] is flagged [is_banned]. *)
Definition banned (db : database) (userId : string) : bool :=
  existsb (fun u => (u_id u =? userId) && u_is_banned u) (users db).

(** Some row of [userId] is not flagged. *)
Definition active (db : database) (userId : string) : bool :=
  existsb (fun u => (u_id u =? userId) && negb (u_is_banned u)) (users db).

(** [userId] is a banned user: stored, and flagged on every row (the id is
    the table's primary key, so there is one). *)
Definition is_banned (db : database) (userId : string) : bool :=
  banned db userId && negb (active db userId).

(** [userId] is a user in good standing. *)
Definition in_good_standing (db : database) (userId : string) : bool :=
  active db userId && negb (banned db userId).

(** Every stored swap has one of the four statuses. *)
Definition statuses_valid (db : database) : bool :=
  forallb (fun sr => SwapModel.includes SwapModel.statuses (sr_status sr))
          (swap_requests db).

(** The status of the swap [getSwapRequestById] returns, if any. *)
Definition status_of (sid : string) (db : database) : option string :=
  match fst (SwapModel.getSwapRequestById sid db) with
  | inr (Some swap) => Some (SwapModel.status swap)
  | _ => None
  end.

(** ** The operations of the swap model, as a transition system *)

Module Ledger.

Inductive operation : Type :=
| Create (swapData : SwapModel.swap_data) (uuid : string)
| UpdateStatus (sid status userId : string)
| Accept (sid userId : string)
| Reject (sid userId : string)
| Complete (sid userId : string)
| Delete (sid userId : string)
| AddFeedback (sid userId : string) (rating : Z) (comment : option string) (uuid : string).

Definition perform (op : operation) (now : Z) (db : database) : database :=
  match op with
  | Create d uuid => snd (SwapModel.createSwapRequest d uuid now db)
  | UpdateStatus sid st u => snd (SwapModel.updateSwapRequestStatus sid st u now db)
  | Accept sid u => snd (SwapModel.acceptSwapRequest sid u now db)
  | Reject sid u => snd (SwapModel.rejectSwapRequest sid u now db)
  | Complete sid u => snd (SwapModel.completeSwapRequest sid u now db)
  | Delete sid u => snd (SwapModel.deleteSwapRequest sid u db)
  | AddFeedback sid u r c uuid => snd (SwapModel.addFeedback sid u r c uuid now db)
  end.

(** A history: operations with the time each ran at, oldest first. *)
Fixpoint run (history : list (operation * Z)) (db : database) : database :=
  match history with
  | [] => db
  | (op, now) :: rest => run rest (perform op now db)
  end.

End Ledger.

(** ** Two status updates racing on one database

    [updateSwapRequestStatus] awaits the database three times: it reads the
    swap and checks the caller against it, it runs the [UPDATE], it reads the
    swap again.  Another request may run between any two of these. *)

Module Interleaving.

Inductive task : Type :=
| Start (sid status userId : string)
| Checked (sid status : string)
| Written (sid : string)
| Returned (result : option SwapModel.swap)
| Thrown (e : js_error).

Definition step (now : Z) (t : task) (db : database) : task * database :=
  match t with
  | Start sid status userId =>
      if negb (SwapModel.includes SwapModel.statuses status)
      then (Thrown (JsError SwapModel.invalid_status_message), db)
      else
        match fst (SwapModel.getSwapRequestById sid db) with
        | inl e => (Thrown e, db)
        | inr None => (Thrown (JsError "Swap request not found"), db)
        | inr (Some swap) =>
            if negb (SwapModel.senderId swap =? userId)
               && negb (SwapModel.receiverId swap =? userId)
            then (Thrown (JsError "Not authorized to update this swap request"), db)
            else if ((status =? "accepted") || (status =? "rejected"))
                    && negb (SwapModel.receiverId swap =? userId)
            then (Thrown (JsError "Only the receiver can accept or reject a swap request"), db)
            else if (status =? "completed")
                    && negb (SwapModel.senderId swap =? userId)
                    && negb (SwapModel.receiverId swap =? userId)
            then (Thrown (JsError "Only participants can mark a swap as completed"), db)
            else (Checked sid status, db)
        end
  | Checked sid status =>
      (Written sid, snd (SwapModel.update_status sid status now db))
  | Written sid =>
      match fst (SwapModel.getSwapRequestById sid db) with
      | inl e => (Thrown e, db)
      | inr result => (Returned result, db)
      end
  | Returned _ | Thrown _ => (t, db)
  end.

(** A schedule says which of the two requests takes the next step ([true]:
    the first), with the time of that step. *)
Fixpoint race (schedule : list (bool * Z)) (t1 t2 : task) (db : database)
    : task * task * database :=
  match schedule with
  | [] => (t1, t2, db)
  | (true, now) :: rest =>
      let (t1', db') := step now t1 db in race rest t1' t2 db'
  | (false, now) :: rest =>
      let (t2', db') := step now t2 db in race rest t1 t2' db'
  end.

(** Number of steps the schedule gives to request [who]. *)
Definition turns (who : bool) (schedule : list (bool * Z)) : nat :=
  List.length (filter (fun s => Bool.eqb (fst s) who) schedule).

Definition accepted_result (t : task) : bool :=
  match t with
  | Returned (Some swap) => SwapModel.status swap =? "accepted"
  | _ => false
  end.

(** How far a request is: the number of statements it has run, 3 once it
    has returned. *)
Definition phase (t : task) : nat :=
  match t with
  | Start _ _ _ => 0
  | Checked _ _ => 1
  | Written _ => 2
  | Returned _ | Thrown _ => 3
  end.

(** The task a finished call of [updateSwapRequestStatus] corresponds to. *)
Definition finished {A : Type} (r : (js_error + option SwapModel.swap) * A) : task :=
  match fst r with
  | inl e => Thrown e
  | inr result => Returned result
  end.

(** What holds of an accept of swap [sid] by [receiver] at each of its
    stages, in a database where the swap is stored: it has not thrown, and
    once its [UPDATE] has run the stored status is accepted. *)
Definition accepting (sid receiver : string) (t : task) (db : database) : Prop :=
  match t with
  | Start s st u => s = sid /\ st = "accepted" /\ u = receiver
  | Checked s st => s = sid /\ st = "accepted"
  | Written s => s = sid /\ status_of sid db = Some "accepted"
  | Returned _ => accepted_result t = true /\ status_of sid db = Some "accepted"
  | Thrown _ => False
  end.

(** The swap [sid] is stored and [receiver] is its receiver. *)
Definition received_by (sid receiver : string) (db : database) : Prop :=
  exists swap,
    SwapModel.getSwapRequestById sid db = (inr (Some swap), db)
    /\ SwapModel.receiverId swap = receiver.

End Interleaving.

(** ** A small database used by the examples

    Alice offers Guitar (approved) and Juggling (still pending moderation),
    Bob offers Spanish (approved), Carol is banned, Dave takes no part in
    the swap [s-1], which Alice sent to Bob. *)

Module Example.

Definition alice : user_row := mk_user "u-alice" "Alice" None true false None "user".
Definition bob : user_row := mk_user "u-bob" "Bob" None true false None "user".
Definition carol : user_row :=
  mk_user "u-carol" "Carol" None true true (Some "spam") "user".
Definition dave : user_row := mk_user "u-dave" "Dave" None true false None "user".

Definition guitar : skill_row := mk_skill "k-guitar" "Guitar" "approved" None 1 2.
Definition spanish : skill_row := mk_skill "k-spanish" "Spanish" "approved" None 1 2.
Definition juggling : skill_row := mk_skill "k-juggling" "Juggling" "pending" None 3 3.

Definition offered : list user_skill_row :=
  [ mk_user_skill "o-1" "u-alice" "k-guitar";
    mk_user_skill "o-2" "u-alice" "k-juggling";
    mk_user_skill "o-3" "u-bob" "k-spanish";
    mk_user_skill "o-4" "u-carol" "k-spanish" ].

(** No swap yet. *)
Definition empty_ledger : database :=
  mk_db [alice; bob; carol; dave] [guitar; spanish; juggling] offered [] [].

(** The swap [s-1] from Alice to Bob, Guitar for Spanish, in status [st]. *)
Definition swap1 (st : string) : swap_row :=
  mk_swap "s-1" "u-alice" "u-bob" "k-guitar" "k-spanish" None st 10 10.

Definition with_swap1 (st : string) : database :=
  with_swap_requests empty_ledger [swap1 st].

(** [s-1] completed, with Bob's feedback on it. *)
Definition with_feedback1 : database :=
  with_feedback (with_swap1 "completed")
    [mk_feedback "f-1" "s-1" "u-bob" 5 (Some "Great lesson") 20].

Definition alice_user : req_user := mk_req_user "u-alice" "Alice" "user".
Definition bob_user : req_user := mk_req_user "u-bob" "Bob" "user".

End Example.

(** ** Auxiliary definitions for the statements *)

(** The swap object after [UPDATE ... SET status = st, updated_at = now]. *)
Definition restamp (st : string) (now : Z) (row : SwapModel.swap) : SwapModel.swap :=
  SwapModel.mk_swap_object (SwapModel.id row)
    (SwapModel.senderId row) (SwapModel.senderName row) (SwapModel.senderPhoto row)
    (SwapModel.receiverId row) (SwapModel.receiverName row) (SwapModel.receiverPhoto row)
    (SwapModel.offeredSkillId row) (SwapModel.offeredSkillName row)
    (SwapModel.wantedSkillId row) (SwapModel.wantedSkillName row)
    (SwapModel.message row) st (SwapModel.createdAt row) now
    (SwapModel.swap_feedback row).

(** The caller passes the permission checks of [updateSwapRequestStatus]
    for the target status [st] on [swap]: a participant, and the receiver
    when the target is ['accepted'] or ['rejected']. *)
Definition may_update (st userId : string) (swap : SwapModel.swap) : bool :=
  ((SwapModel.senderId swap =? userId) || (SwapModel.receiverId swap =? userId))
  && (negb ((st =? "accepted") || (st =? "rejected"))
      || (SwapModel.receiverId swap =? userId)).

Definition is_participant (userId : string) (swap : SwapModel.swap) : bool :=
  (SwapModel.senderId swap =? userId) || (SwapModel.receiverId swap =? userId).

(** ** The other functions of the skill model ([skill.model.js]) *)

Definition with_user_skills_offered (db : database) (l : list user_skill_row) : database :=
  mk_db (users db) (skills db) l (swap_requests db) (feedback db).

Module SkillModelExt.

(** [SELECT ... FROM skills WHERE id = :id], [null] when it has no row. *)
Definition getSkillById (kid : string) : M (option SkillModel.skill) :=
  select (fun db =>
    match filter (fun k => sk_id k =? kid) (skills db) with
    | [] => None
    | k :: _ => Some (SkillModel.full_object k)
    end).

Definition invalid_moderation_message : string :=
  "Invalid status. Must be " ++ SwapModel.quoted "approved" ++ " or "
  ++ SwapModel.quoted "rejected" ++ ".".

(** Truthiness of an optional string: [null], [undefined] and the empty
    string are falsy. *)
Definition truthy (v : option string) : bool :=
  match v with
  | None => false
  | Some s => negb (s =? "")
  end.

Definition moderated (status : string) (reason : option string) (now : Z)
    (k : skill_row) : skill_row :=
  mk_skill (sk_id k) (sk_name k) status reason (sk_created_at k) now.

(** [UPDATE skills SET status = :status, rejection_reason =
    :rejectionReason, updated_at = CURRENT_TIMESTAMP WHERE id = :id]; the
    reason must fit [VARCHAR2(255)] when a row is assigned it. *)
Definition update_skill (kid status : string) (reason : option string) (now : Z) : M unit :=
  dml (fun db =>
    if has_skill db kid && negb (fits 255 reason)
    then inl (OraError "skills.rejection_reason VARCHAR2(255)")
    else
      inr (tt, with_skills db
                 (map (fun k => if sk_id k =? kid then moderated status reason now k else k)
                      (skills db)))).

Definition moderateSkill (kid status : string) (rejectionReason : option string) (now : Z)
    : M (option SkillModel.skill) :=
  (throw_if (negb (SwapModel.includes ["approved"; "rejected"] status))
     invalid_moderation_message ;;;
   throw_if ((status =? "rejected") && negb (truthy rejectionReason))
     "Rejection reason is required when rejecting a skill." ;;;
   update_skill kid status (if status =? "rejected" then rejectionReason else None) now ;;;
   getSkillById kid)%model.

(** [SELECT id FROM user_skills_offered WHERE user_id = :userId AND skill_id
    = :skillId] *)
Definition select_link (userId skillId : string) (db : database) : list user_skill_row :=
  filter (fun uso => (us_user_id uso =? userId) && (us_skill_id uso =? skillId))
         (user_skills_offered db).

(** [INSERT INTO user_skills_offered (id, user_id, skill_id)]: primary key,
    [NOT NULL] columns, the two foreign keys, [uk_user_skills_offered]. *)
Definition insert_link (uuid userId skillId : string) : M unit :=
  dml (fun db =>
    if existsb (fun uso => us_id uso =? uuid) (user_skills_offered db)
    then inl (OraError "user_skills_offered.PRIMARY KEY")
    else if (userId =? "") || (skillId =? "")
    then inl (OraError "user_skills_offered NOT NULL")
    else if negb (has_user db userId) then inl (OraError "fk_user_skills_offered_user")
    else if negb (has_skill db skillId) then inl (OraError "fk_user_skills_offered_skill")
    else if existsb (fun uso => (us_user_id uso =? userId) && (us_skill_id uso =? skillId))
                    (user_skills_offered db)
    then inl (OraError "uk_user_skills_offered")
    else
      inr (tt, with_user_skills_offered db
                 (user_skills_offered db ++ [mk_user_skill uuid userId skillId]))).

(** [skill_uuid] is the identifier [createSkill] draws, [link_uuid] the one
    drawn for the row of [user_skills_offered]. *)
Definition addOfferedSkill (userId skillName skill_uuid link_uuid : string) (now : Z)
    : M SkillModel.skill :=
  (skill <- SkillModel.createSkill skillName skill_uuid now ;;
   result <- select (select_link userId (SkillModel.id skill)) ;;
   if Nat.ltb 0 (List.length result)
   then ret skill
   else
     insert_link link_uuid userId (SkillModel.id skill) ;;;
     ret skill)%model.

(** [DELETE FROM user_skills_offered WHERE user_id = :userId AND skill_id =
    :skillId]; the value is [rowsAffected > 0]. *)
Definition removeOfferedSkill (userId skillId : string) : M bool :=
  dml (fun db =>
    inr (Nat.ltb 0 (List.length (select_link userId skillId db)),
         with_user_skills_offered db
           (filter (fun uso => negb ((us_user_id uso =? userId) && (us_skill_id uso =? skillId)))
                   (user_skills_offered db)))).

End SkillModelExt.

(** ** Feedback statistics ([swap.model.js]) *)

Module SwapModelExt.

(** The statistics object.  [avgRating] is [ROUND(AVG(f.rating), 1)], a
    decimal with one fractional digit, kept here as its number of tenths. *)
Record stats := mk_stats {
  totalReviews : Z;
  avgRating : Z;
  fiveStar : Z;
  fourStar : Z;
  threeStar : Z;
  twoStar : Z;
  oneStar : Z
}.

(** [FROM feedback f JOIN swap_requests sr ON f.swap_id = sr.id WHERE
    sr.sender_id = :userId OR sr.receiver_id = :userId] *)
Definition stats_rows (userId : string) (db : database) : list feedback_row :=
  flat_map
    (fun f =>
       map (fun _ => f)
           (filter (fun sr => (f_swap_id f =? sr_id sr)
                              && ((sr_sender_id sr =? userId) || (sr_receiver_id sr =? userId)))
                   (swap_requests db)))
    (feedback db).

(** [COUNT(CASE WHEN f.rating = r THEN 1 END)] *)
Definition count_rating (r : Z) (rows : list feedback_row) : Z :=
  Z.of_nat (List.length (filter (fun f => (f_rating f =? r)%Z) rows)).

Definition sum_ratings (rows : list feedback_row) : Z :=
  fold_right (fun f acc => (f_rating f + acc)%Z) 0%Z rows.

(** [ROUND(sum / count, 1)] in tenths, halves rounded away from zero, for
    [count > 0]. *)
Definition round_tenths (sum count : Z) : Z :=
  if (0 <=? sum)%Z
  then ((20 * sum + count) / (2 * count))%Z
  else (- ((20 * (- sum) + count) / (2 * count)))%Z.

(** The query aggregates without [GROUP BY], so it has exactly one row and
    the function's branch for no row is never taken; [AVG] is [NULL] over no
    feedback and [stats.AVG_RATING || 0] makes it 0. *)
Definition getUserFeedbackStats (userId : string) : M stats :=
  select (fun db =>
    let rows := stats_rows userId db in
    let n := Z.of_nat (List.length rows) in
    mk_stats n
      (if (n =? 0)%Z then 0%Z else round_tenths (sum_ratings rows) n)
      (count_rating 5 rows) (count_rating 4 rows) (count_rating 3 rows)
      (count_rating 2 rows) (count_rating 1 rows)).

End SwapModelExt.

(** ** Role check ([auth.middleware.js]) and the swap controller's read *)

Module AuthExt.

(** [authorize(...roles)]: [None] stands for [next()]. *)
Definition authorize (roles : list string) (user : option req_user) : option response :=
  match user with
  | None => Some (Fail 500 "Authorization middleware error: User not found in request")
  | Some u =>
      if negb (SwapModel.includes roles (ru_role u))
      then Some (Fail 403 ("User role " ++ ru_role u
                           ++ " is not authorized to access this route"))
      else None
  end.

(** A route of [admin.routes.js]: [router.use(protect)], then
    [router.use(authorize('admin'))], then the handler. *)
Definition admin_route (token : option string)
    (handler : req_user -> database -> response * database)
    (db : database) : response * database :=
  match Auth.protect token db with
  | inl r => (r, db)
  | inr user =>
      match authorize ["admin"] (Some user) with
      | Some r => (r, db)
      | None => handler user db
      end
  end.

End AuthExt.

Module SwapControllerExt.

(** [GET /api/swaps/:id] *)
Definition getSwapRequestById (user : req_user) (sid : string)
    : database -> response * database :=
  catch_500
    (found <- SwapModel.getSwapRequestById sid ;;
     match found with
     | None => ret (Fail 404 "Swap request not found")
     | Some swap =>
         if negb (SwapModel.senderId swap =? ru_id user)
            && negb (SwapModel.receiverId swap =? ru_id user)
            && negb (ru_role user =? "admin")
         then ret (Fail 403 "Not authorized to view this swap request")
         else ret (Ok 200 (SwapPayload (Some swap)))
     end)%model.

End SwapControllerExt.

(** ** Invariants of the feedback table *)

Definition same_author_and_swap (f g : feedback_row) : bool :=
  (f_swap_id f =? f_swap_id g) && (f_user_id f =? f_user_id g).

(** No two rows have the same swap and author. *)
Fixpoint one_feedback_each (l : list feedback_row) : bool :=
  match l with
  | [] => true
  | f :: rest => negb (existsb (same_author_and_swap f) rest) && one_feedback_each rest
  end.

(** The rating of [f] is from 1 to 5 and its author is the sender or the
    receiver of a stored swap with [f]'s swap id. *)
Definition feedback_row_ok (db : database) (f : feedback_row) : bool :=
  (1 <=? f_rating f)%Z && (f_rating f <=? 5)%Z
  && existsb (fun sr => (sr_id sr =? f_swap_id f)
                        && ((sr_sender_id sr =? f_user_id f)
                            || (sr_receiver_id sr =? f_user_id f)))
             (swap_requests db).

Definition feedback_valid (db : database) : bool :=
  forallb (feedback_row_ok db) (feedback db) && one_feedback_each (feedback db).

(** ** Outcomes of the operations *)

(** What a call threw, if it threw. *)
Definition error_of {A : Type} (r : (js_error + A) * database) : option js_error :=
  match fst r with
  | inl e => Some e
  | inr _ => None
  end.

Definition thrown (op : Ledger.operation) (now : Z) (db : database) : option js_error :=
  match op with
  | Ledger.Create d uuid => error_of (SwapModel.createSwapRequest d uuid now db)
  | Ledger.UpdateStatus sid st u =>
      error_of (SwapModel.updateSwapRequestStatus sid st u now db)
  | Ledger.Accept sid u => error_of (SwapModel.acceptSwapRequest sid u now db)
  | Ledger.Reject sid u => error_of (SwapModel.rejectSwapRequest sid u now db)
  | Ledger.Complete sid u => error_of (SwapModel.completeSwapRequest sid u now db)
  | Ledger.Delete sid u => error_of (SwapModel.deleteSwapRequest sid u db)
  | Ledger.AddFeedback sid u r c uuid =>
      error_of (SwapModel.addFeedback sid u r c uuid now db)
  end.

(** The columns of a swap row that no status update writes. *)
Definition fixed_columns (sr : swap_row)
    : string * string * string * string * string * option string * Z :=
  (sr_id sr, sr_sender_id sr, sr_receiver_id sr, sr_offered_skill_id sr,
   sr_wanted_skill_id sr, sr_message sr, sr_created_at sr).

(** * Properties *)

(** ** Lists *)

Lemma map_flat_map_comm {A B C : Type} (g : B -> C) (f : A -> list B) (l : list A) :
  map g (flat_map f l) = flat_map (fun x => map g (f x)) l.
Proof.
  induction l as [|a l IH]; simpl; [reflexivity|].
  now rewrite map_app, IH.
Qed.

(** ** Reading a swap back after its status was updated *)

Lemma swap_join_set_status db st now sr :
  SwapModel.swap_join db (SwapModel.set_status st now sr)
  = map (restamp st now) (SwapModel.swap_join db sr).
Proof.
  unfold SwapModel.swap_join. cbn [SwapModel.set_status sr_id sr_sender_id sr_receiver_id sr_offered_skill_id sr_wanted_skill_id sr_message sr_status sr_created_at sr_updated_at].
  rewrite map_flat_map_comm. apply flat_map_ext; intros sender.
  rewrite map_flat_map_comm. apply flat_map_ext; intros receiver.
  rewrite map_flat_map_comm. apply flat_map_ext; intros offered.
  rewrite map_map. reflexivity.
Qed.

Lemma select_swap_after_update db sid st now :
  SwapModel.select_swap_by_id sid (snd (SwapModel.update_status sid st now db))
  = map (restamp st now) (SwapModel.select_swap_by_id sid db).
Proof.
  unfold SwapModel.select_swap_by_id, SwapModel.update_status, dml. cbn.
  induction (swap_requests db) as [|sr l IH]; [reflexivity|].
  cbn. destruct (sr_id sr =? sid) eqn:E.
  - cbn. rewrite E. cbn. rewrite map_app, <- IH.
    f_equal. 
    change (SwapModel.swap_join (with_swap_requests db ?x)) with (SwapModel.swap_join db).
    apply swap_join_set_status.
  - cbn. rewrite E. apply IH.
Qed.

Lemma get_found db sid sw :
  SwapModel.getSwapRequestById sid db = (inr (Some sw), db) ->
  exists row rest,
    SwapModel.select_swap_by_id sid db = row :: rest
    /\ sw = SwapModel.with_swap_feedback row (SwapModel.select_swap_feedback sid db).
Proof.
  unfold SwapModel.getSwapRequestById, select.
  destruct (SwapModel.select_swap_by_id sid db) as [|row rest]; intros H; [discriminate|].
  exists row, rest. split; [reflexivity|]. congruence.
Qed.

Lemma get_after_update db sid st now sw :
  SwapModel.getSwapRequestById sid db = (inr (Some sw), db) ->
  SwapModel.getSwapRequestById sid (snd (SwapModel.update_status sid st now db))
  = (inr (Some (restamp st now sw)), snd (SwapModel.update_status sid st now db)).
Proof.
  intros H. destruct (get_found _ _ _ H) as (row & rest & Hrows & ->).
  unfold SwapModel.getSwapRequestById, select.
  rewrite select_swap_after_update, Hrows. reflexivity.
Qed.

Lemma update_spec db sid st userId now sw :
  SwapModel.includes SwapModel.statuses st = true ->
  SwapModel.getSwapRequestById sid db = (inr (Some sw), db) ->
  SwapModel.updateSwapRequestStatus sid st userId now db
  = if may_update st userId sw
    then (inr (Some (restamp st now sw)), snd (SwapModel.update_status sid st now db))
    else (inl (JsError (if is_participant userId sw
                        then "Only the receiver can accept or reject a swap request"
                        else "Not authorized to update this swap request")), db).
Proof.
  intros Hst Hget.
  unfold SwapModel.updateSwapRequestStatus, bind at 1. 
  rewrite Hst. cbn [negb throw_if ret]. unfold bind at 1. rewrite Hget.
  unfold may_update, is_participant.
  destruct (SwapModel.senderId sw =? userId) eqn:Es, (SwapModel.receiverId sw =? userId) eqn:Er;
    cbn [negb andb orb throw_if bind throw ret];
    destruct ((st =? "accepted") || (st =? "rejected")) eqn:Ear;
    cbn [negb andb orb throw_if bind throw ret]; try reflexivity;
    rewrite ?andb_false_r; cbn [negb andb orb throw_if bind throw ret];
    unfold bind; cbn [SwapModel.update_status dml];
    try exact (get_after_update _ _ st now _ Hget).
Qed.

(** ** The stored statuses stay within the four values *)

Lemma forallb_filter_true {A : Type} (p q : A -> bool) (l : list A) :
  forallb p l = true -> forallb p (filter q l) = true.
Proof.
  induction l as [|a l IH]; simpl; [reflexivity|].
  intros H. apply andb_true_iff in H as [Ha Hl].
  destruct (q a); simpl; [rewrite Ha|]; auto.
Qed.

Lemma valid_after_update_status db sid st now :
  SwapModel.includes SwapModel.statuses st = true ->
  statuses_valid db = true ->
  statuses_valid (snd (SwapModel.update_status sid st now db)) = true.
Proof.
  intros Hst. unfold statuses_valid, SwapModel.update_status, dml. cbn.
  induction (swap_requests db) as [|sr l IH]; simpl; [reflexivity|].
  intros H. apply andb_true_iff in H as [Ha Hl].
  rewrite (IH Hl), andb_true_r.
  destruct (sr_id sr =? sid); [exact Hst | exact Ha].
Qed.

Ltac unfold_model :=
  cbv beta iota zeta delta
    [bind throw_if throw ret select dml
     SwapModel.getSwapRequestById SwapModel.updateSwapRequestStatus
     SwapModel.acceptSwapRequest SwapModel.rejectSwapRequest
     SwapModel.completeSwapRequest SwapModel.deleteSwapRequest
     SwapModel.createSwapRequest SwapModel.addFeedback
     SwapModel.update_status SwapModel.delete_swap_request
     SwapModel.insert_swap_request SwapModel.insert_feedback].

(** Case analysis on every test the computation in the goal makes. *)
Ltac branch :=
  repeat (cbv beta iota;
          match goal with
          | |- context [if ?c then _ else _] => destruct c eqn:?
          | |- context [match ?x with [] => _ | _ :: _ => _ end] => destruct x eqn:?
          end).

Lemma update_effect sid st userId now db :
  snd (SwapModel.updateSwapRequestStatus sid st userId now db) = db
  \/ (SwapModel.includes SwapModel.statuses st = true
      /\ snd (SwapModel.updateSwapRequestStatus sid st userId now db)
         = snd (SwapModel.update_status sid st now db)).
Proof.
  destruct (SwapModel.includes SwapModel.statuses st) eqn:Hst.
  - unfold_model. rewrite Hst. cbv [negb].
    destruct (SwapModel.select_swap_by_id sid db) as [|row rest]; [now left|].
    branch; try (now left); right; split; reflexivity.
  - left. unfold_model. rewrite Hst. reflexivity.
Qed.

Lemma create_effect d uuid now db :
  snd (SwapModel.createSwapRequest d uuid now db) = db
  \/ exists sr, sr_status sr = "pending"
       /\ snd (SwapModel.createSwapRequest d uuid now db)
          = with_swap_requests db (swap_requests db ++ [sr]).
Proof.
  unfold_model. branch; try (now left);
    right; eexists; (split; [|reflexivity]); reflexivity.
Qed.

Lemma delete_effect sid userId db :
  snd (SwapModel.deleteSwapRequest sid userId db) = db
  \/ snd (SwapModel.deleteSwapRequest sid userId db)
     = snd (SwapModel.delete_swap_request sid db).
Proof.
  unfold_model. branch; try (now left); right; reflexivity.
Qed.

Lemma addFeedback_swaps sid userId rating comment uuid now db :
  swap_requests (snd (SwapModel.addFeedback sid userId rating comment uuid now db))
  = swap_requests db.
Proof.
  unfold_model. branch; reflexivity.
Qed.

Lemma perform_valid op now db :
  statuses_valid db = true -> statuses_valid (Ledger.perform op now db) = true.
Proof.
  intros Hv. destruct op as [d uuid|sid st u|sid u|sid u|sid u|sid u|sid u r c uuid]; cbn [Ledger.perform].
  - destruct (create_effect d uuid now db) as [-> | (sr & Hp & ->)]; [assumption|].
    unfold statuses_valid, with_swap_requests in *. cbn [swap_requests].
    rewrite forallb_app, Hv. cbn [forallb]. rewrite Hp. reflexivity.
  - destruct (update_effect sid st u now db) as [-> | [Hst ->]]; [assumption|].
    now apply valid_after_update_status.
  - destruct (update_effect sid "accepted" u now db) as [H | [Hst H]];
      unfold SwapModel.acceptSwapRequest; rewrite H; [assumption|].
    now apply valid_after_update_status.
  - destruct (update_effect sid "rejected" u now db) as [H | [Hst H]];
      unfold SwapModel.rejectSwapRequest; rewrite H; [assumption|].
    now apply valid_after_update_status.
  - destruct (update_effect sid "completed" u now db) as [H | [Hst H]];
      unfold SwapModel.completeSwapRequest; rewrite H; [assumption|].
    now apply valid_after_update_status.
  - destruct (delete_effect sid u db) as [-> | ->]; [assumption|].
    unfold statuses_valid, SwapModel.delete_swap_request, dml in *.
    cbn [snd swap_requests]. now apply forallb_filter_true.
  - unfold statuses_valid in *. now rewrite addFeedback_swaps.
Qed.

Lemma run_valid history : forall db,
  statuses_valid db = true -> statuses_valid (Ledger.run history db) = true.
Proof.
  induction history as [|[op now] rest IH]; intros db Hv; simpl; [assumption|].
  apply IH. now apply perform_valid.
Qed.

(** ** Status transitions *)

Lemma status_of_found db sid sw :
  SwapModel.getSwapRequestById sid db = (inr (Some sw), db) ->
  status_of sid db = Some (SwapModel.status sw).
Proof. intros H. unfold status_of. now rewrite H. Qed.

Lemma update_not_found db sid st userId now :
  SwapModel.getSwapRequestById sid db = (inr None, db) ->
  succeeded (SwapModel.updateSwapRequestStatus sid st userId now db) = false.
Proof.
  intros H. unfold SwapModel.updateSwapRequestStatus, bind at 1, throw_if.
  destruct (negb (SwapModel.includes SwapModel.statuses st)); [reflexivity|].
  cbn [ret]. unfold bind. rewrite H. reflexivity.
Qed.

Lemma get_total db sid :
  SwapModel.getSwapRequestById sid db = (inr None, db)
  \/ exists sw, SwapModel.getSwapRequestById sid db = (inr (Some sw), db).
Proof.
  unfold SwapModel.getSwapRequestById, select.
  destruct (SwapModel.select_swap_by_id sid db); [now left | right; eauto].
Qed.

Lemma kind_not_authorized :
  kind_of_error (JsError "Not authorized to update this swap request") = Forbidden.
Proof. reflexivity. Qed.

Lemma kind_only_receiver :
  kind_of_error (JsError "Only the receiver can accept or reject a swap request") = Forbidden.
Proof. reflexivity. Qed.

Lemma update_refused db sid st userId now sw :
  SwapModel.includes SwapModel.statuses st = true ->
  SwapModel.getSwapRequestById sid db = (inr (Some sw), db) ->
  may_update st userId sw = false ->
  exists e, SwapModel.updateSwapRequestStatus sid st userId now db = (inl e, db)
            /\ kind_of_error e = Forbidden.
Proof.
  intros Hst Hget Hno. rewrite (update_spec _ _ _ _ now _ Hst Hget), Hno.
  eexists. split; [reflexivity|].
  destruct (is_participant userId sw); [apply kind_only_receiver | apply kind_not_authorized].
Qed.

Lemma update_done db sid st userId now sw :
  SwapModel.includes SwapModel.statuses st = true ->
  SwapModel.getSwapRequestById sid db = (inr (Some sw), db) ->
  may_update st userId sw = true ->
  fst (SwapModel.updateSwapRequestStatus sid st userId now db)
  = inr (Some (restamp st now sw))
  /\ status_of sid (snd (SwapModel.updateSwapRequestStatus sid st userId now db)) = Some st.
Proof.
  intros Hst Hget Hyes. rewrite (update_spec _ _ _ _ now _ Hst Hget), Hyes.
  split; [reflexivity|]. cbn [snd fst].
  apply (status_of_found _ _ (restamp st now sw)).
  exact (get_after_update _ _ st now _ Hget).
Qed.

(** Accept, reject and complete are [updateSwapRequestStatus] at a fixed
    target status. *)
Lemma transitions_are_updates sid userId now :
  SwapModel.acceptSwapRequest sid userId now
  = SwapModel.updateSwapRequestStatus sid "accepted" userId now
  /\ SwapModel.rejectSwapRequest sid userId now
     = SwapModel.updateSwapRequestStatus sid "rejected" userId now
  /\ SwapModel.completeSwapRequest sid userId now
     = SwapModel.updateSwapRequestStatus sid "completed" userId now.
Proof. repeat split. Qed.

(** C1 (as amended). The stored status of every swap stays one of pending,
    accepted, rejected, completed under every history of model operations.
    A swap that is rejected or completed is not closed, though:
    [updateSwapRequestStatus] (and so accept, reject and complete, which call
    it with a fixed target) never looks at the current status.  On such a
    swap it fails, leaving the status as it was, exactly when the caller does
    not pass the permission checks, and the failure is a Forbidden one; for a
    caller who passes them it succeeds and overwrites the status. *)
Theorem C1_status_valid_terminal_overwritten :
  forall (db0 : database) (history : list (Ledger.operation * Z))
         (sid st userId : string) (now : Z) (swap : SwapModel.swap),
    statuses_valid db0 = true ->
    SwapModel.includes SwapModel.statuses st = true ->
    SwapModel.getSwapRequestById sid (Ledger.run history db0)
    = (inr (Some swap), Ledger.run history db0) ->
    SwapModel.status swap = "rejected" \/ SwapModel.status swap = "completed" ->
    let db := Ledger.run history db0 in
    let result := SwapModel.updateSwapRequestStatus sid st userId now db in
    statuses_valid db = true
    /\ statuses_valid (snd result) = true
    /\ (if may_update st userId swap
        then fst result = inr (Some (restamp st now swap))
             /\ status_of sid (snd result) = Some st
        else snd result = db
             /\ status_of sid (snd result) = Some (SwapModel.status swap)
             /\ exists e, fst result = inl e /\ kind_of_error e = Forbidden).
Proof.
  intros db0 history sid st userId now swap Hv Hst Hget _ db result.
  assert (Hdb : statuses_valid db = true) by now apply run_valid.
  split; [exact Hdb|]. split.
  - exact (perform_valid (Ledger.UpdateStatus sid st userId) now db Hdb).
  - destruct (may_update st userId swap) eqn:Hmay.
    + exact (update_done db sid st userId now swap Hst Hget Hmay).
    + destruct (update_refused db sid st userId now swap Hst Hget Hmay) as (e & He & Hk).
      subst result. rewrite He. cbn [fst snd].
      split; [reflexivity|]. split; [now apply status_of_found|]. eauto.
Qed.

Lemma C1_status_valid_terminal_overwritten_witness :
  statuses_valid (Example.with_swap1 "completed") = true
  /\ statuses_valid
       (snd (SwapModel.updateSwapRequestStatus "s-1" "pending" "u-alice" 30
               (Example.with_swap1 "completed"))) = true
  /\ fst (SwapModel.updateSwapRequestStatus "s-1" "pending" "u-alice" 30
            (Example.with_swap1 "completed"))
     = inr (Some (restamp "pending" 30
                    (SwapModel.mk_swap_object "s-1" "u-alice" "Alice" None "u-bob" "Bob" None
                       "k-guitar" "Guitar" "k-spanish" "Spanish" None "completed" 10 10 [])))
  /\ status_of "s-1"
       (snd (SwapModel.updateSwapRequestStatus "s-1" "pending" "u-alice" 30
               (Example.with_swap1 "completed"))) = Some "pending".
Proof.
  pose proof (C1_status_valid_terminal_overwritten
                (Example.with_swap1 "completed") [] "s-1" "pending" "u-alice" 30
                (SwapModel.mk_swap_object "s-1" "u-alice" "Alice" None "u-bob" "Bob" None
                   "k-guitar" "Guitar" "k-spanish" "Spanish" None "completed" 10 10 [])
                eq_refl eq_refl eq_refl (or_intror eq_refl)) as H.
  cbv zeta in H. destruct H as (H1 & H2 & H3).
  change (may_update "pending" "u-alice" _) with true in H3. cbv iota in H3.
  destruct H3 as [H3 H4].
  exact (conj H1 (conj H2 (conj H3 H4))).
Defined.

(** C1: on the rejected swap [s-1] the receiver's accept succeeds and the
    swap is accepted. *)
Lemma C1_counterexample :
  status_of "s-1" (Example.with_swap1 "rejected") = Some "rejected"
  /\ succeeded (SwapModel.acceptSwapRequest "s-1" "u-bob" 30 (Example.with_swap1 "rejected")) = true
  /\ status_of "s-1"
       (snd (SwapModel.acceptSwapRequest "s-1" "u-bob" 30 (Example.with_swap1 "rejected")))
     = Some "accepted".
Proof. repeat split; reflexivity. Qed.

Lemma may_update_completed userId sw :
  may_update "completed" userId sw = is_participant userId sw.
Proof. unfold may_update, is_participant. cbn. now rewrite andb_true_r. Qed.

(** C2 (as amended). [completeSwapRequest] succeeds exactly when the swap
    exists and the caller is its sender or its receiver; the swap's current
    status plays no part.  On success the swap returned and stored is
    completed whatever its status was, so completed is reached from pending
    in one step. *)
Theorem C2_complete_from_any_status :
  forall (db : database) (sid userId : string) (now : Z),
    (succeeded (SwapModel.completeSwapRequest sid userId now db) = true
     <-> exists swap, SwapModel.getSwapRequestById sid db = (inr (Some swap), db)
                      /\ is_participant userId swap = true)
    /\ (forall swap,
          SwapModel.getSwapRequestById sid db = (inr (Some swap), db) ->
          is_participant userId swap = true ->
          fst (SwapModel.completeSwapRequest sid userId now db)
          = inr (Some (restamp "completed" now swap))
          /\ status_of sid (snd (SwapModel.completeSwapRequest sid userId now db))
             = Some "completed").
Proof.
  intros db sid userId now.
  assert (Hdone : forall swap,
             SwapModel.getSwapRequestById sid db = (inr (Some swap), db) ->
             is_participant userId swap = true ->
             fst (SwapModel.completeSwapRequest sid userId now db)
             = inr (Some (restamp "completed" now swap))
             /\ status_of sid (snd (SwapModel.completeSwapRequest sid userId now db))
                = Some "completed").
  { intros swap Hget Hp. apply update_done; [reflexivity | exact Hget |].
    now rewrite may_update_completed. }
  split; [|exact Hdone]. split.
  - intros Hok. destruct (get_total db sid) as [Hnone | [sw Hget]].
    + unfold SwapModel.completeSwapRequest in Hok.
      rewrite (update_not_found _ _ _ _ _ Hnone) in Hok. discriminate.
    + exists sw. split; [exact Hget|].
      destruct (is_participant userId sw) eqn:Hp; [reflexivity|].
      destruct (update_refused db sid "completed" userId now sw eq_refl Hget) as (e & He & _).
      { now rewrite may_update_completed. }
      unfold SwapModel.completeSwapRequest, succeeded in Hok. rewrite He in Hok. discriminate.
  - intros (sw & Hget & Hp). destruct (Hdone sw Hget Hp) as [Hfst _].
    unfold succeeded. now rewrite Hfst.
Qed.

Lemma C2_complete_from_any_status_witness :
  fst (SwapModel.completeSwapRequest "s-1" "u-bob" 30 (Example.with_swap1 "rejected"))
  = inr (Some (restamp "completed" 30
                 (SwapModel.mk_swap_object "s-1" "u-alice" "Alice" None "u-bob" "Bob" None
                    "k-guitar" "Guitar" "k-spanish" "Spanish" None "rejected" 10 10 [])))
  /\ status_of "s-1"
       (snd (SwapModel.completeSwapRequest "s-1" "u-bob" 30 (Example.with_swap1 "rejected")))
     = Some "completed".
Proof.
  exact (proj2 (C2_complete_from_any_status (Example.with_swap1 "rejected") "s-1" "u-bob" 30)
               _ eq_refl eq_refl).
Defined.

(** C2: the sender completes the pending swap [s-1] directly. *)
Lemma C2_counterexample :
  status_of "s-1" (Example.with_swap1 "pending") = Some "pending"
  /\ succeeded (SwapModel.completeSwapRequest "s-1" "u-alice" 30 (Example.with_swap1 "pending")) = true
  /\ status_of "s-1"
       (snd (SwapModel.completeSwapRequest "s-1" "u-alice" 30 (Example.with_swap1 "pending")))
     = Some "completed".
Proof. repeat split; reflexivity. Qed.

(** C7. For a swap that exists and a caller who is not its receiver (its
    sender included), [acceptSwapRequest] and [rejectSwapRequest] throw, the
    error is a Forbidden one, and the database, hence the swap's status, is
    as before. *)
Theorem C7_only_receiver_accepts_or_rejects :
  forall (db : database) (sid userId : string) (now : Z) (swap : SwapModel.swap),
    SwapModel.getSwapRequestById sid db = (inr (Some swap), db) ->
    SwapModel.receiverId swap <> userId ->
    (exists e, SwapModel.acceptSwapRequest sid userId now db = (inl e, db)
               /\ kind_of_error e = Forbidden)
    /\ (exists e, SwapModel.rejectSwapRequest sid userId now db = (inl e, db)
                  /\ kind_of_error e = Forbidden)
    /\ status_of sid (snd (SwapModel.acceptSwapRequest sid userId now db))
       = Some (SwapModel.status swap)
    /\ status_of sid (snd (SwapModel.rejectSwapRequest sid userId now db))
       = Some (SwapModel.status swap).
Proof.
  intros db sid userId now swap Hget Hne.
  apply String.eqb_neq in Hne.
  assert (Ha : may_update "accepted" userId swap = false).
  { unfold may_update. rewrite Hne. cbn. apply andb_false_r. }
  assert (Hr : may_update "rejected" userId swap = false).
  { unfold may_update. rewrite Hne. cbn. apply andb_false_r. }
  destruct (update_refused db sid "accepted" userId now swap eq_refl Hget Ha) as (ea & Hea & Hka).
  destruct (update_refused db sid "rejected" userId now swap eq_refl Hget Hr) as (er & Her & Hkr).
  unfold SwapModel.acceptSwapRequest, SwapModel.rejectSwapRequest.
  rewrite Hea, Her. cbn [snd].
  repeat split; eauto using status_of_found.
Qed.

Lemma C7_only_receiver_accepts_or_rejects_witness :
  (exists e, SwapModel.acceptSwapRequest "s-1" "u-alice" 30 (Example.with_swap1 "pending")
             = (inl e, Example.with_swap1 "pending")
             /\ kind_of_error e = Forbidden)
  /\ (exists e, SwapModel.rejectSwapRequest "s-1" "u-alice" 30 (Example.with_swap1 "pending")
                = (inl e, Example.with_swap1 "pending")
                /\ kind_of_error e = Forbidden)
  /\ status_of "s-1"
       (snd (SwapModel.acceptSwapRequest "s-1" "u-alice" 30 (Example.with_swap1 "pending")))
     = Some "pending"
  /\ status_of "s-1"
       (snd (SwapModel.rejectSwapRequest "s-1" "u-alice" 30 (Example.with_swap1 "pending")))
     = Some "pending".
Proof.
  apply (C7_only_receiver_accepts_or_rejects (Example.with_swap1 "pending") "s-1" "u-alice" 30
           (SwapModel.mk_swap_object "s-1" "u-alice" "Alice" None "u-bob" "Bob" None
              "k-guitar" "Guitar" "k-spanish" "Spanish" None "pending" 10 10 [])).
  - reflexivity.
  - discriminate.
Defined.

(** ** What a swap found by [getSwapRequestById] says about the tables *)

Lemma select_swap_inv db sid row :
  In row (SwapModel.select_swap_by_id sid db) ->
  exists sr,
    In sr (swap_requests db) /\ sr_id sr = sid
    /\ SwapModel.id row = sid
    /\ SwapModel.senderId row = sr_sender_id sr
    /\ SwapModel.receiverId row = sr_receiver_id sr
    /\ SwapModel.status row = sr_status sr
    /\ has_user db (SwapModel.senderId row) = true
    /\ has_user db (SwapModel.receiverId row) = true.
Proof.
  unfold SwapModel.select_swap_by_id, SwapModel.swap_join. intros H.
  apply in_flat_map in H as (sr & Hsr & H). apply filter_In in Hsr as [Hsr Hid].
  apply String.eqb_eq in Hid.
  apply in_flat_map in H as (sender & Hs & H). apply filter_In in Hs as [Hs Hsid].
  apply in_flat_map in H as (receiver & Hr & H). apply filter_In in Hr as [Hr Hrid].
  apply in_flat_map in H as (offered & _ & H).
  apply in_map_iff in H as (wanted & <- & _).
  exists sr. cbn. repeat split; try assumption.
  - unfold has_user. apply existsb_exists. exists sender. split; [assumption|].
    now rewrite String.eqb_sym.
  - unfold has_user. apply existsb_exists. exists receiver. split; [assumption|].
    now rewrite String.eqb_sym.
Qed.

Lemma found_inv db sid sw :
  SwapModel.getSwapRequestById sid db = (inr (Some sw), db) ->
  exists sr,
    In sr (swap_requests db) /\ sr_id sr = sid
    /\ SwapModel.id sw = sid
    /\ SwapModel.senderId sw = sr_sender_id sr
    /\ SwapModel.receiverId sw = sr_receiver_id sr
    /\ SwapModel.status sw = sr_status sr
    /\ has_user db (SwapModel.senderId sw) = true
    /\ has_user db (SwapModel.receiverId sw) = true.
Proof.
  intros H. destruct (get_found _ _ _ H) as (row & rest & Hrows & ->).
  apply (select_swap_inv db sid row). rewrite Hrows. now left.
Qed.

Lemma found_has_swap db sid sw :
  SwapModel.getSwapRequestById sid db = (inr (Some sw), db) -> has_swap db sid = true.
Proof.
  intros H. destruct (found_inv _ _ _ H) as (sr & Hin & Hid & _).
  unfold has_swap. apply existsb_exists. exists sr. split; [assumption|].
  now apply String.eqb_eq.
Qed.

Lemma participant_has_user db sid sw userId :
  SwapModel.getSwapRequestById sid db = (inr (Some sw), db) ->
  is_participant userId sw = true -> has_user db userId = true.
Proof.
  intros H Hp. destruct (found_inv _ _ _ H) as (sr & _ & _ & _ & _ & _ & _ & Hs & Hr).
  unfold is_participant in Hp. apply orb_true_iff in Hp as [Hp | Hp];
    apply String.eqb_eq in Hp; now subst.
Qed.

Lemma existsb_pointwise {A : Type} (p q : A -> bool) (l : list A) :
  (forall a, p a = q a) -> existsb p l = existsb q l.
Proof.
  intros H. induction l as [|a l IH]; simpl; [reflexivity|]. now rewrite H, IH.
Qed.

Lemma filter_none {A : Type} (p : A -> bool) (l : list A) :
  existsb p l = false -> filter p l = [].
Proof.
  induction l as [|a l IH]; simpl; [reflexivity|].
  intros H. apply orb_false_iff in H as [Ha Hl]. rewrite Ha. auto.
Qed.

Lemma filter_some {A : Type} (p : A -> bool) (l : list A) :
  existsb p l = true -> exists a rest, filter p l = a :: rest /\ p a = true.
Proof.
  induction l as [|a l IH]; simpl; [discriminate|].
  destruct (p a) eqn:Ha; [eauto | exact IH].
Qed.

(** ** Deleting a swap request *)

Lemma delete_spec db sid userId sw :
  SwapModel.getSwapRequestById sid db = (inr (Some sw), db) ->
  SwapModel.deleteSwapRequest sid userId db
  = if negb (SwapModel.senderId sw =? userId)
    then (inl (JsError "Only the sender can delete a swap request"), db)
    else if negb (SwapModel.status sw =? "pending")
    then (inl (JsError "Only pending swap requests can be deleted"), db)
    else (inr true, snd (SwapModel.delete_swap_request sid db)).
Proof.
  intros Hget. unfold SwapModel.deleteSwapRequest, bind at 1. rewrite Hget.
  unfold bind, throw_if.
  destruct (negb (SwapModel.senderId sw =? userId)); [reflexivity|]. cbn [ret].
  destruct (negb (SwapModel.status sw =? "pending")); [reflexivity|]. cbn [ret].
  unfold SwapModel.delete_swap_request, dml. cbn [snd].
  destruct (found_inv _ _ _ Hget) as (sr & Hin & Hid & _).
  destruct (filter_some (fun r => sr_id r =? sid) (swap_requests db)) as (a & rest & -> & _).
  { apply existsb_exists. exists sr. split; [assumption | now apply String.eqb_eq]. }
  reflexivity.
Qed.

Lemma delete_not_found db sid userId :
  SwapModel.getSwapRequestById sid db = (inr None, db) ->
  SwapModel.deleteSwapRequest sid userId db = (inl (JsError "Swap request not found"), db).
Proof.
  intros H. unfold SwapModel.deleteSwapRequest, bind. now rewrite H.
Qed.

(** C9 (as amended). [deleteSwapRequest] succeeds exactly when the swap
    exists, the caller is its sender and its status is pending.  On an
    accepted swap it throws for every caller and changes nothing, so the
    swap is still returned by [getSwapRequestById], still accepted.  The
    sender is tested before the status: called by the sender the error is
    the InvalidState one, ['Only pending swap requests can be deleted'];
    called by anyone else it is ['Only the sender can delete a swap
    request'], a Forbidden failure. *)
Theorem C9_delete_only_pending_by_sender :
  forall (db : database) (sid userId : string),
    (succeeded (SwapModel.deleteSwapRequest sid userId db) = true
     <-> exists swap, SwapModel.getSwapRequestById sid db = (inr (Some swap), db)
                      /\ SwapModel.senderId swap = userId
                      /\ SwapModel.status swap = "pending")
    /\ (forall swap,
          SwapModel.getSwapRequestById sid db = (inr (Some swap), db) ->
          SwapModel.status swap = "accepted" ->
          (exists e, SwapModel.deleteSwapRequest sid userId db = (inl e, db))
          /\ SwapModel.getSwapRequestById sid (snd (SwapModel.deleteSwapRequest sid userId db))
             = (inr (Some swap), snd (SwapModel.deleteSwapRequest sid userId db))
          /\ status_of sid (snd (SwapModel.deleteSwapRequest sid userId db)) = Some "accepted"
          /\ (SwapModel.senderId swap = userId ->
              SwapModel.deleteSwapRequest sid userId db
              = (inl (JsError "Only pending swap requests can be deleted"), db)
              /\ kind_of_error (JsError "Only pending swap requests can be deleted")
                 = InvalidState)
          /\ (SwapModel.senderId swap <> userId ->
              SwapModel.deleteSwapRequest sid userId db
              = (inl (JsError "Only the sender can delete a swap request"), db)
              /\ kind_of_error (JsError "Only the sender can delete a swap request")
                 = Forbidden)).
Proof.
  intros db sid userId. split; [split|].
  - intros Hok. destruct (get_total db sid) as [Hnone | [sw Hget]].
    + rewrite (delete_not_found _ _ _ Hnone) in Hok. discriminate.
    + exists sw. split; [exact Hget|].
      rewrite (delete_spec _ _ userId _ Hget) in Hok.
      destruct (SwapModel.senderId sw =? userId) eqn:Es; [|discriminate].
      destruct (SwapModel.status sw =? "pending") eqn:Ep; [|discriminate].
      split; now apply String.eqb_eq.
  - intros (sw & Hget & Hs & Hp). rewrite (delete_spec _ _ userId _ Hget).
    apply String.eqb_eq in Hs, Hp. rewrite Hs, Hp. reflexivity.
  - intros sw Hget Hacc.
    assert (Hfail : exists e, SwapModel.deleteSwapRequest sid userId db = (inl e, db)).
    { rewrite (delete_spec _ _ userId _ Hget), Hacc.
      destruct (negb (SwapModel.senderId sw =? userId)); cbn; eauto. }
    destruct Hfail as (e & He). rewrite He. cbn [snd].
    split; [eauto|]. split; [exact Hget|].
    split; [rewrite <- Hacc; now apply status_of_found|]. split.
    + intros Hs. split; [|reflexivity].
      rewrite <- He, (delete_spec _ _ userId _ Hget), Hacc.
      apply String.eqb_eq in Hs. rewrite Hs. reflexivity.
    + intros Hs. split; [|reflexivity].
      rewrite <- He, (delete_spec _ _ userId _ Hget).
      apply String.eqb_neq in Hs. rewrite Hs. reflexivity.
Qed.

Lemma C9_delete_only_pending_by_sender_witness :
  (exists e, SwapModel.deleteSwapRequest "s-1" "u-alice" (Example.with_swap1 "accepted")
             = (inl e, Example.with_swap1 "accepted"))
  /\ status_of "s-1"
       (snd (SwapModel.deleteSwapRequest "s-1" "u-alice" (Example.with_swap1 "accepted")))
     = Some "accepted"
  /\ SwapModel.deleteSwapRequest "s-1" "u-alice" (Example.with_swap1 "accepted")
     = (inl (JsError "Only pending swap requests can be deleted"), Example.with_swap1 "accepted").
Proof.
  destruct (proj2 (C9_delete_only_pending_by_sender (Example.with_swap1 "accepted") "s-1" "u-alice")
                  (SwapModel.mk_swap_object "s-1" "u-alice" "Alice" None "u-bob" "Bob" None
                     "k-guitar" "Guitar" "k-spanish" "Spanish" None "accepted" 10 10 [])
                  eq_refl eq_refl) as (H1 & _ & H3 & H4 & _).
  exact (conj H1 (conj H3 (proj1 (H4 eq_refl)))).
Defined.

(** C9: Bob is the receiver of the accepted swap [s-1], not its sender;
    his delete is refused as ['Only the sender can delete a swap request'],
    which is a Forbidden failure and not the InvalidState one. *)
Lemma C9_counterexample :
  status_of "s-1" (Example.with_swap1 "accepted") = Some "accepted"
  /\ SwapModel.deleteSwapRequest "s-1" "u-bob" (Example.with_swap1 "accepted")
     = (inl (JsError "Only the sender can delete a swap request"),
        Example.with_swap1 "accepted")
  /\ kind_of_error (JsError "Only the sender can delete a swap request") = Forbidden.
Proof. repeat split; reflexivity. Qed.

(** ** Feedback *)

Lemma addFeedback_spec db sid userId rating comment uuid now sw :
  SwapModel.getSwapRequestById sid db = (inr (Some sw), db) ->
  SwapModel.addFeedback sid userId rating comment uuid now db
  = if negb (is_participant userId sw)
    then (inl (JsError "Only participants can add feedback"), db)
    else if negb (SwapModel.status sw =? "completed")
    then (inl (JsError "Feedback can only be added to completed swaps"), db)
    else if Nat.ltb 0 (List.length (SwapModel.select_feedback_of sid userId db))
    then (inl (JsError "You have already left feedback for this swap"), db)
    else
      match SwapModel.insert_feedback uuid sid userId rating comment now db with
      | (inl e, db') => (inl e, db')
      | (inr id_out, db') =>
          match SwapModel.select_feedback_by_id id_out db' with
          | [] => (inl (JsError "Error retrieving created feedback"), db')
          | fb :: _ => (inr fb, db')
          end
      end.
Proof.
  intros Hget. unfold SwapModel.addFeedback, bind at 1. rewrite Hget.
  unfold is_participant. rewrite negb_orb.
  unfold bind, throw_if, select.
  destruct (negb (SwapModel.senderId sw =? userId) && negb (SwapModel.receiverId sw =? userId));
    [reflexivity|]. cbn [ret].
  destruct (negb (SwapModel.status sw =? "completed")); [reflexivity|]. cbn [ret].
  destruct (Nat.ltb 0 (List.length (SwapModel.select_feedback_of sid userId db)));
    [reflexivity|]. cbn [ret].
  destruct (SwapModel.insert_feedback uuid sid userId rating comment now db) as [[e|i] db'];
    [reflexivity|].
  destruct (SwapModel.select_feedback_by_id i db'); reflexivity.
Qed.

Lemma addFeedback_not_found db sid userId rating comment uuid now :
  SwapModel.getSwapRequestById sid db = (inr None, db) ->
  SwapModel.addFeedback sid userId rating comment uuid now db
  = (inl (JsError "Swap request not found"), db).
Proof.
  intros H. unfold SwapModel.addFeedback, bind. now rewrite H.
Qed.

Lemma insert_feedback_out_of_range db sid userId rating comment uuid now :
  (rating < 1 \/ 5 < rating)%Z ->
  exists e, SwapModel.insert_feedback uuid sid userId rating comment now db = (inl e, db).
Proof.
  intros Hr. unfold SwapModel.insert_feedback, dml.
  destruct (existsb (fun f => f_id f =? uuid) (feedback db)); [eauto|].
  destruct (negb (has_swap db sid)); [eauto|].
  destruct (negb (has_user db userId)); [eauto|].
  replace ((1 <=? rating)%Z && (rating <=? 5)%Z) with false; [cbn; eauto|].
  symmetry. apply andb_false_iff.
  destruct Hr; [left; apply Z.leb_gt | right; apply Z.leb_gt]; assumption.
Qed.

Lemma addFeedback_out_of_range db sid userId rating comment uuid now :
  (rating < 1 \/ 5 < rating)%Z ->
  exists e, SwapModel.addFeedback sid userId rating comment uuid now db = (inl e, db).
Proof.
  intros Hr. destruct (get_total db sid) as [Hnone | [sw Hget]].
  - rewrite (addFeedback_not_found _ _ _ _ _ _ _ Hnone). eauto.
  - rewrite (addFeedback_spec _ _ _ _ _ _ _ _ Hget).
    destruct (negb (is_participant userId sw)); [eauto|].
    destruct (negb (SwapModel.status sw =? "completed")); [eauto|].
    destruct (Nat.ltb 0 _); [eauto|].
    destruct (insert_feedback_out_of_range db sid userId rating comment uuid now Hr) as (e & ->).
    eauto.
Qed.

(** C6. A rating below 1 or above 5 is refused with the validator's
    message, ['Rating is required and must be between 1 and 5'] (status
    400), before the handler calls the model, and the database is as it was.
    The model's [addFeedback] called with such a rating does not insert
    either: whatever its earlier checks say, the [INSERT] violates the
    column's [CHECK (rating BETWEEN 1 AND 5)]. *)
Theorem C6_rating_out_of_range_rejected :
  forall (db : database) (user : req_user) (sid : string) (rating : Z)
         (comment : option string) (uuid : string) (now : Z),
    (rating < 1 \/ 5 < rating)%Z ->
    SwapController.addFeedback user sid rating comment uuid now db
    = (Invalid 400 [SwapController.rating_message], db)
    /\ kind_of_response (fst (SwapController.addFeedback user sid rating comment uuid now db))
       = Some InvalidRating
    /\ (forall userId,
          exists e, SwapModel.addFeedback sid userId rating comment uuid now db = (inl e, db))
    /\ (forall userId,
          feedback (snd (SwapModel.addFeedback sid userId rating comment uuid now db))
          = feedback db).
Proof.
  intros db user sid rating comment uuid now Hr.
  assert (Hv : SwapController.feedback_errors rating = [SwapController.rating_message]).
  { unfold SwapController.feedback_errors.
    replace ((1 <=? rating)%Z && (rating <=? 5)%Z) with false; [reflexivity|].
    symmetry. apply andb_false_iff.
    destruct Hr; [left; apply Z.leb_gt | right; apply Z.leb_gt]; assumption. }
  assert (Hc : SwapController.addFeedback user sid rating comment uuid now db
               = (Invalid 400 [SwapController.rating_message], db)).
  { unfold SwapController.addFeedback. rewrite Hv. reflexivity. }
  split; [exact Hc|]. split; [rewrite Hc; reflexivity|]. split.
  - intros userId. now apply addFeedback_out_of_range.
  - intros userId.
    destruct (addFeedback_out_of_range db sid userId rating comment uuid now Hr) as (e & ->).
    reflexivity.
Qed.

Lemma C6_rating_out_of_range_rejected_witness :
  SwapController.addFeedback Example.bob_user "s-1" 6 (Some "too good") "f-9" 30
    (Example.with_swap1 "completed")
  = (Invalid 400 [SwapController.rating_message], Example.with_swap1 "completed")
  /\ feedback (snd (SwapModel.addFeedback "s-1" "u-bob" 6 (Some "too good") "f-9" 30
                      (Example.with_swap1 "completed")))
     = [].
Proof.
  destruct (C6_rating_out_of_range_rejected (Example.with_swap1 "completed")
              Example.bob_user "s-1" 6 (Some "too good") "f-9" 30
              (or_intror eq_refl)) as (H1 & _ & _ & H4).
  exact (conj H1 (H4 "u-bob")).
Defined.

Lemma no_feedback_yet db sid userId :
  SwapModel.select_feedback_of sid userId db = [] ->
  existsb (fun f => (f_user_id f =? userId) && (f_swap_id f =? sid)) (feedback db) = false.
Proof.
  unfold SwapModel.select_feedback_of.
  induction (feedback db) as [|f l IH]; simpl; [reflexivity|].
  rewrite (andb_comm (f_user_id f =? userId)).
  destruct ((f_swap_id f =? sid) && (f_user_id f =? userId)); [discriminate|].
  exact IH.
Qed.


Lemma insert_feedback_ok db sid userId rating comment uuid now :
  existsb (fun f => f_id f =? uuid) (feedback db) = false ->
  has_swap db sid = true ->
  has_user db userId = true ->
  (1 <= rating <= 5)%Z ->
  SwapModel.select_feedback_of sid userId db = [] ->
  fits 500 comment = true ->
  SwapModel.insert_feedback uuid sid userId rating comment now db
  = (inr uuid,
     with_feedback db
       (feedback db ++ [mk_feedback uuid sid userId rating (or_null comment) now])).
Proof.
  intros Hfresh Hswap Huser [H1 H5] Hnone Hfits.
  unfold SwapModel.insert_feedback, dml.
  rewrite Hfresh, Hswap, Huser, (no_feedback_yet _ _ _ Hnone), Hfits.
  apply Z.leb_le in H1, H5. rewrite H1, H5. reflexivity.
Qed.

Lemma select_inserted_feedback db sid userId rating comment uuid now :
  existsb (fun f => f_id f =? uuid) (feedback db) = false ->
  has_user db userId = true ->
  exists fb rest,
    SwapModel.select_feedback_by_id uuid
      (with_feedback db (feedback db ++ [mk_feedback uuid sid userId rating comment now]))
    = fb :: rest
    /\ SwapModel.fb_id fb = uuid /\ SwapModel.fb_userId fb = userId
    /\ SwapModel.fb_rating fb = rating /\ SwapModel.fb_comment fb = comment.
Proof.
  intros Hfresh Huser. unfold SwapModel.select_feedback_by_id.
  cbn [feedback with_feedback]. rewrite filter_app, (filter_none _ _ Hfresh).
  cbn [filter app f_id]. rewrite String.eqb_refl. cbn [flat_map].
  unfold SwapModel.feedback_join. cbn [users with_feedback f_user_id].
  destruct (filter_some (fun u => userId =? u_id u) (users db)) as (u & rest & -> & _).
  { unfold has_user in Huser. rewrite <- Huser. apply existsb_pointwise.
    intros u. apply String.eqb_sym. }
  cbn. eexists _, _. split; [reflexivity|]. repeat split.
Qed.



(** ** Racing status updates *)

Import Interleaving.

(** The three steps of a request, run without interruption, are the call. *)
Lemma steps_are_the_call sid st userId now db other :
  race [(true, now); (true, now); (true, now)] (Start sid st userId) other db
  = (finished (SwapModel.updateSwapRequestStatus sid st userId now db), other,
     snd (SwapModel.updateSwapRequestStatus sid st userId now db)).
Proof.
  cbn [race step]. unfold finished. unfold_model.
  destruct (negb (SwapModel.includes SwapModel.statuses st)); [reflexivity|].
  cbn [fst snd].
  destruct (SwapModel.select_swap_by_id sid db) as [|row rest]; [reflexivity|].
  cbn [fst snd]. branch; cbn [fst snd]; try reflexivity.
  all: cbn [step fst snd]; unfold_model; cbn [fst snd];
    match goal with H : SwapModel.select_swap_by_id _ _ = _ |- _ => rewrite H end;
    reflexivity.
Qed.

Lemma received_after_update sid receiver st now db :
  received_by sid receiver db ->
  received_by sid receiver (snd (SwapModel.update_status sid st now db))
  /\ status_of sid (snd (SwapModel.update_status sid st now db)) = Some st.
Proof.
  intros (sw & Hget & Hr).
  pose proof (get_after_update db sid st now sw Hget) as Hget'.
  split.
  - exists (restamp st now sw). split; [exact Hget' | exact Hr].
  - exact (status_of_found _ _ _ Hget').
Qed.

Lemma accepting_stable sid receiver now t db :
  received_by sid receiver db ->
  accepting sid receiver t db ->
  accepting sid receiver t (snd (SwapModel.update_status sid "accepted" now db)).
Proof.
  intros Hdb Ht. destruct (received_after_update sid receiver "accepted" now db Hdb) as [_ Hst].
  destruct t; cbn in *; intuition.
Qed.

Lemma step_accepting sid receiver now t db :
  received_by sid receiver db ->
  accepting sid receiver t db ->
  received_by sid receiver (snd (step now t db))
  /\ accepting sid receiver (fst (step now t db)) (snd (step now t db))
  /\ phase (fst (step now t db)) = Nat.min 3 (S (phase t))
  /\ (forall other, accepting sid receiver other db ->
                    accepting sid receiver other (snd (step now t db))).
Proof.
  intros Hdb Ht. destruct t as [s st u|s st|s|res|e]; cbn [accepting] in Ht.
  - destruct Ht as (-> & -> & ->). destruct Hdb as (sw & Hget & Hr).
    assert (Hstep : step now (Start sid "accepted" receiver) db = (Checked sid "accepted", db)).
    { cbn [step]. rewrite Hget. cbn [fst]. rewrite Hr, String.eqb_refl.
      cbn. now rewrite andb_false_r. }
    rewrite Hstep. cbn [fst snd accepting phase Nat.min].
    repeat split; eauto. exists sw. auto.
  - destruct Ht as (-> & ->). cbn [step fst snd phase].
    destruct (received_after_update sid receiver "accepted" now db Hdb) as [Hdb' Hst].
    repeat split; auto. intros other Ho. apply accepting_stable; assumption.
  - destruct Ht as (-> & Hst). pose proof Hdb as (sw & Hget & Hr).
    cbn [step]. rewrite Hget. cbn [fst snd accepting phase accepted_result].
    repeat split; auto.
    unfold status_of in Hst. rewrite Hget in Hst. cbn in Hst.
    injection Hst as Hst. rewrite Hst. reflexivity.
  - destruct Ht as [Ha Hst]. cbn [step fst snd phase accepting]. repeat split; auto.
  - contradiction.
Qed.

Lemma race_accepting sid receiver schedule : forall t1 t2 db,
  received_by sid receiver db ->
  accepting sid receiver t1 db ->
  accepting sid receiver t2 db ->
  let '(t1', t2', db') := race schedule t1 t2 db in
  received_by sid receiver db'
  /\ accepting sid receiver t1' db'
  /\ accepting sid receiver t2' db'
  /\ phase t1' = Nat.min 3 (phase t1 + turns true schedule)
  /\ phase t2' = Nat.min 3 (phase t2 + turns false schedule).
Proof.
  induction schedule as [|[who now] rest IH]; intros t1 t2 db Hdb H1 H2.
  - unfold turns. cbn [race filter List.length].
    assert (phase t1 <= 3 /\ phase t2 <= 3) by (destruct t1, t2; cbn; lia).
    repeat split; auto; lia.
  - destruct who; cbn [race].
    + destruct (step_accepting sid receiver now t1 db Hdb H1) as (Hdb' & H1' & Hph & Hother).
      destruct (step now t1 db) as [t1' db'] eqn:Hstep. cbn [fst snd] in *.
      specialize (IH t1' t2 db' Hdb' H1' (Hother t2 H2)).
      destruct (race rest t1' t2 db') as [[u1 u2] dbf].
      destruct IH as (A & B & C & D & E). repeat split; auto;
        rewrite ?D, ?E, ?Hph; unfold turns; cbn [filter fst Bool.eqb List.length]; lia.
    + destruct (step_accepting sid receiver now t2 db Hdb H2) as (Hdb' & H2' & Hph & Hother).
      destruct (step now t2 db) as [t2' db'] eqn:Hstep. cbn [fst snd] in *.
      specialize (IH t1 t2' db' Hdb' (Hother t1 H1) H2').
      destruct (race rest t1 t2' db') as [[u1 u2] dbf].
      destruct IH as (A & B & C & D & E). repeat split; auto;
        rewrite ?D, ?E, ?Hph; unfold turns; cbn [filter fst Bool.eqb List.length]; lia.
Qed.

Lemma accepting_finished sid receiver t db :
  accepting sid receiver t db -> phase t = 3 ->
  accepted_result t = true /\ status_of sid db = Some "accepted".
Proof.
  destruct t; cbn [phase accepting]; intros H Hp; try discriminate; [exact H | contradiction].
Qed.

(** C3 (as amended). The [UPDATE] that persists a transition is keyed by
    the swap's id alone: whatever the stored status is, it is overwritten
    with the requested one.  The caller is checked against an earlier read,
    and the current status is checked nowhere.  So when the receiver's two
    accepts of one swap race, under every schedule that lets both run to
    their end both return the accepted swap; neither is refused, and the
    swap ends accepted. *)
Theorem C3_unconditional_update_both_accepts_succeed :
  forall (db : database) (sid receiver : string) (swap : SwapModel.swap)
         (schedule : list (bool * Z)),
    SwapModel.getSwapRequestById sid db = (inr (Some swap), db) ->
    SwapModel.receiverId swap = receiver ->
    3 <= turns true schedule ->
    3 <= turns false schedule ->
    (forall st now,
       status_of sid (snd (SwapModel.update_status sid st now db)) = Some st)
    /\ let '(t1, t2, db') :=
         race schedule (Start sid "accepted" receiver) (Start sid "accepted" receiver) db in
       accepted_result t1 = true
       /\ accepted_result t2 = true
       /\ status_of sid db' = Some "accepted".
Proof.
  intros db sid receiver swap schedule Hget Hr Hn1 Hn2.
  assert (Hdb : received_by sid receiver db) by (exists swap; auto).
  split.
  - intros st now. exact (proj2 (received_after_update sid receiver st now db Hdb)).
  - pose proof (race_accepting sid receiver schedule
                  (Start sid "accepted" receiver) (Start sid "accepted" receiver) db Hdb) as H.
    destruct (race schedule (Start sid "accepted" receiver) (Start sid "accepted" receiver) db)
      as [[t1 t2] db'].
    destruct H as (_ & H1 & H2 & P1 & P2); [cbn; auto | cbn; auto |].
    cbn [phase] in P1, P2.
    destruct (accepting_finished sid receiver t1 db' H1) as [A1 S1]; [lia|].
    destruct (accepting_finished sid receiver t2 db' H2) as [A2 _]; [lia|].
    auto.
Qed.

Lemma C3_unconditional_update_both_accepts_succeed_witness :
  let '(t1, t2, db') :=
    race [(true, 30); (false, 31); (false, 32); (true, 33); (true, 34); (false, 35)]%Z
      (Start "s-1" "accepted" "u-bob") (Start "s-1" "accepted" "u-bob")
      (Example.with_swap1 "pending") in
  accepted_result t1 = true /\ accepted_result t2 = true
  /\ status_of "s-1" db' = Some "accepted".
Proof.
  assert (H3 : 3 <= 3) by lia.
  exact (proj2 (C3_unconditional_update_both_accepts_succeed
                  (Example.with_swap1 "pending") "s-1" "u-bob"
                  (SwapModel.mk_swap_object "s-1" "u-alice" "Alice" None "u-bob" "Bob" None
                     "k-guitar" "Guitar" "k-spanish" "Spanish" None "pending" 10 10 [])
                  [(true, 30); (false, 31); (false, 32); (true, 33); (true, 34); (false, 35)]%Z
                  eq_refl eq_refl H3 H3)).
Defined.

(** C3: the receiver accepts the pending swap [s-1] twice.  Run one after
    the other both calls succeed; so do they when their statements
    alternate; and the [UPDATE] of an accept rewrites a row that is
    rejected. *)
Lemma C3_counterexample :
  succeeded (SwapModel.acceptSwapRequest "s-1" "u-bob" 30 (Example.with_swap1 "pending")) = true
  /\ succeeded (SwapModel.acceptSwapRequest "s-1" "u-bob" 31
                  (snd (SwapModel.acceptSwapRequest "s-1" "u-bob" 30
                          (Example.with_swap1 "pending")))) = true
  /\ (let '(t1, t2, _) :=
        race [(true, 30); (false, 31); (true, 32); (false, 33); (true, 34); (false, 35)]%Z
          (Start "s-1" "accepted" "u-bob") (Start "s-1" "accepted" "u-bob")
          (Example.with_swap1 "pending") in
      accepted_result t1 && accepted_result t2) = true
  /\ swap_requests (snd (SwapModel.update_status "s-1" "accepted" 30
                           (Example.with_swap1 "rejected")))
     = [SwapModel.set_status "accepted" 30 (Example.swap1 "rejected")].
Proof. repeat split; reflexivity. Qed.

(** ** Creating a swap request *)

Lemma in_insert_by {A : Type} (key : A -> string) (x y : A) (l : list A) :
  In y (insert_by key x l) <-> y = x \/ In y l.
Proof.
  induction l as [|a l IH]; simpl.
  - intuition.
  - destruct (String.leb (key x) (key a)); simpl; [intuition|].
    rewrite IH. intuition.
Qed.

Lemma in_order_by {A : Type} (key : A -> string) (y : A) (l : list A) :
  In y (order_by key l) <-> In y l.
Proof.
  induction l as [|a l IH]; simpl; [reflexivity|].
  rewrite in_insert_by, IH. intuition.
Qed.

Lemma some_id_offered db userId skillId :
  SwapController.some_id (map SkillModel.short_object (SkillModel.select_offered userId db)) skillId
  = offers db userId skillId && has_skill db skillId.
Proof.
  apply eq_true_iff_eq. rewrite andb_true_iff.
  unfold SwapController.some_id, offers, has_skill, SkillModel.select_offered.
  rewrite !existsb_exists. split.
  - intros (k & Hin & Hid). apply in_map_iff in Hin as (row & <- & Hin).
    cbn in Hid. apply String.eqb_eq in Hid.
    apply in_order_by, in_flat_map in Hin as (uso & Huso & Hrow).
    apply filter_In in Huso as [Huso Hu]. apply filter_In in Hrow as [Hrow Hk].
    apply String.eqb_eq in Hk. split.
    + exists uso. split; [assumption|]. rewrite Hu. cbn. apply String.eqb_eq. congruence.
    + exists row. split; [assumption|]. now apply String.eqb_eq.
  - intros [(uso & Huso & Hboth) (row & Hrow & Hid)].
    apply andb_true_iff in Hboth as [Hu Hk]. apply String.eqb_eq in Hk, Hid.
    exists (SkillModel.short_object row). split.
    + apply in_map, in_order_by, in_flat_map. exists uso. split.
      * apply filter_In. auto.
      * apply filter_In. split; [assumption|]. apply String.eqb_eq. congruence.
    + cbn. now apply String.eqb_eq.
Qed.

Lemma getUserById_active db uid :
  fst (UserModel.getUserById uid db) = inr None <-> active db uid = false.
Proof.
  unfold UserModel.getUserById, select, active. cbn [fst].
  destruct (existsb (fun u => (u_id u =? uid) && negb (u_is_banned u)) (users db)) eqn:E.
  - destruct (filter_some _ _ E) as (u & rest & -> & _). split; discriminate.
  - rewrite (filter_none _ _ E). split; reflexivity.
Qed.

Lemma createSwapRequest_spec user b uuid now db :
  SwapController.createSwapRequest user b uuid now db
  = match SwapController.create_errors b with
    | _ :: _ => (Invalid 400 (SwapController.create_errors b), db)
    | [] =>
        if SwapController.receiverId b =? ru_id user
        then (Fail 400 "You cannot create a swap request with yourself", db)
        else if negb (active db (SwapController.receiverId b))
        then (Fail 404 "Receiver not found", db)
        else if negb (offers db (ru_id user) (SwapController.offeredSkillId b)
                      && has_skill db (SwapController.offeredSkillId b))
        then (Fail 400 "Offered skill does not belong to you", db)
        else if negb (offers db (SwapController.receiverId b) (SwapController.wantedSkillId b)
                      && has_skill db (SwapController.wantedSkillId b))
        then (Fail 400 "Wanted skill does not belong to receiver", db)
        else
          match SwapModel.createSwapRequest
                  (SwapModel.mk_swap_data (ru_id user) (SwapController.receiverId b)
                     (SwapController.offeredSkillId b) (SwapController.wantedSkillId b)
                     (SwapController.message b)) uuid now db with
          | (inl _, db') => (Fail 500 "Server error", db')
          | (inr swapRequest, db') => (Ok 201 (SwapPayload swapRequest), db')
          end
    end.
Proof.
  unfold SwapController.createSwapRequest, catch_500.
  destruct (SwapController.create_errors b); [|reflexivity].
  destruct (SwapController.receiverId b =? ru_id user); [reflexivity|].
  unfold bind at 1.
  pose proof (getUserById_active db (SwapController.receiverId b)) as Hact.
  destruct (UserModel.getUserById (SwapController.receiverId b) db) as [[e|[u|]] db1] eqn:Hu;
    unfold UserModel.getUserById, select in Hu; injection Hu as Hu <-; try discriminate.
  - destruct (active db (SwapController.receiverId b)) eqn:Ea.
    + cbn [negb]. unfold bind at 1, SkillModel.getUserOfferedSkills at 1, select at 1.
      rewrite some_id_offered.
      destruct (offers db (ru_id user) (SwapController.offeredSkillId b)
                && has_skill db (SwapController.offeredSkillId b)); [|reflexivity].
      cbn [negb]. unfold bind at 1, SkillModel.getUserOfferedSkills at 1, select at 1.
      rewrite some_id_offered.
      destruct (offers db (SwapController.receiverId b) (SwapController.wantedSkillId b)
                && has_skill db (SwapController.wantedSkillId b)); [|reflexivity].
      cbn [negb]. unfold bind at 1.
      destruct (SwapModel.createSwapRequest _ uuid now db) as [[e|s] db']; reflexivity.
    + cbn [fst] in Hact. destruct Hact as [_ Hact]. specialize (Hact eq_refl). discriminate.
  - cbn [fst] in Hact. destruct Hact as [Hact _]. rewrite (Hact eq_refl). reflexivity.
Qed.

Lemma active_has_user db uid : active db uid = true -> has_user db uid = true.
Proof.
  unfold active, has_user. rewrite !existsb_exists.
  intros (u & Hin & Hu). apply andb_true_iff in Hu as [Hu _]. eauto.
Qed.

Lemma create_errors_none b :
  SwapController.create_errors b = [] ->
  (SwapController.receiverId b =? "") = false
  /\ (SwapController.offeredSkillId b =? "") = false
  /\ (SwapController.wantedSkillId b =? "") = false.
Proof.
  unfold SwapController.create_errors, SwapController.not_empty.
  destruct (SwapController.receiverId b =? ""); [discriminate|].
  destruct (SwapController.offeredSkillId b =? ""); [discriminate|].
  destruct (SwapController.wantedSkillId b =? ""); [discriminate|]. auto.
Qed.

(** C4 (as amended). The handler [createSwapRequest] answers 201 only when
    the offered skill is in the sender's offered set and the wanted skill
    in the receiver's offered set, both being entries of the skill
    directory.  The directory status of a skill is not looked at: for a
    valid body, a receiver in good standing other than the sender, skills
    in the two offered sets, a fresh id and a message that fits, the swap
    is stored as pending whatever the statuses of the two skills are. *)
Theorem C4_create_checks_offered_sets_only :
  forall (db : database) (user : req_user) (b : SwapController.create_body)
         (uuid : string) (now : Z),
    (forall data,
       fst (SwapController.createSwapRequest user b uuid now db) = Ok 201 data ->
       offers db (ru_id user) (SwapController.offeredSkillId b) = true
       /\ has_skill db (SwapController.offeredSkillId b) = true
       /\ offers db (SwapController.receiverId b) (SwapController.wantedSkillId b) = true
       /\ has_skill db (SwapController.wantedSkillId b) = true)
    /\ (SwapController.create_errors b = [] ->
        ru_id user <> "" ->
        SwapController.receiverId b <> ru_id user ->
        has_user db (ru_id user) = true ->
        active db (SwapController.receiverId b) = true ->
        offers db (ru_id user) (SwapController.offeredSkillId b) = true ->
        has_skill db (SwapController.offeredSkillId b) = true ->
        offers db (SwapController.receiverId b) (SwapController.wantedSkillId b) = true ->
        has_skill db (SwapController.wantedSkillId b) = true ->
        has_swap db uuid = false ->
        fits 500 (or_null (SwapController.message b)) = true ->
        exists swap,
          SwapController.createSwapRequest user b uuid now db
          = (Ok 201 (SwapPayload swap),
             with_swap_requests db
               (swap_requests db
                ++ [mk_swap uuid (ru_id user) (SwapController.receiverId b)
                      (SwapController.offeredSkillId b) (SwapController.wantedSkillId b)
                      (or_null (SwapController.message b)) "pending" now now]))).
Proof.
  intros db user b uuid now. rewrite createSwapRequest_spec. split.
  - intros data. destruct (SwapController.create_errors b); [|discriminate].
    destruct (SwapController.receiverId b =? ru_id user); [discriminate|].
    destruct (negb (active db (SwapController.receiverId b))); [discriminate|].
    destruct (offers db (ru_id user) (SwapController.offeredSkillId b)
              && has_skill db (SwapController.offeredSkillId b)) eqn:Eo; [|discriminate].
    destruct (offers db (SwapController.receiverId b) (SwapController.wantedSkillId b)
              && has_skill db (SwapController.wantedSkillId b)) eqn:Ew; [|discriminate].
    intros _. apply andb_true_iff in Eo as [? ?], Ew as [? ?]. auto.
  - intros Hv Hsender Hne Huser Hact Ho Hko Hw Hkw Hfresh Hfits.
    destruct (create_errors_none b Hv) as (Hr & Hoe & Hwe).
    rewrite Hv. apply String.eqb_neq in Hne, Hsender. rewrite Hne, Hact, Ho, Hko, Hw, Hkw.
    cbn [negb andb].
    unfold SwapModel.createSwapRequest, bind, SwapModel.insert_swap_request, dml.
    cbn [SwapModel.sd_senderId SwapModel.sd_receiverId SwapModel.sd_offeredSkillId
         SwapModel.sd_wantedSkillId SwapModel.sd_message].
    rewrite Hfresh, Hsender, Hr, Hoe, Hwe, Huser, (active_has_user _ _ Hact), Hko, Hkw, Hfits.
    cbn [negb orb].
    unfold SwapModel.getSwapRequestById, select. eauto.
Qed.

Lemma C4_create_checks_offered_sets_only_witness :
  exists swap,
    SwapController.createSwapRequest Example.alice_user
      (SwapController.mk_create_body "u-bob" "k-juggling" "k-spanish" None) "s-2" 40
      Example.empty_ledger
    = (Ok 201 (SwapPayload swap),
       with_swap_requests Example.empty_ledger
         [mk_swap "s-2" "u-alice" "u-bob" "k-juggling" "k-spanish" None "pending" 40 40]).
Proof.
  apply (proj2 (C4_create_checks_offered_sets_only Example.empty_ledger Example.alice_user
                  (SwapController.mk_create_body "u-bob" "k-juggling" "k-spanish" None)
                  "s-2" 40));
    (reflexivity || discriminate).
Defined.

(** C4: Alice offers Juggling, which is still pending moderation; her
    request to swap it for Bob's Spanish is answered 201 and stored. *)
Lemma C4_counterexample :
  approved Example.empty_ledger "k-juggling" = false
  /\ exists swap,
       SwapController.createSwapRequest Example.alice_user
         (SwapController.mk_create_body "u-bob" "k-juggling" "k-spanish" None) "s-2" 40
         Example.empty_ledger
       = (Ok 201 (SwapPayload (Some swap)),
          with_swap_requests Example.empty_ledger
            [mk_swap "s-2" "u-alice" "u-bob" "k-juggling" "k-spanish" None "pending" 40 40])
       /\ SwapModel.offeredSkillId swap = "k-juggling"
       /\ SwapModel.status swap = "pending".
Proof.
  split; [reflexivity|]. eexists. split; [reflexivity|]. split; reflexivity.
Qed.

(** ** Banned users *)

Lemma protect_banned db uid :
  is_banned db uid = true ->
  Auth.protect (Some uid) db
  = inl (Fail 403 "Your account has been banned. Please contact support.").
Proof.
  unfold is_banned, banned, active, Auth.protect. intros H.
  apply andb_true_iff in H as [Hb Ha]. apply negb_true_iff in Ha.
  assert (Hex : existsb (fun u => u_id u =? uid) (users db) = true).
  { apply existsb_exists. apply existsb_exists in Hb as (u & Hin & Hu).
    apply andb_true_iff in Hu as [Hu _]. eauto. }
  destruct (filter_some _ _ Hex) as (u & rest & Hf & Hid). rewrite Hf.
  destruct (u_is_banned u) eqn:Hban; [reflexivity|].
  assert (Hin : In u (users db)).
  { apply (proj1 (filter_In (fun u => u_id u =? uid) u (users db))). rewrite Hf. now left. }
  assert (Hcontra : existsb (fun u => (u_id u =? uid) && negb (u_is_banned u)) (users db) = true).
  { apply existsb_exists. exists u. split; [assumption|]. now rewrite Hid, Hban. }
  congruence.
Qed.

Lemma protect_in_good_standing db uid :
  in_good_standing db uid = true ->
  exists user, Auth.protect (Some uid) db = inr user /\ ru_id user = uid.
Proof.
  unfold in_good_standing, banned, active, Auth.protect. intros H.
  apply andb_true_iff in H as [Ha Hb]. apply negb_true_iff in Hb.
  assert (Hex : existsb (fun u => u_id u =? uid) (users db) = true).
  { apply existsb_exists. apply existsb_exists in Ha as (u & Hin & Hu).
    apply andb_true_iff in Hu as [Hu _]. eauto. }
  destruct (filter_some _ _ Hex) as (u & rest & Hf & Hid). rewrite Hf.
  assert (Hin : In u (users db)).
  { apply (proj1 (filter_In (fun u => u_id u =? uid) u (users db))). rewrite Hf. now left. }
  destruct (u_is_banned u) eqn:Hban.
  - assert (Hcontra : existsb (fun u => (u_id u =? uid) && u_is_banned u) (users db) = true).
    { apply existsb_exists. exists u. split; [assumption|]. now rewrite Hid, Hban. }
    congruence.
  - eexists. split; [reflexivity|]. cbn. now apply String.eqb_eq.
Qed.

Lemma flat_map_filter_map {A B : Type} (f : A -> A) (p : A -> bool) (g : A -> list B)
    (l : list A) :
  (forall a, p (f a) = p a) -> (forall a, g (f a) = g a) ->
  flat_map g (filter p (map f l)) = flat_map g (filter p l).
Proof.
  intros Hp Hg. induction l as [|a l IH]; simpl; [reflexivity|].
  rewrite Hp. destruct (p a); simpl; [rewrite Hg, IH|]; auto.
Qed.

Lemma map_filter_map {A B : Type} (f : A -> A) (p : A -> bool) (g : A -> B) (l : list A) :
  (forall a, p (f a) = p a) -> (forall a, g (f a) = g a) ->
  map g (filter p (map f l)) = map g (filter p l).
Proof.
  intros Hp Hg. induction l as [|a l IH]; simpl; [reflexivity|].
  rewrite Hp. destruct (p a); simpl; [rewrite Hg, IH|]; auto.
Qed.

Lemma ban_keeps_swaps db uid reason sid :
  swap_requests (snd (AdminController.ban_statement uid reason db)) = swap_requests db
  /\ SwapModel.getSwapRequestById sid (snd (AdminController.ban_statement uid reason db))
     = (fst (SwapModel.getSwapRequestById sid db),
        snd (AdminController.ban_statement uid reason db)).
Proof.
  split; [reflexivity|].
  unfold AdminController.ban_statement, dml. cbn [snd].
  set (f := fun u => if u_id u =? uid then AdminController.ban_row reason u else u).
  assert (Hid : forall u, u_id (f u) = u_id u) by (intros u; unfold f; now destruct (u_id u =? uid)).
  assert (Hname : forall u, u_name (f u) = u_name u)
    by (intros u; unfold f; now destruct (u_id u =? uid)).
  assert (Hphoto : forall u, u_profile_photo (f u) = u_profile_photo u)
    by (intros u; unfold f; now destruct (u_id u =? uid)).
  assert (Hrows : SwapModel.select_swap_by_id sid (with_users db (map f (users db)))
                  = SwapModel.select_swap_by_id sid db).
  { unfold SwapModel.select_swap_by_id. cbn [swap_requests with_users].
    apply flat_map_ext. intros sr. unfold SwapModel.swap_join. cbn [users skills with_users].
    rewrite flat_map_filter_map.
    - apply flat_map_ext. intros sender. apply flat_map_filter_map.
      + intros u. now rewrite Hid.
      + intros u. now rewrite Hname, Hphoto.
    - intros u. now rewrite Hid.
    - intros u. now rewrite Hname, Hphoto. }
  assert (Hfb : SwapModel.select_swap_feedback sid (with_users db (map f (users db)))
                = SwapModel.select_swap_feedback sid db).
  { unfold SwapModel.select_swap_feedback. cbn [feedback with_users].
    apply flat_map_ext. intros fb. unfold SwapModel.feedback_join. cbn [users with_users].
    apply map_filter_map.
    - intros u. now rewrite Hid.
    - intros u. now rewrite Hname, Hphoto. }
  unfold SwapModel.getSwapRequestById, select. cbn [fst]. now rewrite Hrows, Hfb.
Qed.

(** C5 (as amended). A creation attempt by a banned sender never reaches
    [createSwapRequest]: [protect] answers 403 with the banned-account
    message.  A creation attempt by a sender in good standing, with a valid
    body, whose receiver is another user who is banned, is answered 404
    ['Receiver not found'], a NotFound failure and not an ActorBanned one:
    [getUserById] selects users with [is_banned = 0] only.  Neither attempt
    changes the database.  The statement that bans a user changes no swap
    request, and every swap is returned by [getSwapRequestById] as before. *)
Theorem C5_banned_sender_403_banned_receiver_404 :
  forall (db : database) (senderId : string) (b : SwapController.create_body)
         (uuid : string) (now : Z),
    let result :=
      route (Some senderId) (fun user => SwapController.createSwapRequest user b uuid now) db in
    (is_banned db senderId = true ->
     result = (Fail 403 "Your account has been banned. Please contact support.", db)
     /\ kind_of_response (fst result) = Some ActorBanned)
    /\ (in_good_standing db senderId = true ->
        SwapController.create_errors b = [] ->
        SwapController.receiverId b <> senderId ->
        is_banned db (SwapController.receiverId b) = true ->
        result = (Fail 404 "Receiver not found", db)
        /\ kind_of_response (fst result) = Some NotFound)
    /\ (forall uid reason sid,
          swap_requests (snd (AdminController.ban_statement uid reason db)) = swap_requests db
          /\ SwapModel.getSwapRequestById sid (snd (AdminController.ban_statement uid reason db))
             = (fst (SwapModel.getSwapRequestById sid db),
                snd (AdminController.ban_statement uid reason db))).
Proof.
  intros db senderId b uuid now result. subst result. unfold route. split; [|split].
  - intros Hb. rewrite (protect_banned _ _ Hb). split; reflexivity.
  - intros Hs Hv Hne Hb.
    destruct (protect_in_good_standing _ _ Hs) as (user & -> & Hid).
    rewrite createSwapRequest_spec, Hv, Hid.
    apply String.eqb_neq in Hne. rewrite Hne.
    unfold is_banned in Hb. apply andb_true_iff in Hb as [_ Hb]. rewrite Hb.
    split; reflexivity.
  - intros uid reason sid. apply ban_keeps_swaps.
Qed.

Lemma C5_banned_sender_403_banned_receiver_404_witness :
  route (Some "u-alice")
    (fun user => SwapController.createSwapRequest user
                   (SwapController.mk_create_body "u-carol" "k-guitar" "k-spanish" None)
                   "s-2" 40)
    Example.empty_ledger
  = (Fail 404 "Receiver not found", Example.empty_ledger).
Proof.
  apply (proj1 (proj2 (C5_banned_sender_403_banned_receiver_404 Example.empty_ledger "u-alice"
                         (SwapController.mk_create_body "u-carol" "k-guitar" "k-spanish" None)
                         "s-2" 40)));
    (reflexivity || discriminate).
Defined.

(** C5: Carol is banned and offers Spanish; Alice's request to her is
    answered 404 ['Receiver not found'], which is not the ActorBanned
    failure. *)
Lemma C5_counterexample :
  is_banned Example.empty_ledger "u-carol" = true
  /\ route (Some "u-alice")
       (fun user => SwapController.createSwapRequest user
                      (SwapController.mk_create_body "u-carol" "k-guitar" "k-spanish" None)
                      "s-2" 40)
       Example.empty_ledger
     = (Fail 404 "Receiver not found", Example.empty_ledger)
  /\ kind_of_response (Fail 404 "Receiver not found") = Some NotFound.
Proof. repeat split; reflexivity. Qed.

(** ** The skill directory *)

Lemma createSkill_spec nm uuid now db :
  SkillModel.createSkill nm uuid now db
  = match SkillModel.select_by_name nm db with
    | k :: _ => (inr (SkillModel.full_object k), db)
    | [] =>
        match SkillModel.insert_skill uuid (trim nm) now db with
        | (inl e, db') => (inl e, db')
        | (inr k, db') => (inr (SkillModel.short_object k), db')
        end
    end.
Proof.
  unfold SkillModel.createSkill, bind, SkillModel.getSkillByName, select.
  destruct (SkillModel.select_by_name nm db); [|reflexivity].
  destruct (SkillModel.insert_skill uuid (trim nm) now db) as [[e|k] db']; reflexivity.
Qed.



(** The outcome of [insert_skill]: it fails and changes nothing, or it
    appends a row with the given id and name. *)
Lemma insert_skill_cases uuid nm now db :
  (exists e, SkillModel.insert_skill uuid nm now db = (inl e, db)
             /\ (has_skill db uuid = true
                 \/ nm = ""
                 \/ Nat.leb (String.length nm) 100 = false
                 \/ existsb (fun k => sk_name k =? nm) (skills db) = true))
  \/ (SkillModel.insert_skill uuid nm now db
      = (inr (mk_skill uuid nm "pending" None now now),
         with_skills db (skills db ++ [mk_skill uuid nm "pending" None now now]))
      /\ nm <> "").
Proof.
  unfold SkillModel.insert_skill, dml.
  destruct (has_skill db uuid); [left; eauto|].
  destruct (String.eqb_spec nm ""); [left; eauto 6|].
  destruct (Nat.leb (String.length nm) 100); cbn [negb]; [|left; eauto 7].
  destruct (existsb (fun k => sk_name k =? nm) (skills db)); [left; eauto 8|].
  right. auto.
Qed.





(** * Further properties of the modelled code *)

(** ** A created swap request *)

Lemma has_user_filter db uid :
  has_user db uid = true ->
  exists u rest, filter (fun u => uid =? u_id u) (users db) = u :: rest.
Proof.
  intros H. destruct (filter_some (fun u => uid =? u_id u) (users db)) as (u & rest & Hf & _).
  - unfold has_user in H. rewrite <- H. apply existsb_pointwise. intros u. apply String.eqb_sym.
  - eauto.
Qed.

Lemma has_skill_filter db kid :
  has_skill db kid = true ->
  exists k rest, filter (fun k => kid =? sk_id k) (skills db) = k :: rest.
Proof.
  intros H. destruct (filter_some (fun k => kid =? sk_id k) (skills db)) as (k & rest & Hf & _).
  - unfold has_skill in H. rewrite <- H. apply existsb_pointwise. intros k. apply String.eqb_sym.
  - eauto.
Qed.

(** The join of a swap row whose four foreign keys resolve has a first row,
    which carries the columns of the swap row. *)
Lemma swap_join_head db sr :
  has_user db (sr_sender_id sr) = true ->
  has_user db (sr_receiver_id sr) = true ->
  has_skill db (sr_offered_skill_id sr) = true ->
  has_skill db (sr_wanted_skill_id sr) = true ->
  exists row rest,
    SwapModel.swap_join db sr = row :: rest
    /\ SwapModel.id row = sr_id sr
    /\ SwapModel.senderId row = sr_sender_id sr
    /\ SwapModel.receiverId row = sr_receiver_id sr
    /\ SwapModel.offeredSkillId row = sr_offered_skill_id sr
    /\ SwapModel.wantedSkillId row = sr_wanted_skill_id sr
    /\ SwapModel.message row = sr_message sr
    /\ SwapModel.status row = sr_status sr
    /\ SwapModel.createdAt row = sr_created_at sr
    /\ SwapModel.updatedAt row = sr_updated_at sr.
Proof.
  intros Hs Hr Ho Hw. unfold SwapModel.swap_join.
  destruct (has_user_filter _ _ Hs) as (s & ss & ->).
  destruct (has_user_filter _ _ Hr) as (r & rs & ->).
  destruct (has_skill_filter _ _ Ho) as (o & os & ->).
  destruct (has_skill_filter _ _ Hw) as (w & ws & ->).
  cbn [flat_map map app]. eexists _, _. split; [reflexivity|]. cbn. repeat split.
Qed.

(** What a successful [INSERT INTO swap_requests] has checked and done. *)
Lemma insert_swap_request_inv uuid d now db id_out db' :
  SwapModel.insert_swap_request uuid d now db = (inr id_out, db') ->
  id_out = uuid
  /\ has_swap db uuid = false
  /\ has_user db (SwapModel.sd_senderId d) = true
  /\ has_user db (SwapModel.sd_receiverId d) = true
  /\ has_skill db (SwapModel.sd_offeredSkillId d) = true
  /\ has_skill db (SwapModel.sd_wantedSkillId d) = true
  /\ db' = with_swap_requests db
             (swap_requests db
              ++ [mk_swap uuid (SwapModel.sd_senderId d) (SwapModel.sd_receiverId d)
                    (SwapModel.sd_offeredSkillId d) (SwapModel.sd_wantedSkillId d)
                    (or_null (SwapModel.sd_message d)) "pending" now now]).
Proof.
  unfold SwapModel.insert_swap_request, dml.
  destruct (has_swap db uuid); [discriminate|].
  destruct (_ || _ || _ || _); [discriminate|].
  destruct (has_user db (SwapModel.sd_senderId d)); [|discriminate].
  destruct (has_user db (SwapModel.sd_receiverId d)); [|discriminate].
  destruct (has_skill db (SwapModel.sd_offeredSkillId d)); [|discriminate].
  destruct (has_skill db (SwapModel.sd_wantedSkillId d)); [|discriminate].
  destruct (negb (fits 500 (or_null (SwapModel.sd_message d)))); [discriminate|].
  cbn [negb]. intros H. injection H as <- <-. repeat split.
Qed.

Lemma insert_swap_request_fail uuid d now db e db' :
  SwapModel.insert_swap_request uuid d now db = (inl e, db') -> db' = db.
Proof.
  unfold SwapModel.insert_swap_request, dml.
  repeat match goal with
         | |- context [if ?c then _ else _] => destruct c
         end; intros H; now inversion H.
Qed.

(** The swap just inserted under a fresh id is the one read back. *)
Lemma get_inserted_swap db sr :
  has_swap db (sr_id sr) = false ->
  has_user db (sr_sender_id sr) = true ->
  has_user db (sr_receiver_id sr) = true ->
  has_skill db (sr_offered_skill_id sr) = true ->
  has_skill db (sr_wanted_skill_id sr) = true ->
  exists swap,
    SwapModel.getSwapRequestById (sr_id sr)
      (with_swap_requests db (swap_requests db ++ [sr]))
    = (inr (Some swap), with_swap_requests db (swap_requests db ++ [sr]))
    /\ SwapModel.id swap = sr_id sr
    /\ SwapModel.senderId swap = sr_sender_id sr
    /\ SwapModel.receiverId swap = sr_receiver_id sr
    /\ SwapModel.offeredSkillId swap = sr_offered_skill_id sr
    /\ SwapModel.wantedSkillId swap = sr_wanted_skill_id sr
    /\ SwapModel.message swap = sr_message sr
    /\ SwapModel.status swap = sr_status sr
    /\ SwapModel.createdAt swap = sr_created_at sr
    /\ SwapModel.updatedAt swap = sr_updated_at sr.
Proof.
  intros Hfresh Hs Hr Ho Hw.
  destruct (swap_join_head db sr Hs Hr Ho Hw)
    as (row & rest & Hjoin & H1 & H2 & H3 & H4 & H5 & H6 & H7 & H8 & H9).
  unfold SwapModel.getSwapRequestById, select, SwapModel.select_swap_by_id.
  cbn [swap_requests with_swap_requests]. rewrite filter_app.
  unfold has_swap in Hfresh. rewrite (filter_none _ _ Hfresh).
  cbn [filter app]. rewrite String.eqb_refl. cbn [flat_map].
  change (SwapModel.swap_join (with_swap_requests db (swap_requests db ++ [sr])) sr)
    with (SwapModel.swap_join db sr).
  rewrite Hjoin. cbn [app]. eexists. split; [reflexivity|]. cbn. repeat split; assumption.
Qed.

(** X1. What the answers of the handler [createSwapRequest] say about
    the database.  A success is always a 201, and then exactly one row was
    appended to [swap_requests], with the drawn id, the caller as sender,
    the body's receiver and skills, status pending and both timestamps now;
    the swap in the response is what [getSwapRequestById] returns for that
    id afterwards.  An answer with any status other than 201 and 500 (the
    validation and refusal answers) is given before anything is written:
    the database is as it was.  Nothing is said of a 500, the answer to
    every exception the handler catches. *)
Theorem X1_created_swap_is_stored :
  forall (db : database) (user : req_user) (b : SwapController.create_body)
         (uuid : string) (now : Z),
    let r := SwapController.createSwapRequest user b uuid now db in
    (forall code data,
       fst r = Ok code data ->
       exists swap,
         code = 201%Z
         /\ data = SwapPayload (Some swap)
         /\ snd r = with_swap_requests db
                      (swap_requests db
                       ++ [mk_swap uuid (ru_id user) (SwapController.receiverId b)
                             (SwapController.offeredSkillId b) (SwapController.wantedSkillId b)
                             (or_null (SwapController.message b)) "pending" now now])
         /\ has_swap db uuid = false
         /\ SwapModel.getSwapRequestById uuid (snd r) = (inr (Some swap), snd r)
         /\ SwapModel.id swap = uuid
         /\ SwapModel.senderId swap = ru_id user
         /\ SwapModel.receiverId swap = SwapController.receiverId b
         /\ SwapModel.offeredSkillId swap = SwapController.offeredSkillId b
         /\ SwapModel.wantedSkillId swap = SwapController.wantedSkillId b
         /\ SwapModel.status swap = "pending"
         /\ SwapModel.createdAt swap = now
         /\ SwapModel.updatedAt swap = now)
    /\ (forall code message, fst r = Fail code message -> code <> 500%Z -> snd r = db)
    /\ (forall code errors, fst r = Invalid code errors -> snd r = db).
Proof.
  intros db user b uuid now r. subst r. rewrite createSwapRequest_spec.
  destruct (SwapController.create_errors b);
    [|split; [discriminate | split; [reflexivity | reflexivity]]].
  destruct (SwapController.receiverId b =? ru_id user);
    [split; [discriminate | split; [reflexivity | reflexivity]]|].
  destruct (negb (active db (SwapController.receiverId b)));
    [split; [discriminate | split; [reflexivity | reflexivity]]|].
  destruct (negb (offers db (ru_id user) (SwapController.offeredSkillId b) && _));
    [split; [discriminate | split; [reflexivity | reflexivity]]|].
  destruct (negb (offers db (SwapController.receiverId b) (SwapController.wantedSkillId b) && _));
    [split; [discriminate | split; [reflexivity | reflexivity]]|].
  unfold SwapModel.createSwapRequest, bind.
  destruct (SwapModel.insert_swap_request uuid _ now db) as [[e|id_out] db'] eqn:Hins.
  - split; [discriminate|]. split; [|discriminate].
    intros code message H Hcode. cbn [fst] in H. injection H as <- _. now elim Hcode.
  - split; [|split; discriminate].
    apply insert_swap_request_inv in Hins.
    cbn [SwapModel.sd_senderId SwapModel.sd_receiverId SwapModel.sd_offeredSkillId
         SwapModel.sd_wantedSkillId SwapModel.sd_message] in Hins.
    destruct Hins as (-> & Hfresh & Hs & Hr & Ho & Hw & ->).
    destruct (get_inserted_swap db
                (mk_swap uuid (ru_id user) (SwapController.receiverId b)
                   (SwapController.offeredSkillId b) (SwapController.wantedSkillId b)
                   (or_null (SwapController.message b)) "pending" now now)
                Hfresh Hs Hr Ho Hw)
      as (swap & Hget & H1 & H2 & H3 & H4 & H5 & H6 & H7 & H8 & H9).
    cbn [sr_id sr_sender_id sr_receiver_id sr_offered_skill_id sr_wanted_skill_id
         sr_message sr_status sr_created_at sr_updated_at] in *.
    rewrite Hget. cbn [fst snd]. intros code data H. injection H as <- <-.
    exists swap. repeat split; assumption.
Qed.

Lemma X1_created_swap_is_stored_witness :
  exists swap,
    fst (SwapController.createSwapRequest Example.alice_user
           (SwapController.mk_create_body "u-bob" "k-guitar" "k-spanish" None) "s-2" 40
           Example.empty_ledger)
    = Ok 201 (SwapPayload (Some swap))
    /\ SwapModel.getSwapRequestById "s-2"
         (snd (SwapController.createSwapRequest Example.alice_user
                 (SwapController.mk_create_body "u-bob" "k-guitar" "k-spanish" None) "s-2" 40
                 Example.empty_ledger))
       = (inr (Some swap),
          snd (SwapController.createSwapRequest Example.alice_user
                 (SwapController.mk_create_body "u-bob" "k-guitar" "k-spanish" None) "s-2" 40
                 Example.empty_ledger))
    /\ SwapModel.status swap = "pending".
Proof.
  destruct (proj1 (X1_created_swap_is_stored Example.empty_ledger Example.alice_user
                     (SwapController.mk_create_body "u-bob" "k-guitar" "k-spanish" None)
                     "s-2" 40) 201%Z _ eq_refl)
    as (swap & _ & Hdata & _ & _ & Hget & _ & _ & _ & _ & _ & Hst & _).
  exists swap. injection Hdata as Hswap. split; [|split; assumption].
  cbn [fst]. now rewrite <- Hswap.
Defined.

(** X2. The order in which [createSwapRequest] refuses a request with a
    valid body: a request to oneself first (whatever the skills are), then
    a receiver who is not stored or is banned, then an offered skill that
    is not in the caller's offered set, then a wanted skill that is not in
    the receiver's.  Each refusal leaves the database as it was. *)
Theorem X2_create_refusals :
  forall (db : database) (user : req_user) (b : SwapController.create_body)
         (uuid : string) (now : Z),
    SwapController.create_errors b = [] ->
    let r := SwapController.createSwapRequest user b uuid now db in
    (SwapController.receiverId b = ru_id user ->
     r = (Fail 400 "You cannot create a swap request with yourself", db))
    /\ (SwapController.receiverId b <> ru_id user ->
        active db (SwapController.receiverId b) = false ->
        r = (Fail 404 "Receiver not found", db))
    /\ (SwapController.receiverId b <> ru_id user ->
        active db (SwapController.receiverId b) = true ->
        offers db (ru_id user) (SwapController.offeredSkillId b) = false ->
        r = (Fail 400 "Offered skill does not belong to you", db))
    /\ (SwapController.receiverId b <> ru_id user ->
        active db (SwapController.receiverId b) = true ->
        offers db (ru_id user) (SwapController.offeredSkillId b) = true ->
        has_skill db (SwapController.offeredSkillId b) = true ->
        offers db (SwapController.receiverId b) (SwapController.wantedSkillId b) = false ->
        r = (Fail 400 "Wanted skill does not belong to receiver", db)).
Proof.
  intros db user b uuid now Hv r. subst r. rewrite createSwapRequest_spec, Hv.
  repeat split.
  - intros ->. now rewrite String.eqb_refl.
  - intros Hne Ha. apply String.eqb_neq in Hne. now rewrite Hne, Ha.
  - intros Hne Ha Ho. apply String.eqb_neq in Hne. now rewrite Hne, Ha, Ho.
  - intros Hne Ha Ho Hk Hw. apply String.eqb_neq in Hne. now rewrite Hne, Ha, Ho, Hk, Hw.
Qed.

Lemma X2_create_refusals_witness :
  SwapController.createSwapRequest Example.alice_user
    (SwapController.mk_create_body "u-alice" "k-nothing" "k-nowhere" None) "s-2" 40
    Example.empty_ledger
  = (Fail 400 "You cannot create a swap request with yourself", Example.empty_ledger)
  /\ SwapController.createSwapRequest Example.alice_user
       (SwapController.mk_create_body "u-bob" "k-spanish" "k-spanish" None) "s-2" 40
       Example.empty_ledger
     = (Fail 400 "Offered skill does not belong to you", Example.empty_ledger).
Proof.
  split.
  - apply (proj1 (X2_create_refusals Example.empty_ledger Example.alice_user
                    (SwapController.mk_create_body "u-alice" "k-nothing" "k-nowhere" None)
                    "s-2" 40 eq_refl)).
    reflexivity.
  - apply (proj1 (proj2 (proj2 (X2_create_refusals Example.empty_ledger Example.alice_user
                    (SwapController.mk_create_body "u-bob" "k-spanish" "k-spanish" None)
                    "s-2" 40 eq_refl))));
      (reflexivity || discriminate).
Defined.

(** ** What a status update leaves alone *)

Lemma update_status_other_rows db sid sid' st now :
  sid' <> sid ->
  SwapModel.select_swap_by_id sid' (snd (SwapModel.update_status sid st now db))
  = SwapModel.select_swap_by_id sid' db.
Proof.
  intros Hne. unfold SwapModel.select_swap_by_id, SwapModel.update_status, dml.
  cbn [snd swap_requests with_swap_requests].
  change (SwapModel.swap_join (with_swap_requests db ?x)) with (SwapModel.swap_join db).
  induction (swap_requests db) as [|sr l IH]; [reflexivity|].
  cbn [map filter]. destruct (sr_id sr =? sid) eqn:E.
  - apply String.eqb_eq in E. cbn [SwapModel.set_status sr_id].
    assert (Hf : (sr_id sr =? sid') = false) by (apply String.eqb_neq; congruence).
    rewrite Hf. exact IH.
  - destruct (sr_id sr =? sid'); [|exact IH].
    cbn [flat_map]. rewrite IH. reflexivity.
Qed.

Lemma update_status_fixed_columns db sid st now :
  map fixed_columns (swap_requests (snd (SwapModel.update_status sid st now db)))
  = map fixed_columns (swap_requests db).
Proof.
  unfold SwapModel.update_status, dml. cbn [snd swap_requests with_swap_requests].
  rewrite map_map. apply map_ext. intros sr. now destruct (sr_id sr =? sid).
Qed.

(** X3. A call of [updateSwapRequestStatus], whether it succeeds or throws,
    leaves the users, the skill directory, the offered sets and the feedback
    as they were; it keeps every swap row's id, sender, receiver, skills,
    message and creation time, in the same order; and every swap other than
    the one addressed is returned by [getSwapRequestById] as before. *)
Theorem X3_status_update_frame :
  forall (db : database) (sid st userId : string) (now : Z),
    let db' := snd (SwapModel.updateSwapRequestStatus sid st userId now db) in
    users db' = users db
    /\ skills db' = skills db
    /\ user_skills_offered db' = user_skills_offered db
    /\ feedback db' = feedback db
    /\ map fixed_columns (swap_requests db') = map fixed_columns (swap_requests db)
    /\ forall sid', sid' <> sid ->
         SwapModel.getSwapRequestById sid' db'
         = (fst (SwapModel.getSwapRequestById sid' db), db').
Proof.
  intros db sid st userId now db'. subst db'.
  destruct (update_effect sid st userId now db) as [-> | [_ ->]].
  - repeat split. 
  - repeat split.
    + apply update_status_fixed_columns.
    + intros sid' Hne. unfold SwapModel.getSwapRequestById, select. cbn [fst].
      rewrite (update_status_other_rows db sid sid' st now Hne). reflexivity.
Qed.

(** ** A swap that is not stored *)

Lemma not_stored_not_found db sid :
  has_swap db sid = false ->
  SwapModel.getSwapRequestById sid db = (inr None, db).
Proof.
  intros H. unfold SwapModel.getSwapRequestById, select, SwapModel.select_swap_by_id.
  unfold has_swap in H. now rewrite (filter_none _ _ H).
Qed.

Lemma update_not_found_error db sid st userId now :
  SwapModel.includes SwapModel.statuses st = true ->
  SwapModel.getSwapRequestById sid db = (inr None, db) ->
  SwapModel.updateSwapRequestStatus sid st userId now db
  = (inl (JsError "Swap request not found"), db).
Proof.
  intros Hst H. unfold SwapModel.updateSwapRequestStatus, bind at 1. rewrite Hst.
  cbn [negb throw_if ret]. unfold bind. now rewrite H.
Qed.

(** X4. For an id under which no swap is stored, [getSwapRequestById]
    returns [null], and accept, reject, complete, delete and add-feedback
    all throw ['Swap request not found'] (a NotFound failure), whoever
    calls them, and change nothing. *)
Theorem X4_missing_swap_not_found :
  forall (db : database) (sid userId : string) (now : Z)
         (rating : Z) (comment : option string) (uuid : string),
    has_swap db sid = false ->
    SwapModel.getSwapRequestById sid db = (inr None, db)
    /\ SwapModel.acceptSwapRequest sid userId now db
       = (inl (JsError "Swap request not found"), db)
    /\ SwapModel.rejectSwapRequest sid userId now db
       = (inl (JsError "Swap request not found"), db)
    /\ SwapModel.completeSwapRequest sid userId now db
       = (inl (JsError "Swap request not found"), db)
    /\ SwapModel.deleteSwapRequest sid userId db
       = (inl (JsError "Swap request not found"), db)
    /\ SwapModel.addFeedback sid userId rating comment uuid now db
       = (inl (JsError "Swap request not found"), db)
    /\ kind_of_error (JsError "Swap request not found") = NotFound.
Proof.
  intros db sid userId now rating comment uuid H.
  pose proof (not_stored_not_found db sid H) as Hget.
  repeat split; try assumption.
  - now apply update_not_found_error.
  - now apply update_not_found_error.
  - now apply update_not_found_error.
  - now apply delete_not_found.
  - now apply addFeedback_not_found.
Qed.

Lemma X4_missing_swap_not_found_witness :
  SwapModel.acceptSwapRequest "s-7" "u-bob" 30 (Example.with_swap1 "pending")
  = (inl (JsError "Swap request not found"), Example.with_swap1 "pending").
Proof.
  exact (proj1 (proj2 (X4_missing_swap_not_found (Example.with_swap1 "pending")
                         "s-7" "u-bob" 30 5 None "f-1" eq_refl))).
Defined.

(** ** The model's own errors leave no trace *)

Lemma insert_feedback_inv uuid sid userId rating comment now db id_out db' :
  SwapModel.insert_feedback uuid sid userId rating comment now db = (inr id_out, db') ->
  id_out = uuid
  /\ existsb (fun f => f_id f =? uuid) (feedback db) = false
  /\ has_swap db sid = true
  /\ has_user db userId = true
  /\ (1 <= rating <= 5)%Z
  /\ existsb (fun f => (f_user_id f =? userId) && (f_swap_id f =? sid)) (feedback db) = false
  /\ db' = with_feedback db
             (feedback db ++ [mk_feedback uuid sid userId rating (or_null comment) now]).
Proof.
  unfold SwapModel.insert_feedback, dml.
  destruct (existsb (fun f => f_id f =? uuid) (feedback db)); [discriminate|].
  destruct (has_swap db sid); [|discriminate].
  destruct (has_user db userId); [|discriminate].
  destruct ((1 <=? rating)%Z && (rating <=? 5)%Z) eqn:Hr; [|discriminate].
  destruct (existsb _ (feedback db)); [discriminate|].
  destruct (negb (fits 500 comment)); [discriminate|].
  cbn [negb]. intros H. injection H as <- <-.
  apply andb_true_iff in Hr as [H1 H5]. apply Z.leb_le in H1, H5. repeat split; assumption.
Qed.

Lemma insert_feedback_fail uuid sid userId rating comment now db e db' :
  SwapModel.insert_feedback uuid sid userId rating comment now db = (inl e, db') -> db' = db.
Proof.
  unfold SwapModel.insert_feedback, dml.
  repeat match goal with
         | |- context [if ?c then _ else _] => destruct c
         end; intros H; now inversion H.
Qed.

Lemma addFeedback_throw_unchanged sid userId rating comment uuid now db e db' :
  SwapModel.addFeedback sid userId rating comment uuid now db = (inl e, db') -> db' = db.
Proof.
  destruct (get_total db sid) as [Hnone | [sw Hget]].
  - rewrite (addFeedback_not_found _ _ _ _ _ _ _ Hnone). intros H. now inversion H.
  - rewrite (addFeedback_spec _ _ _ _ _ _ _ _ Hget).
    destruct (negb (is_participant userId sw)); [intros H; now inversion H|].
    destruct (negb (SwapModel.status sw =? "completed")); [intros H; now inversion H|].
    destruct (Nat.ltb 0 _); [intros H; now inversion H|].
    destruct (SwapModel.insert_feedback uuid sid userId rating comment now db)
      as [[e'|id_out] db1] eqn:Hins.
    + apply insert_feedback_fail in Hins. intros H. inversion H. congruence.
    + apply insert_feedback_inv in Hins as (-> & Hfresh & _ & Huser & _ & _ & ->).
      destruct (select_inserted_feedback db sid userId rating (or_null comment) uuid now
                  Hfresh Huser) as (fb & rest & -> & _).
      discriminate.
Qed.

Lemma update_throw_unchanged sid st userId now db e db' :
  SwapModel.updateSwapRequestStatus sid st userId now db = (inl e, db') -> db' = db.
Proof.
  destruct (SwapModel.includes SwapModel.statuses st) eqn:Hst.
  - destruct (get_total db sid) as [Hnone | [sw Hget]].
    + rewrite (update_not_found_error _ _ _ _ _ Hst Hnone). intros H. now inversion H.
    + rewrite (update_spec _ _ _ _ now _ Hst Hget).
      destruct (may_update st userId sw); intros H; now inversion H.
  - unfold SwapModel.updateSwapRequestStatus, bind at 1. rewrite Hst.
    cbn. intros H. now inversion H.
Qed.

Lemma delete_throw_unchanged sid userId db e db' :
  SwapModel.deleteSwapRequest sid userId db = (inl e, db') -> db' = db.
Proof.
  destruct (get_total db sid) as [Hnone | [sw Hget]].
  - rewrite (delete_not_found _ _ _ Hnone). intros H. now inversion H.
  - rewrite (delete_spec _ _ userId _ Hget).
    destruct (negb (SwapModel.senderId sw =? userId)); [intros H; now inversion H|].
    destruct (negb (SwapModel.status sw =? "pending")); intros H; now inversion H.
Qed.

Lemma create_throw_unchanged d uuid now db e db' :
  SwapModel.createSwapRequest d uuid now db = (inl e, db') -> db' = db.
Proof.
  unfold SwapModel.createSwapRequest, bind.
  destruct (SwapModel.insert_swap_request uuid d now db) as [[e'|i] db1] eqn:Hins.
  - apply insert_swap_request_fail in Hins. intros H. inversion H. congruence.
  - unfold SwapModel.getSwapRequestById, select. discriminate.
Qed.

Lemma error_of_inv {A : Type} (r : (js_error + A) * database) (e : js_error) :
  error_of r = Some e -> r = (inl e, snd r).
Proof.
  unfold error_of. destruct r as [[e'|a] db']; cbn; [|discriminate].
  intros H. now injection H as ->.
Qed.

(** X5. The errors the swap model raises itself leave no trace.  When
    create, a status update (accept, reject, complete included), delete or
    add-feedback throws one of its own [new Error(...)] (invalid status,
    swap not found, not authorized, only the receiver, only the sender,
    only pending, only participants, not completed, feedback already
    left), the database is exactly as before the call: each is raised
    before the function's write, and [addFeedback]'s ['Error retrieving
    created feedback'] is never raised, the author of the inserted row
    being a stored user.  Errors raised by the database are outside this
    statement. *)
Theorem X5_own_errors_change_nothing :
  forall (op : Ledger.operation) (now : Z) (db : database) (message : string),
    thrown op now db = Some (JsError message) ->
    Ledger.perform op now db = db
    /\ message <> "Error retrieving created feedback".
Proof.
  intros op now db message H. split.
  - destruct op as [d uuid|sid st u|sid u|sid u|sid u|sid u|sid u r c uuid];
      cbn [thrown Ledger.perform] in *; apply error_of_inv in H.
    + exact (create_throw_unchanged _ _ _ _ _ _ H).
    + exact (update_throw_unchanged _ _ _ _ _ _ _ H).
    + exact (update_throw_unchanged _ _ _ _ _ _ _ H).
    + exact (update_throw_unchanged _ _ _ _ _ _ _ H).
    + exact (update_throw_unchanged _ _ _ _ _ _ _ H).
    + exact (delete_throw_unchanged _ _ _ _ _ H).
    + exact (addFeedback_throw_unchanged _ _ _ _ _ _ _ _ _ H).
  - intros ->.
    assert (Hno : forall sid st u,
               error_of (SwapModel.updateSwapRequestStatus sid st u now db)
               <> Some (JsError "Error retrieving created feedback")).
    { intros sid st u. unfold error_of.
      destruct (SwapModel.includes SwapModel.statuses st) eqn:Hst.
      - destruct (get_total db sid) as [Hnone | [sw Hget]].
        + rewrite (update_not_found_error _ _ _ _ _ Hst Hnone). discriminate.
        + rewrite (update_spec _ _ _ _ now _ Hst Hget).
          destruct (may_update st u sw); [discriminate|].
          destruct (is_participant u sw); discriminate.
      - unfold SwapModel.updateSwapRequestStatus, bind at 1. rewrite Hst. cbn.
        intros E. injection E as E. now vm_compute in E. }
    destruct op as [d uuid|sid st u|sid u|sid u|sid u|sid u|sid u r c uuid];
      cbn [thrown] in H.
    + unfold error_of, SwapModel.createSwapRequest, bind, SwapModel.insert_swap_request, dml in H.
      repeat match type of H with
             | context [if ?c then _ else _] => destruct c; [discriminate|]
             end.
      discriminate.
    + exact (Hno _ _ _ H).
    + exact (Hno _ _ _ H).
    + exact (Hno _ _ _ H).
    + exact (Hno _ _ _ H).
    + unfold error_of in H. destruct (get_total db sid) as [Hnone | [sw Hget]].
      * rewrite (delete_not_found _ _ _ Hnone) in H. discriminate.
      * rewrite (delete_spec _ _ u _ Hget) in H.
        destruct (negb (SwapModel.senderId sw =? u)); [discriminate|].
        destruct (negb (SwapModel.status sw =? "pending")); discriminate.
    + unfold error_of in H. destruct (get_total db sid) as [Hnone | [sw Hget]].
      * rewrite (addFeedback_not_found _ _ _ _ _ _ _ Hnone) in H. discriminate.
      * rewrite (addFeedback_spec _ _ _ _ _ _ _ _ Hget) in H.
        destruct (negb (is_participant u sw)); [discriminate|].
        destruct (negb (SwapModel.status sw =? "completed")); [discriminate|].
        destruct (Nat.ltb 0 _); [discriminate|].
        destruct (SwapModel.insert_feedback uuid sid u r c now db)
          as [[e'|id_out] db1] eqn:Hins.
        -- unfold SwapModel.insert_feedback, dml in Hins.
           repeat match type of Hins with
                  | context [if ?c then _ else _] => destruct c
                  end; inversion Hins; subst; discriminate.
        -- apply insert_feedback_inv in Hins as (-> & Hfresh & _ & Huser & _ & _ & ->).
           destruct (select_inserted_feedback db sid u r (or_null c) uuid now
                       Hfresh Huser) as (fb & rest & Hsel & _).
           rewrite Hsel in H. discriminate.
Qed.

Lemma X5_own_errors_change_nothing_witness :
  Ledger.perform (Ledger.Accept "s-1" "u-alice") 30 (Example.with_swap1 "pending")
  = Example.with_swap1 "pending".
Proof.
  exact (proj1 (X5_own_errors_change_nothing (Ledger.Accept "s-1" "u-alice") 30
                  (Example.with_swap1 "pending")
                  "Only the receiver can accept or reject a swap request" eq_refl)).
Defined.

(** ** A deleted swap request *)

Lemma filter_filter_neg {A : Type} (p q : A -> bool) (l : list A) :
  (forall a, p a = true -> q a = true) ->
  filter p (filter q l) = filter p l.
Proof.
  intros H. induction l as [|a l IH]; simpl; [reflexivity|].
  destruct (q a) eqn:Hq; simpl.
  - now rewrite IH.
  - destruct (p a) eqn:Hp; [|exact IH]. apply H in Hp. congruence.
Qed.

Lemma filter_disjoint {A : Type} (p q : A -> bool) (l : list A) :
  (forall a, p a = true -> q a = false) ->
  filter p (filter q l) = [].
Proof.
  intros H. induction l as [|a l IH]; simpl; [reflexivity|].
  destruct (q a) eqn:Hq; simpl; [|exact IH].
  destruct (p a) eqn:Hp; [|exact IH]. apply H in Hp. congruence.
Qed.

Lemma deleted_rows_gone db sid :
  SwapModel.select_swap_by_id sid (snd (SwapModel.delete_swap_request sid db)) = [].
Proof.
  unfold SwapModel.select_swap_by_id, SwapModel.delete_swap_request, dml.
  cbn [snd swap_requests]. rewrite filter_disjoint; [reflexivity|].
  intros sr H. now rewrite H.
Qed.

Lemma delete_other_rows db sid sid' :
  sid' <> sid ->
  SwapModel.select_swap_by_id sid' (snd (SwapModel.delete_swap_request sid db))
  = SwapModel.select_swap_by_id sid' db
  /\ SwapModel.select_swap_feedback sid' (snd (SwapModel.delete_swap_request sid db))
     = SwapModel.select_swap_feedback sid' db.
Proof.
  intros Hne.
  unfold SwapModel.select_swap_by_id, SwapModel.select_swap_feedback,
    SwapModel.delete_swap_request, dml.
  cbn [snd swap_requests feedback]. split.
  - rewrite filter_filter_neg; [reflexivity|].
    intros sr H. apply String.eqb_eq in H. apply negb_true_iff, String.eqb_neq. congruence.
  - rewrite filter_filter_neg; [reflexivity|].
    intros f H. apply String.eqb_eq in H. apply negb_true_iff, String.eqb_neq. congruence.
Qed.

(** X6. After a [deleteSwapRequest] that succeeds, [getSwapRequestById]
    returns [null] for the swap, no feedback row refers to it any more
    (the foreign key cascades), and nothing else has moved: users, skills
    and offered sets are as before and every other swap is returned, with
    its feedback, as before. *)
Theorem X6_delete_removes_swap_and_its_feedback :
  forall (db : database) (sid userId : string),
    succeeded (SwapModel.deleteSwapRequest sid userId db) = true ->
    let db' := snd (SwapModel.deleteSwapRequest sid userId db) in
    fst (SwapModel.deleteSwapRequest sid userId db) = inr true
    /\ SwapModel.getSwapRequestById sid db' = (inr None, db')
    /\ has_swap db' sid = false
    /\ existsb (fun f => f_swap_id f =? sid) (feedback db') = false
    /\ users db' = users db
    /\ skills db' = skills db
    /\ user_skills_offered db' = user_skills_offered db
    /\ forall sid', sid' <> sid ->
         SwapModel.getSwapRequestById sid' db'
         = (fst (SwapModel.getSwapRequestById sid' db), db').
Proof.
  intros db sid userId Hok db'. subst db'.
  destruct (get_total db sid) as [Hnone | [sw Hget]].
  { rewrite (delete_not_found _ _ _ Hnone) in Hok. discriminate. }
  rewrite (delete_spec _ _ userId _ Hget) in *.
  destruct (negb (SwapModel.senderId sw =? userId)); [discriminate|].
  destruct (negb (SwapModel.status sw =? "pending")); [discriminate|].
  cbn [fst snd]. split; [reflexivity|]. split; [|split; [|split]].
  - unfold SwapModel.getSwapRequestById, select. now rewrite deleted_rows_gone.
  - unfold has_swap, SwapModel.delete_swap_request, dml. cbn [snd swap_requests].
    apply not_true_is_false. intros H. apply existsb_exists in H as (sr & Hin & Hid).
    apply filter_In in Hin as [_ Hn]. rewrite Hid in Hn. discriminate.
  - unfold SwapModel.delete_swap_request, dml. cbn [snd feedback].
    apply not_true_is_false. intros H. apply existsb_exists in H as (f & Hin & Hid).
    apply filter_In in Hin as [_ Hn]. rewrite Hid in Hn. discriminate.
  - repeat split. intros sid' Hne.
    destruct (delete_other_rows db sid sid' Hne) as [Hrows Hfb].
    unfold SwapModel.getSwapRequestById, select. cbn [fst]. now rewrite Hrows, Hfb.
Qed.

Lemma X6_delete_removes_swap_and_its_feedback_witness :
  fst (SwapModel.deleteSwapRequest "s-1" "u-alice" (Example.with_swap1 "pending")) = inr true
  /\ has_swap (snd (SwapModel.deleteSwapRequest "s-1" "u-alice" (Example.with_swap1 "pending")))
       "s-1" = false.
Proof.
  destruct (X6_delete_removes_swap_and_its_feedback (Example.with_swap1 "pending")
              "s-1" "u-alice" eq_refl) as (H1 & _ & H3 & _).
  exact (conj H1 H3).
Defined.

(** ** The feedback table keeps its invariants *)

Lemma existsb_map_same {A : Type} (p : A -> bool) (f : A -> A) (l : list A) :
  (forall a, p (f a) = p a) -> existsb p (map f l) = existsb p l.
Proof.
  intros H. induction l as [|a l IH]; simpl; [reflexivity|]. now rewrite H, IH.
Qed.

Lemma forallb_weaken {A : Type} (p q : A -> bool) (l : list A) :
  (forall a, p a = true -> q a = true) -> forallb p l = true -> forallb q l = true.
Proof.
  intros H. induction l as [|a l IH]; simpl; [reflexivity|].
  intros Hl. apply andb_true_iff in Hl as [Ha Hl]. now rewrite (H a Ha), IH.
Qed.

Lemma one_feedback_each_filter (p : feedback_row -> bool) (l : list feedback_row) :
  one_feedback_each l = true -> one_feedback_each (filter p l) = true.
Proof.
  induction l as [|f l IH]; simpl; [reflexivity|].
  intros H. apply andb_true_iff in H as [Hf Hl]. destruct (p f); simpl; [|auto].
  rewrite (IH Hl), andb_true_r. apply negb_true_iff in Hf. apply negb_true_iff.
  apply not_true_is_false. intros H. apply existsb_exists in H as (g & Hin & Hg).
  apply filter_In in Hin as [Hin _].
  assert (existsb (same_author_and_swap f) l = true) by (apply existsb_exists; eauto).
  congruence.
Qed.

Lemma one_feedback_each_snoc (l : list feedback_row) (g : feedback_row) :
  one_feedback_each l = true ->
  existsb (fun f => same_author_and_swap f g) l = false ->
  one_feedback_each (l ++ [g]) = true.
Proof.
  induction l as [|f l IH]; simpl; [reflexivity|].
  intros H Hg. apply andb_true_iff in H as [Hf Hl]. apply orb_false_iff in Hg as [Hfg Hg].
  rewrite (IH Hl Hg), andb_true_r. rewrite existsb_app. cbn [existsb].
  apply negb_true_iff in Hf. now rewrite Hf, Hfg.
Qed.

Lemma feedback_valid_update_status db sid st now :
  feedback_valid db = true ->
  feedback_valid (snd (SwapModel.update_status sid st now db)) = true.
Proof.
  unfold feedback_valid, SwapModel.update_status, dml. cbn [snd feedback with_swap_requests].
  intros H. apply andb_true_iff in H as [Hrows Hone]. rewrite Hone, andb_true_r.
  revert Hrows. apply forallb_weaken. intros f. unfold feedback_row_ok.
  cbn [swap_requests with_swap_requests]. rewrite existsb_map_same; [auto|].
  intros sr. now destruct (sr_id sr =? sid).
Qed.

Lemma feedback_valid_delete db sid :
  feedback_valid db = true ->
  feedback_valid (snd (SwapModel.delete_swap_request sid db)) = true.
Proof.
  unfold feedback_valid, SwapModel.delete_swap_request, dml. cbn [snd feedback].
  intros H. apply andb_true_iff in H as [Hrows Hone].
  rewrite (one_feedback_each_filter _ _ Hone), andb_true_r.
  apply forallb_forall. intros f Hin. apply filter_In in Hin as [Hin Hn].
  rewrite forallb_forall in Hrows. specialize (Hrows f Hin).
  unfold feedback_row_ok in *. cbn [swap_requests].
  apply andb_true_iff in Hrows as [Hr Hex]. rewrite Hr. cbn [andb].
  apply existsb_exists in Hex as (sr & Hsr & Hok). apply existsb_exists. exists sr.
  split; [|exact Hok]. apply filter_In. split; [assumption|].
  apply andb_true_iff in Hok as [Hid _]. apply String.eqb_eq in Hid.
  rewrite Hid. exact Hn.
Qed.

Lemma feedback_valid_create db sr :
  feedback_valid db = true ->
  feedback_valid (with_swap_requests db (swap_requests db ++ [sr])) = true.
Proof.
  unfold feedback_valid. cbn [feedback with_swap_requests].
  intros H. apply andb_true_iff in H as [Hrows Hone]. rewrite Hone, andb_true_r.
  revert Hrows. apply forallb_weaken. intros f. unfold feedback_row_ok.
  cbn [swap_requests with_swap_requests]. rewrite existsb_app. intros H.
  apply andb_true_iff in H as [Hr Hex]. now rewrite Hr, Hex.
Qed.

Lemma feedback_valid_add db sid userId rating comment uuid now sw :
  SwapModel.getSwapRequestById sid db = (inr (Some sw), db) ->
  is_participant userId sw = true ->
  (1 <= rating <= 5)%Z ->
  existsb (fun f => (f_user_id f =? userId) && (f_swap_id f =? sid)) (feedback db) = false ->
  feedback_valid db = true ->
  feedback_valid
    (with_feedback db (feedback db ++ [mk_feedback uuid sid userId rating comment now])) = true.
Proof.
  intros Hget Hp [H1 H5] Hnew H. unfold feedback_valid in *. cbn [feedback with_feedback].
  apply andb_true_iff in H as [Hrows Hone]. apply andb_true_iff. split.
  - rewrite forallb_app. apply andb_true_iff. split; [exact Hrows|].
    cbn [forallb]. rewrite andb_true_r. unfold feedback_row_ok.
    cbn [f_rating f_swap_id f_user_id swap_requests with_feedback].
    apply Z.leb_le in H1, H5. rewrite H1, H5. cbn [andb].
    destruct (found_inv _ _ _ Hget) as (sr & Hin & Hid & _ & Hs & Hr & _).
    apply existsb_exists. exists sr. split; [assumption|].
    apply andb_true_iff. split; [now apply String.eqb_eq|].
    unfold is_participant in Hp. now rewrite <- Hs, <- Hr.
  - apply one_feedback_each_snoc; [assumption|].
    rewrite <- Hnew. apply existsb_pointwise. intros f.
    unfold same_author_and_swap. cbn [f_swap_id f_user_id]. apply andb_comm.
Qed.

Lemma perform_feedback_valid op now db :
  feedback_valid db = true -> feedback_valid (Ledger.perform op now db) = true.
Proof.
  intros Hv.
  assert (Hup : forall sid st u,
             feedback_valid (snd (SwapModel.updateSwapRequestStatus sid st u now db)) = true).
  { intros sid st u. destruct (update_effect sid st u now db) as [-> | [_ ->]];
      [assumption | now apply feedback_valid_update_status]. }
  destruct op as [d uuid|sid st u|sid u|sid u|sid u|sid u|sid u r c uuid]; cbn [Ledger.perform].
  - destruct (create_effect d uuid now db) as [-> | (sr & _ & ->)];
      [assumption | now apply feedback_valid_create].
  - apply Hup.
  - apply Hup.
  - apply Hup.
  - apply Hup.
  - destruct (delete_effect sid u db) as [-> | ->];
      [assumption | now apply feedback_valid_delete].
  - destruct (SwapModel.addFeedback sid u r c uuid now db) as [[e|fb] db'] eqn:Hadd.
    + apply addFeedback_throw_unchanged in Hadd. cbn [snd]. now subst.
    + cbn [snd]. destruct (get_total db sid) as [Hnone | [sw Hget]].
      { rewrite (addFeedback_not_found _ _ _ _ _ _ _ Hnone) in Hadd. discriminate. }
      rewrite (addFeedback_spec _ _ _ _ _ _ _ _ Hget) in Hadd.
      destruct (is_participant u sw) eqn:Hp; [|discriminate]. cbn [negb] in Hadd.
      destruct (negb (SwapModel.status sw =? "completed")); [discriminate|].
      destruct (Nat.ltb 0 _); [discriminate|].
      destruct (SwapModel.insert_feedback uuid sid u r c now db)
        as [[e'|id_out] db1] eqn:Hins; [discriminate|].
      apply insert_feedback_inv in Hins as (-> & _ & _ & _ & Hr & Hnew & ->).
      destruct (SwapModel.select_feedback_by_id uuid _); [discriminate|].
      injection Hadd as _ <-.
      now apply (feedback_valid_add db sid u r (or_null c) uuid now sw).
Qed.

(** X7. The operations of the swap model keep the feedback table sound.
    If, to begin with, every feedback row has a rating from 1 to 5, is
    written by the sender or the receiver of a stored swap with its swap
    id, and no two rows share swap and author, then the same holds after
    every history of create, status update, accept, reject, complete,
    delete and add-feedback calls, failed ones included. *)
Theorem X7_feedback_table_stays_sound :
  forall (history : list (Ledger.operation * Z)) (db : database),
    feedback_valid db = true -> feedback_valid (Ledger.run history db) = true.
Proof.
  induction history as [|[op now] rest IH]; intros db Hv; cbn [Ledger.run]; [assumption|].
  apply IH. now apply perform_feedback_valid.
Qed.

Lemma X7_feedback_table_stays_sound_witness :
  feedback_valid
    (Ledger.run
       [(Ledger.Accept "s-1" "u-bob", 11%Z);
        (Ledger.Complete "s-1" "u-alice", 12%Z);
        (Ledger.AddFeedback "s-1" "u-bob" 5 (Some "Great lesson") "f-1", 13%Z);
        (Ledger.AddFeedback "s-1" "u-bob" 4 (Some "again") "f-2", 14%Z);
        (Ledger.AddFeedback "s-1" "u-alice" 3 None "f-3", 15%Z)]
       (Example.with_swap1 "pending")) = true.
Proof.
  exact (X7_feedback_table_stays_sound _ (Example.with_swap1 "pending") eq_refl).
Defined.

(** ** Who gets past the middleware *)

Lemma protect_passes token db user :
  Auth.protect token db = inr user ->
  token = Some (ru_id user)
  /\ exists row, In row (users db) /\ u_id row = ru_id user
                 /\ u_is_banned row = false
                 /\ ru_name user = u_name row /\ ru_role user = u_role row.
Proof.
  unfold Auth.protect. destruct token as [uid|]; [|discriminate].
  destruct (filter (fun u => u_id u =? uid) (users db)) as [|row rest] eqn:Hf; [discriminate|].
  destruct (u_is_banned row) eqn:Hb; [discriminate|].
  intros H. injection H as <-. cbn [ru_id ru_name ru_role].
  assert (Hin : In row (filter (fun u => u_id u =? uid) (users db))) by (rewrite Hf; now left).
  apply filter_In in Hin as [Hin Hid]. apply String.eqb_eq in Hid.
  split; [congruence|]. exists row. auto.
Qed.

Lemma protect_refuses token db r :
  Auth.protect token db = inl r ->
  r = Fail 401 "Not authorized to access this route"
  \/ r = Fail 401 "User not found"
  \/ r = Fail 403 "Your account has been banned. Please contact support.".
Proof.
  unfold Auth.protect. destruct token as [uid|]; [|intros H; injection H as <-; auto].
  destruct (filter (fun u => u_id u =? uid) (users db)) as [|row rest];
    [intros H; injection H as <-; auto|].
  destruct (u_is_banned row); [intros H; injection H as <-; auto | discriminate].
Qed.

(** X8. A protected route runs its handler only for a caller whose token
    names a stored user that is not banned, and hands the handler that
    user's id, name and role; every other request is answered 401 or 403
    without touching the database.  An admin route runs its handler only
    if, moreover, the stored role is ['admin']; a user of another role is
    answered 403. *)
Theorem X8_routes_guarded :
  forall (token : option string)
         (handler : req_user -> database -> response * database) (db : database),
    (exists user row,
       token = Some (ru_id user)
       /\ In row (users db) /\ u_id row = ru_id user /\ u_is_banned row = false
       /\ ru_name user = u_name row /\ ru_role user = u_role row
       /\ route token handler db = handler user db
       /\ ((u_role row = "admin" /\ AuthExt.admin_route token handler db = handler user db)
           \/ (u_role row <> "admin"
               /\ AuthExt.admin_route token handler db
                  = (Fail 403 ("User role " ++ u_role row
                               ++ " is not authorized to access this route"), db))))
    \/ (exists code msg,
          (code = 401%Z \/ code = 403%Z)
          /\ route token handler db = (Fail code msg, db)
          /\ AuthExt.admin_route token handler db = (Fail code msg, db)).
Proof.
  intros token handler db. unfold route, AuthExt.admin_route.
  destruct (Auth.protect token db) as [r|user] eqn:Hp.
  - right. destruct (protect_refuses _ _ _ Hp) as [-> | [-> | ->]]; eauto 8.
  - left. destruct (protect_passes _ _ _ Hp) as (Ht & row & Hin & Hid & Hb & Hn & Hr).
    exists user, row. repeat (split; [assumption|]). split; [reflexivity|].
    unfold AuthExt.authorize, SwapModel.includes. cbn [existsb]. rewrite orb_false_r, Hr.
    destruct (String.eqb_spec "admin" (u_role row)) as [He | Hne]; cbn [negb].
    + left. split; [congruence | reflexivity].
    + right. split; [congruence | reflexivity].
Qed.

(** ** Reading a swap through the controller *)

(** X9. [GET /api/swaps/:id] shows a swap to its sender, to its receiver
    and to an admin, and to nobody else: a 200 carries the stored swap and
    the caller is one of the three; any other caller is answered 403, an
    id that is not stored 404; the database is never changed. *)
Theorem X9_swap_shown_to_participants_and_admins :
  forall (db : database) (user : req_user) (sid : string),
    let r := SwapControllerExt.getSwapRequestById user sid db in
    snd r = db
    /\ (SwapModel.getSwapRequestById sid db = (inr None, db) ->
        fst r = Fail 404 "Swap request not found")
    /\ (forall swap,
          SwapModel.getSwapRequestById sid db = (inr (Some swap), db) ->
          if is_participant (ru_id user) swap || (ru_role user =? "admin")
          then fst r = Ok 200 (SwapPayload (Some swap))
          else fst r = Fail 403 "Not authorized to view this swap request")
    /\ (forall data,
          fst r = Ok 200 data ->
          exists swap,
            data = SwapPayload (Some swap)
            /\ SwapModel.getSwapRequestById sid db = (inr (Some swap), db)
            /\ (SwapModel.senderId swap = ru_id user
                \/ SwapModel.receiverId swap = ru_id user
                \/ ru_role user = "admin")).
Proof.
  intros db user sid r. subst r.
  unfold SwapControllerExt.getSwapRequestById, catch_500, bind.
  destruct (get_total db sid) as [Hnone | [sw Hget]].
  - rewrite Hnone. cbn. repeat split; try discriminate.
  - rewrite Hget. unfold is_participant.
    destruct (SwapModel.senderId sw =? ru_id user) eqn:Es,
             (SwapModel.receiverId sw =? ru_id user) eqn:Er,
             (ru_role user =? "admin") eqn:Ea; cbn;
      (split; [reflexivity|]); (split; [discriminate|]);
      (split; [intros swap H; injection H as <-; rewrite ?Es, ?Er; reflexivity|]);
      intros data H; try discriminate; injection H as <-;
      exists sw; (split; [reflexivity|]); (split; [reflexivity|]);
      rewrite ?String.eqb_eq in *; auto.
Qed.

Lemma X9_swap_shown_to_participants_and_admins_witness :
  fst (SwapControllerExt.getSwapRequestById (mk_req_user "u-dave" "Dave" "user") "s-1"
         (Example.with_swap1 "pending"))
  = Fail 403 "Not authorized to view this swap request".
Proof.
  exact (proj1 (proj2 (proj2 (X9_swap_shown_to_participants_and_admins
                                (Example.with_swap1 "pending")
                                (mk_req_user "u-dave" "Dave" "user") "s-1")))
               _ eq_refl).
Defined.

(** ** Offered skills *)

Lemma ltb_length_filter {A : Type} (p : A -> bool) (l : list A) :
  Nat.ltb 0 (List.length (filter p l)) = existsb p l.
Proof.
  induction l as [|a l IH]; simpl; [reflexivity|].
  destruct (p a); simpl; [reflexivity | exact IH].
Qed.

(** What [createSkill] returns is in the directory afterwards, and the
    directory is the only table it writes. *)
Lemma createSkill_result nm uuid now db skill db1 :
  SkillModel.createSkill nm uuid now db = (inr skill, db1) ->
  has_skill db1 (SkillModel.id skill) = true
  /\ users db1 = users db
  /\ user_skills_offered db1 = user_skills_offered db
  /\ swap_requests db1 = swap_requests db
  /\ feedback db1 = feedback db.
Proof.
  rewrite createSkill_spec.
  destruct (SkillModel.select_by_name nm db) as [|k rest] eqn:Hsel.
  - destruct (insert_skill_cases uuid (trim nm) now db) as [(e & -> & _) | [-> _]];
      [discriminate|].
    intros H. injection H as <- <-. repeat split.
    unfold has_skill. cbn [skills with_skills SkillModel.id SkillModel.short_object sk_id].
    rewrite existsb_app. cbn [existsb sk_id]. now rewrite String.eqb_refl, orb_true_r.
  - intros H. injection H as <- <-. repeat split.
    unfold has_skill. apply existsb_exists. exists k. split; [|apply String.eqb_refl].
    apply (proj1 (filter_In (fun k => sql_eq (LOWER (sk_name k)) (LOWER nm)) k (skills db))).
    unfold SkillModel.select_by_name in Hsel. rewrite Hsel. now left.
Qed.


Lemma insert_link_inv uuid userId skillId db db' :
  SkillModelExt.insert_link uuid userId skillId db = (inr tt, db') ->
  db' = with_user_skills_offered db
          (user_skills_offered db ++ [mk_user_skill uuid userId skillId]).
Proof.
  unfold SkillModelExt.insert_link, dml.
  repeat match goal with
         | |- context [if ?c then inl _ else _] => destruct c; [discriminate|]
         end.
  intros H. now inversion H.
Qed.


(** X10. When [addOfferedSkill] returns a skill, that skill is an entry
    of the directory and is in the user's offered set, so
    [getUserOfferedSkills] lists it, whether the skill or the link existed
    before or not; users, swaps and feedback are as before. *)
Theorem X10_added_skill_is_offered :
  forall (db : database) (userId skillName skill_uuid link_uuid : string) (now : Z)
         (skill : SkillModel.skill) (db' : database),
    SkillModelExt.addOfferedSkill userId skillName skill_uuid link_uuid now db
    = (inr skill, db') ->
    has_skill db' (SkillModel.id skill) = true
    /\ offers db' userId (SkillModel.id skill) = true
    /\ (exists listed,
          SkillModel.getUserOfferedSkills userId db' = (inr listed, db')
          /\ SwapController.some_id listed (SkillModel.id skill) = true)
    /\ users db' = users db
    /\ swap_requests db' = swap_requests db
    /\ feedback db' = feedback db.
Proof.
  intros db userId skillName skill_uuid link_uuid now skill db'.
  unfold SkillModelExt.addOfferedSkill, bind at 1.
  destruct (SkillModel.createSkill skillName skill_uuid now db) as [[e|k] db1] eqn:Hc;
    [discriminate|].
  destruct (createSkill_result _ _ _ _ _ _ Hc) as (Hk & Hu & Ho & Hs & Hf).
  unfold bind at 1, select at 1, SkillModelExt.select_link. rewrite ltb_length_filter.
  assert (Hgoal : forall d,
             has_skill d (SkillModel.id k) = true ->
             offers d userId (SkillModel.id k) = true ->
             exists listed,
               SkillModel.getUserOfferedSkills userId d = (inr listed, d)
               /\ SwapController.some_id listed (SkillModel.id k) = true).
  { intros d H1 H2. unfold SkillModel.getUserOfferedSkills, select.
    eexists. split; [reflexivity|]. now rewrite some_id_offered, H1, H2. }
  destruct (existsb _ (user_skills_offered db1)) eqn:Hlink.
  - intros H. injection H as <- <-. fold (offers db1 userId (SkillModel.id k)) in Hlink.
    repeat split; auto.
  - unfold bind.
    destruct (SkillModelExt.insert_link link_uuid userId (SkillModel.id k) db1)
      as [[e|[]] db2] eqn:Hins; [discriminate|].
    apply insert_link_inv in Hins. subst db2.
    intros H. injection H as <- <-.
    assert (Hoff : offers (with_user_skills_offered db1
                             (user_skills_offered db1
                              ++ [mk_user_skill link_uuid userId (SkillModel.id k)]))
                     userId (SkillModel.id k) = true).
    { unfold offers. cbn [user_skills_offered with_user_skills_offered].
      rewrite existsb_app. cbn [existsb us_user_id us_skill_id].
      now rewrite !String.eqb_refl, orb_true_r. }
    repeat split; auto.
Qed.

Lemma X10_added_skill_is_offered_witness :
  exists skill db',
    SkillModelExt.addOfferedSkill "u-bob" "Chess" "k-9" "o-9" 50 Example.empty_ledger
    = (inr skill, db')
    /\ offers db' "u-bob" (SkillModel.id skill) = true
    /\ SkillModel.status skill = "pending".
Proof.
  eexists _, _. split; [reflexivity|].
  split; [|reflexivity].
  exact (proj1 (proj2 (X10_added_skill_is_offered Example.empty_ledger
                         "u-bob" "Chess" "k-9" "o-9" 50 _ _ eq_refl))).
Defined.

(** X11. [removeOfferedSkill] answers whether the skill was in the user's
    offered set, and afterwards it is not; every other user's set and the
    user's other skills are as before, and so are the directory, the users,
    the feedback and the swap requests, those that exchange the removed
    skill included. *)
Theorem X11_removed_skill_is_not_offered :
  forall (db : database) (userId skillId : string),
    let r := SkillModelExt.removeOfferedSkill userId skillId db in
    fst r = inr (offers db userId skillId)
    /\ offers (snd r) userId skillId = false
    /\ (forall u k, (u <> userId \/ k <> skillId) -> offers (snd r) u k = offers db u k)
    /\ users (snd r) = users db
    /\ skills (snd r) = skills db
    /\ swap_requests (snd r) = swap_requests db
    /\ feedback (snd r) = feedback db.
Proof.
  intros db userId skillId r. subst r.
  unfold SkillModelExt.removeOfferedSkill, dml, SkillModelExt.select_link. cbn [fst snd].
  rewrite ltb_length_filter. split; [reflexivity|]. split; [|split; [|repeat split]].
  - unfold offers. cbn [user_skills_offered with_user_skills_offered].
    apply not_true_is_false. intros H. apply existsb_exists in H as (uso & Hin & Hm).
    apply filter_In in Hin as [_ Hn]. rewrite Hm in Hn. discriminate.
  - intros u k Hne. unfold offers. cbn [user_skills_offered with_user_skills_offered].
    induction (user_skills_offered db) as [|uso l IH]; [reflexivity|].
    cbn [filter existsb].
    destruct ((us_user_id uso =? userId) && (us_skill_id uso =? skillId)) eqn:Hm; cbn [negb].
    + apply andb_true_iff in Hm as [Hu Hk]. apply String.eqb_eq in Hu, Hk.
      assert (Hno : (us_user_id uso =? u) && (us_skill_id uso =? k) = false).
      { apply andb_false_iff. destruct Hne as [Hne | Hne];
          [left | right]; apply String.eqb_neq; congruence. }
      rewrite Hno. exact IH.
    + cbn [existsb]. now rewrite IH.
Qed.

(** ** Moderating a skill *)

Lemma with_skills_same db : with_skills db (skills db) = db.
Proof. now destruct db. Qed.

Lemma map_no_match {A : Type} (p : A -> bool) (f : A -> A) (l : list A) :
  existsb p l = false -> map (fun a => if p a then f a else a) l = l.
Proof.
  induction l as [|a l IH]; simpl; [reflexivity|].
  intros H. apply orb_false_iff in H as [Ha Hl]. now rewrite Ha, IH.
Qed.

Lemma filter_map_moderated kid status reason now (l : list skill_row) :
  filter (fun k => sk_id k =? kid)
         (map (fun k => if sk_id k =? kid
                        then SkillModelExt.moderated status reason now k else k) l)
  = map (SkillModelExt.moderated status reason now) (filter (fun k => sk_id k =? kid) l).
Proof.
  induction l as [|k l IH]; simpl; [reflexivity|].
  destruct (sk_id k =? kid) eqn:E; simpl; rewrite E; simpl; now rewrite IH.
Qed.

Lemma moderateSkill_valid db kid status reason now :
  SwapModel.includes ["approved"; "rejected"] status = true ->
  (status =? "rejected") && negb (SkillModelExt.truthy reason) = false ->
  SkillModelExt.moderateSkill kid status reason now db
  = match SkillModelExt.update_skill kid status
            (if status =? "rejected" then reason else None) now db with
    | (inl e, db') => (inl e, db')
    | (inr _, db') => SkillModelExt.getSkillById kid db'
    end.
Proof.
  intros H1 H2. unfold SkillModelExt.moderateSkill, bind. rewrite H1, H2. reflexivity.
Qed.

(** X12. [moderateSkill] refuses a status other than approved or rejected,
    and a rejection without a reason, and changes nothing then.  For an id
    that is not in the directory it throws nothing: it changes nothing and
    returns [null].  Otherwise (a rejection's reason fitting the column)
    the skill it returns has the new status, the reason when it was
    rejected and none when it was approved, and the update time now; names
    and ids in the directory, offered sets, users, swaps and feedback are
    as before. *)
Theorem X12_moderate_skill :
  forall (db : database) (kid status : string) (reason : option string) (now : Z),
    let r := SkillModelExt.moderateSkill kid status reason now db in
    (status <> "approved" -> status <> "rejected" ->
     r = (inl (JsError SkillModelExt.invalid_moderation_message), db))
    /\ (status = "rejected" -> SkillModelExt.truthy reason = false ->
        r = (inl (JsError "Rejection reason is required when rejecting a skill."), db))
    /\ (status = "approved"
        \/ (status = "rejected" /\ SkillModelExt.truthy reason = true
            /\ fits 255 reason = true) ->
        (has_skill db kid = false -> r = (inr None, db))
        /\ (has_skill db kid = true ->
            exists skill created,
              fst r = inr (Some skill)
              /\ SkillModel.id skill = kid
              /\ SkillModel.status skill = status
              /\ SkillModel.details skill
                 = Some (if status =? "rejected" then reason else None, created, now))
        /\ map sk_id (skills (snd r)) = map sk_id (skills db)
        /\ map sk_name (skills (snd r)) = map sk_name (skills db)
        /\ users (snd r) = users db
        /\ user_skills_offered (snd r) = user_skills_offered db
        /\ swap_requests (snd r) = swap_requests db
        /\ feedback (snd r) = feedback db).
Proof.
  intros db kid status reason now r. subst r. split; [|split].
  - intros Ha Hr. unfold SkillModelExt.moderateSkill, bind, SwapModel.includes.
    cbn [existsb]. apply String.eqb_neq in Ha, Hr.
    rewrite (String.eqb_sym "approved"), (String.eqb_sym "rejected"), Ha, Hr. reflexivity.
  - intros -> Ht. unfold SkillModelExt.moderateSkill, bind. rewrite Ht. reflexivity.
  - intros Hvalid.
    assert (H1 : SwapModel.includes ["approved"; "rejected"] status = true)
      by (destruct Hvalid as [-> | [-> _]]; reflexivity).
    assert (H2 : (status =? "rejected") && negb (SkillModelExt.truthy reason) = false)
      by (destruct Hvalid as [-> | (-> & -> & _)]; reflexivity).
    assert (H3 : fits 255 (if status =? "rejected" then reason else None) = true)
      by (destruct Hvalid as [-> | (-> & _ & Hf)]; [reflexivity | exact Hf]).
    rewrite (moderateSkill_valid _ _ _ _ _ H1 H2).
    unfold SkillModelExt.update_skill, dml. rewrite H3, andb_false_r.
    unfold SkillModelExt.getSkillById, select. cbn [fst snd skills with_skills].
    split; [|split; [|repeat split]].
    + intros Hno. unfold has_skill in Hno.
      rewrite (map_no_match (fun k => sk_id k =? kid) _ _ Hno), with_skills_same.
      now rewrite (filter_none _ _ Hno).
    + intros Hyes. rewrite filter_map_moderated.
      destruct (filter_some _ _ Hyes) as (k & rest & -> & Hid).
      cbn [map]. exists (SkillModel.full_object (SkillModelExt.moderated status
                           (if status =? "rejected" then reason else None) now k)),
                        (sk_created_at k).
      apply String.eqb_eq in Hid. repeat split. exact Hid.
    + rewrite map_map. apply map_ext. intros k. now destruct (sk_id k =? kid).
    + rewrite map_map. apply map_ext. intros k. now destruct (sk_id k =? kid).
Qed.

Lemma X12_moderate_skill_witness :
  SkillModelExt.moderateSkill "k-juggling" "rejected" (Some "") 60 Example.empty_ledger
  = (inl (JsError "Rejection reason is required when rejecting a skill."),
     Example.empty_ledger)
  /\ SkillModelExt.moderateSkill "k-unknown" "approved" None 60 Example.empty_ledger
     = (inr None, Example.empty_ledger).
Proof.
  split.
  - exact (proj1 (proj2 (X12_moderate_skill Example.empty_ledger "k-juggling" "rejected"
                           (Some "") 60)) eq_refl eq_refl).
  - exact (proj1 (proj2 (proj2 (X12_moderate_skill Example.empty_ledger "k-unknown" "approved"
                                  None 60)) (or_introl eq_refl)) eq_refl).
Defined.

(** ** Feedback statistics *)

Lemma stats_rows_in userId db f :
  In f (SwapModelExt.stats_rows userId db) -> In f (feedback db).
Proof.
  unfold SwapModelExt.stats_rows. intros H.
  apply in_flat_map in H as (g & Hg & H). apply in_map_iff in H as (sr & <- & _). exact Hg.
Qed.

Lemma counts_add_up (rows : list feedback_row) :
  Forall (fun f => (1 <= f_rating f <= 5)%Z) rows ->
  (Z.of_nat (List.length rows)
   = SwapModelExt.count_rating 5 rows + SwapModelExt.count_rating 4 rows
     + SwapModelExt.count_rating 3 rows + SwapModelExt.count_rating 2 rows
     + SwapModelExt.count_rating 1 rows)%Z
  /\ (Z.of_nat (List.length rows) <= SwapModelExt.sum_ratings rows
      <= 5 * Z.of_nat (List.length rows))%Z.
Proof.
  unfold SwapModelExt.count_rating.
  induction rows as [|f rows IH]; intros H; [cbn; lia|].
  inversion H as [|? ? Hf Hrest]; subst. destruct (IH Hrest) as [IH1 IH2].
  cbn [filter List.length SwapModelExt.sum_ratings fold_right].
  change (fold_right (fun f acc => (f_rating f + acc)%Z) 0%Z rows)
    with (SwapModelExt.sum_ratings rows).
  assert (Hcases : (f_rating f = 1 \/ f_rating f = 2 \/ f_rating f = 3
                    \/ f_rating f = 4 \/ f_rating f = 5)%Z) by lia.
  destruct Hcases as [E | [E | [E | [E | E]]]]; rewrite E; cbn [Z.eqb Pos.eqb List.length];
    lia.
Qed.

(** X13. In a database whose feedback ratings are all from 1 to 5 (the
    column's check constraint), the statistics of any user are coherent:
    the total is the sum of the five star counts; with no review the
    average is 0; with at least one it lies between 1.0 and 5.0.  The call
    changes nothing. *)
Theorem X13_feedback_stats_coherent :
  forall (db : database) (userId : string),
    forallb (fun f => (1 <=? f_rating f)%Z && (f_rating f <=? 5)%Z) (feedback db) = true ->
    exists s,
      SwapModelExt.getUserFeedbackStats userId db = (inr s, db)
      /\ (SwapModelExt.totalReviews s
          = SwapModelExt.fiveStar s + SwapModelExt.fourStar s + SwapModelExt.threeStar s
            + SwapModelExt.twoStar s + SwapModelExt.oneStar s)%Z
      /\ (0 <= SwapModelExt.totalReviews s)%Z
      /\ (SwapModelExt.totalReviews s = 0%Z -> SwapModelExt.avgRating s = 0%Z)
      /\ (0 < SwapModelExt.totalReviews s -> 10 <= SwapModelExt.avgRating s <= 50)%Z.
Proof.
  intros db userId Hv. unfold SwapModelExt.getUserFeedbackStats, select.
  eexists. split; [reflexivity|].
  cbn [SwapModelExt.totalReviews SwapModelExt.avgRating SwapModelExt.fiveStar
       SwapModelExt.fourStar SwapModelExt.threeStar SwapModelExt.twoStar SwapModelExt.oneStar].
  assert (Hrows : Forall (fun f => (1 <= f_rating f <= 5)%Z)
                         (SwapModelExt.stats_rows userId db)).
  { apply Forall_forall. intros f Hin. apply stats_rows_in in Hin.
    rewrite forallb_forall in Hv. specialize (Hv f Hin).
    apply andb_true_iff in Hv as [H1 H5]. apply Z.leb_le in H1, H5. lia. }
  destruct (counts_add_up _ Hrows) as [Hsum Hbounds].
  set (n := Z.of_nat (List.length (SwapModelExt.stats_rows userId db))) in *.
  set (sum := SwapModelExt.sum_ratings (SwapModelExt.stats_rows userId db)) in *.
  split; [exact Hsum|]. split; [subst n; lia|]. split.
  - intros H0. now rewrite H0.
  - intros Hpos. destruct (Z.eqb_spec n 0) as [E | _]; [lia|].
    unfold SwapModelExt.round_tenths.
    destruct (Z.leb_spec 0 sum) as [_ | Hneg]; [|lia]. split.
    + apply Z.div_le_lower_bound; lia.
    + assert ((20 * sum + n) / (2 * n) < 51)%Z; [|lia].
      apply Z.div_lt_upper_bound; lia.
Qed.

Lemma X13_feedback_stats_coherent_witness :
  exists s,
    SwapModelExt.getUserFeedbackStats "u-alice" Example.with_feedback1
    = (inr s, Example.with_feedback1)
    /\ SwapModelExt.totalReviews s = 1%Z
    /\ SwapModelExt.avgRating s = 50%Z.
Proof.
  destruct (X13_feedback_stats_coherent Example.with_feedback1 "u-alice" eq_refl)
    as (s & Hs & _).
  exists s. split; [exact Hs|].
  unfold SwapModelExt.getUserFeedbackStats, select in Hs. injection Hs as <-.
  split; reflexivity.
Defined.

(** ** When feedback is accepted, and whom it counts for *)

Lemma addFeedback_success_inv db sid userId rating comment uuid now fb db' :
  SwapModel.addFeedback sid userId rating comment uuid now db = (inr fb, db') ->
  exists swap,
    SwapModel.getSwapRequestById sid db = (inr (Some swap), db)
    /\ is_participant userId swap = true
    /\ SwapModel.status swap = "completed"
    /\ SwapModel.select_feedback_of sid userId db = []
    /\ (1 <= rating <= 5)%Z
    /\ db' = with_feedback db
               (feedback db ++ [mk_feedback uuid sid userId rating (or_null comment) now])
    /\ SwapModel.fb_id fb = uuid /\ SwapModel.fb_userId fb = userId
    /\ SwapModel.fb_rating fb = rating /\ SwapModel.fb_comment fb = or_null comment.
Proof.
  intros Hadd. destruct (get_total db sid) as [Hnone | [sw Hget]].
  { rewrite (addFeedback_not_found _ _ _ _ _ _ _ Hnone) in Hadd. discriminate. }
  rewrite (addFeedback_spec _ _ _ _ _ _ _ _ Hget) in Hadd.
  destruct (is_participant userId sw) eqn:Hp; [|discriminate]. cbn [negb] in Hadd.
  destruct (SwapModel.status sw =? "completed") eqn:Hc; [|discriminate]. cbn [negb] in Hadd.
  destruct (SwapModel.select_feedback_of sid userId db) as [|g gs] eqn:Hsel; [|discriminate].
  cbn [List.length Nat.ltb Nat.leb] in Hadd.
  destruct (SwapModel.insert_feedback uuid sid userId rating comment now db)
    as [[e|id_out] db1] eqn:Hins; [discriminate|].
  apply insert_feedback_inv in Hins as (-> & Hfresh & _ & Huser & Hr & _ & ->).
  destruct (select_inserted_feedback db sid userId rating (or_null comment) uuid now
              Hfresh Huser) as (fb' & rest & Hf & H1 & H2 & H3 & H4).
  rewrite Hf in Hadd. injection Hadd as <- <-.
  exists sw. apply String.eqb_eq in Hc. repeat split; auto; lia.
Qed.

Lemma insert_feedback_fits uuid sid userId rating comment now db id_out db' :
  SwapModel.insert_feedback uuid sid userId rating comment now db = (inr id_out, db') ->
  fits 500 comment = true.
Proof.
  unfold SwapModel.insert_feedback, dml.
  repeat match goal with
         | |- context [if negb (fits 500 comment) then _ else _] =>
             destruct (fits 500 comment); [reflexivity | discriminate]
         | |- context [if ?c then inl _ else _] => destruct c; [discriminate|]
         end.
Qed.

(** X14. [addFeedback] succeeds exactly when the swap is stored and
    completed, the author is its sender or receiver and has no feedback on
    it yet, the rating is from 1 to 5, the comment fits its column and the
    drawn id is fresh.  It has then appended exactly one row, with the
    drawn id, that swap, author and rating, and the comment (an empty one
    stored as [NULL]), and it returns that row's data. *)
Theorem X14_feedback_accepted_exactly_when :
  forall (db : database) (sid userId : string) (rating : Z) (comment : option string)
         (uuid : string) (now : Z),
    (succeeded (SwapModel.addFeedback sid userId rating comment uuid now db) = true
     <-> exists swap,
           SwapModel.getSwapRequestById sid db = (inr (Some swap), db)
           /\ is_participant userId swap = true
           /\ SwapModel.status swap = "completed"
           /\ SwapModel.select_feedback_of sid userId db = []
           /\ (1 <= rating <= 5)%Z
           /\ fits 500 comment = true
           /\ existsb (fun f => f_id f =? uuid) (feedback db) = false)
    /\ (forall fb db',
          SwapModel.addFeedback sid userId rating comment uuid now db = (inr fb, db') ->
          db' = with_feedback db
                  (feedback db ++ [mk_feedback uuid sid userId rating (or_null comment) now])
          /\ SwapModel.fb_id fb = uuid /\ SwapModel.fb_userId fb = userId
          /\ SwapModel.fb_rating fb = rating /\ SwapModel.fb_comment fb = or_null comment).
Proof.
  intros db sid userId rating comment uuid now. split; [split|].
  - intros Hok.
    destruct (SwapModel.addFeedback sid userId rating comment uuid now db)
      as [[e|fb] db'] eqn:Hadd; [discriminate|].
    destruct (addFeedback_success_inv _ _ _ _ _ _ _ _ _ Hadd)
      as (sw & Hget & Hp & Hc & Hnone & Hr & _).
    exists sw. repeat (split; [assumption|]).
    rewrite (addFeedback_spec _ _ _ _ _ _ _ _ Hget), Hp, Hc, Hnone in Hadd.
    cbn [negb String.eqb Ascii.eqb Bool.eqb List.length Nat.ltb Nat.leb] in Hadd.
    rewrite ?String.eqb_refl in Hadd. cbn [negb] in Hadd.
    destruct (SwapModel.insert_feedback uuid sid userId rating comment now db)
      as [[e|id_out] db1] eqn:Hins; [discriminate|].
    split; [exact (insert_feedback_fits _ _ _ _ _ _ _ _ _ Hins)|].
    now apply insert_feedback_inv in Hins as (_ & Hfresh & _).
  - intros (sw & Hget & Hp & Hc & Hnone & Hr & Hfits & Hfresh).
    pose proof (participant_has_user _ _ _ _ Hget Hp) as Huser.
    rewrite (addFeedback_spec _ _ _ _ _ _ _ _ Hget), Hp, Hc, Hnone.
    cbn [negb String.eqb Ascii.eqb Bool.eqb List.length Nat.ltb Nat.leb].
    rewrite ?String.eqb_refl. cbn [negb].
    rewrite (insert_feedback_ok db sid userId rating comment uuid now
               Hfresh (found_has_swap _ _ _ Hget) Huser Hr Hnone Hfits).
    destruct (select_inserted_feedback db sid userId rating (or_null comment) uuid now
                Hfresh Huser) as (fb & rest & -> & _).
    reflexivity.
  - intros fb db' Hadd.
    destruct (addFeedback_success_inv _ _ _ _ _ _ _ _ _ Hadd)
      as (sw & _ & _ & _ & _ & _ & H).
    exact H.
Qed.

Lemma X14_feedback_accepted_exactly_when_witness :
  succeeded (SwapModel.addFeedback "s-1" "u-bob" 5 (Some "Great lesson") "f-1" 20
               (Example.with_swap1 "completed")) = true.
Proof.
  assert (Hr : (1 <= 5 <= 5)%Z) by lia.
  apply (proj1 (X14_feedback_accepted_exactly_when (Example.with_swap1 "completed")
                  "s-1" "u-bob" 5 (Some "Great lesson") "f-1" 20)).
  exists (SwapModel.mk_swap_object "s-1" "u-alice" "Alice" None "u-bob" "Bob" None
            "k-guitar" "Guitar" "k-spanish" "Spanish" None "completed" 10 10 []).
  repeat split; (reflexivity || exact (proj1 Hr) || exact (proj2 Hr)).
Defined.

Lemma stats_rows_snoc userId db f :
  SwapModelExt.stats_rows userId (with_feedback db (feedback db ++ [f]))
  = (SwapModelExt.stats_rows userId db
     ++ map (fun _ => f)
          (filter (fun sr => (f_swap_id f =? sr_id sr)
                             && ((sr_sender_id sr =? userId) || (sr_receiver_id sr =? userId)))
                  (swap_requests db)))%list.
Proof.
  unfold SwapModelExt.stats_rows. cbn [feedback swap_requests with_feedback].
  rewrite flat_map_app. cbn [flat_map]. now rewrite app_nil_r.
Qed.

(** X15. A feedback counts in the statistics of both participants of its
    swap, its own author included: after a successful [addFeedback], the
    number of reviews [getUserFeedbackStats] reports has grown for the
    swap's sender and for its receiver alike. *)
Theorem X15_feedback_counts_for_both_participants :
  forall (db : database) (sid userId : string) (rating : Z) (comment : option string)
         (uuid : string) (now : Z) (fb : SwapModel.feedback_object) (db' : database)
         (swap : SwapModel.swap) (who : string),
    SwapModel.addFeedback sid userId rating comment uuid now db = (inr fb, db') ->
    SwapModel.getSwapRequestById sid db = (inr (Some swap), db) ->
    is_participant who swap = true ->
    exists before after,
      SwapModelExt.getUserFeedbackStats who db = (inr before, db)
      /\ SwapModelExt.getUserFeedbackStats who db' = (inr after, db')
      /\ (SwapModelExt.totalReviews before < SwapModelExt.totalReviews after)%Z.
Proof.
  intros db sid userId rating comment uuid now fb db' swap who Hadd Hget Hwho.
  destruct (addFeedback_success_inv _ _ _ _ _ _ _ _ _ Hadd) as (sw & _ & _ & _ & _ & _ & -> & _).
  unfold SwapModelExt.getUserFeedbackStats, select. eexists _, _.
  split; [reflexivity|]. split; [reflexivity|].
  cbn [SwapModelExt.totalReviews]. rewrite stats_rows_snoc, length_app, length_map.
  cbn [f_swap_id].
  destruct (found_inv _ _ _ Hget) as (sr & Hin & Hid & _ & Hs & Hr & _).
  destruct (filter_some (fun sr => (sid =? sr_id sr)
                                   && ((sr_sender_id sr =? who) || (sr_receiver_id sr =? who)))
              (swap_requests db)) as (a & rest & -> & _).
  { apply existsb_exists. exists sr. split; [assumption|].
    apply andb_true_iff. split; [apply String.eqb_eq; congruence|].
    unfold is_participant in Hwho. now rewrite <- Hs, <- Hr. }
  cbn [List.length]. lia.
Qed.

Lemma X15_feedback_counts_for_both_participants_witness :
  exists before after,
    SwapModelExt.getUserFeedbackStats "u-bob" (Example.with_swap1 "completed")
    = (inr before, Example.with_swap1 "completed")
    /\ SwapModelExt.getUserFeedbackStats "u-bob" Example.with_feedback1
       = (inr after, Example.with_feedback1)
    /\ (SwapModelExt.totalReviews before < SwapModelExt.totalReviews after)%Z.
Proof.
  exact (X15_feedback_counts_for_both_participants (Example.with_swap1 "completed")
           "s-1" "u-bob" 5 (Some "Great lesson") "f-1" 20 _ _ _ "u-bob"
           eq_refl eq_refl eq_refl).
Defined.

(** ** From request to feedback *)

Lemma create_success db user b uuid now data :
  fst (SwapController.createSwapRequest user b uuid now db) = Ok 201 data ->
  exists swap,
    snd (SwapController.createSwapRequest user b uuid now db)
    = with_swap_requests db
        (swap_requests db
         ++ [mk_swap uuid (ru_id user) (SwapController.receiverId b)
               (SwapController.offeredSkillId b) (SwapController.wantedSkillId b)
               (or_null (SwapController.message b)) "pending" now now])
    /\ SwapModel.getSwapRequestById uuid
         (snd (SwapController.createSwapRequest user b uuid now db))
       = (inr (Some swap), snd (SwapController.createSwapRequest user b uuid now db))
    /\ SwapModel.senderId swap = ru_id user
    /\ SwapModel.receiverId swap = SwapController.receiverId b
    /\ SwapModel.status swap = "pending".
Proof.
  rewrite createSwapRequest_spec.
  destruct (SwapController.create_errors b); [|discriminate].
  destruct (SwapController.receiverId b =? ru_id user); [discriminate|].
  destruct (negb (active db (SwapController.receiverId b))); [discriminate|].
  destruct (negb (offers db (ru_id user) (SwapController.offeredSkillId b) && _));
    [discriminate|].
  destruct (negb (offers db (SwapController.receiverId b) (SwapController.wantedSkillId b) && _));
    [discriminate|].
  unfold SwapModel.createSwapRequest, bind.
  destruct (SwapModel.insert_swap_request uuid _ now db) as [[e|id_out] db'] eqn:Hins;
    [discriminate|].
  intros _. apply insert_swap_request_inv in Hins.
  cbn [SwapModel.sd_senderId SwapModel.sd_receiverId SwapModel.sd_offeredSkillId
       SwapModel.sd_wantedSkillId SwapModel.sd_message] in Hins.
  destruct Hins as (-> & Hfresh & Hs & Hr & Ho & Hw & ->).
  destruct (get_inserted_swap db
              (mk_swap uuid (ru_id user) (SwapController.receiverId b)
                 (SwapController.offeredSkillId b) (SwapController.wantedSkillId b)
                 (or_null (SwapController.message b)) "pending" now now)
              Hfresh Hs Hr Ho Hw)
    as (swap & Hget & _ & H2 & H3 & _ & _ & _ & H7 & _).
  cbn [sr_id sr_sender_id sr_receiver_id sr_status] in *.
  rewrite Hget. cbn [fst snd]. exists swap. repeat split; assumption.
Qed.

Lemma no_feedback_on_swap db sid userId :
  existsb (fun f => f_swap_id f =? sid) (feedback db) = false ->
  SwapModel.select_feedback_of sid userId db = [].
Proof.
  intros H. unfold SwapModel.select_feedback_of. apply filter_none.
  apply not_true_is_false. intros Hex. apply existsb_exists in Hex as (f & Hin & Hf).
  apply andb_true_iff in Hf as [Hf _].
  assert (existsb (fun f => f_swap_id f =? sid) (feedback db) = true)
    by (apply existsb_exists; eauto).
  congruence.
Qed.

(** X16. The whole path of a swap.  After a creation answered 201, the
    swap is pending; the receiver's accept makes it accepted; feedback is
    still refused then (['Feedback can only be added to completed swaps']);
    the sender's complete makes it completed; and the receiver's feedback
    (a rating from 1 to 5, a comment that fits, a fresh id, no row already
    pointing at the new swap's id) is then accepted and is the one row
    appended to the feedback table. *)
Theorem X16_from_request_to_feedback :
  forall (db : database) (user : req_user) (b : SwapController.create_body)
         (uuid : string) (t1 t2 t3 t4 : Z) (data : payload)
         (rating : Z) (comment : option string) (fuuid : string),
    fst (SwapController.createSwapRequest user b uuid t1 db) = Ok 201 data ->
    existsb (fun f => f_swap_id f =? uuid) (feedback db) = false ->
    existsb (fun f => f_id f =? fuuid) (feedback db) = false ->
    (1 <= rating <= 5)%Z ->
    fits 500 comment = true ->
    let receiver := SwapController.receiverId b in
    let db1 := snd (SwapController.createSwapRequest user b uuid t1 db) in
    let db2 := snd (SwapModel.acceptSwapRequest uuid receiver t2 db1) in
    let db3 := snd (SwapModel.completeSwapRequest uuid (ru_id user) t3 db2) in
    let r := SwapModel.addFeedback uuid receiver rating comment fuuid t4 db3 in
    status_of uuid db1 = Some "pending"
    /\ status_of uuid db2 = Some "accepted"
    /\ SwapModel.addFeedback uuid receiver rating comment fuuid t4 db2
       = (inl (JsError "Feedback can only be added to completed swaps"), db2)
    /\ status_of uuid db3 = Some "completed"
    /\ succeeded r = true
    /\ feedback (snd r)
       = (feedback db ++ [mk_feedback fuuid uuid receiver rating (or_null comment) t4])%list.
Proof.
  intros db user b uuid t1 t2 t3 t4 data rating comment fuuid
         Hok Hnofb Hfresh Hr Hfits receiver db1 db2 db3 r.
  destruct (create_success db user b uuid t1 data Hok) as (sw & Hdb1 & Hget1 & Hs & Hrc & Hst).
  fold db1 in Hdb1, Hget1. fold receiver in Hrc.
  assert (Hf1 : feedback db1 = feedback db) by (rewrite Hdb1; reflexivity).
  (* accept *)
  assert (Hmay2 : may_update "accepted" receiver sw = true).
  { unfold may_update. rewrite Hrc, String.eqb_refl. cbn.
    rewrite andb_true_r. apply orb_true_r. }
  pose proof (update_spec db1 uuid "accepted" receiver t2 sw eq_refl Hget1) as Hacc.
  rewrite Hmay2 in Hacc.
  assert (Hdb2 : db2 = snd (SwapModel.update_status uuid "accepted" t2 db1)).
  { unfold db2, SwapModel.acceptSwapRequest. now rewrite Hacc. }
  pose proof (get_after_update db1 uuid "accepted" t2 sw Hget1) as Hget2.
  rewrite <- Hdb2 in Hget2.
  assert (Hf2 : feedback db2 = feedback db) by (rewrite Hdb2; exact Hf1).
  (* complete *)
  set (sw2 := restamp "accepted" t2 sw) in *.
  assert (Hmay3 : may_update "completed" (ru_id user) sw2 = true).
  { rewrite may_update_completed. unfold is_participant, sw2. cbn [SwapModel.senderId restamp].
    now rewrite Hs, String.eqb_refl. }
  pose proof (update_spec db2 uuid "completed" (ru_id user) t3 sw2 eq_refl Hget2) as Hcomp.
  rewrite Hmay3 in Hcomp.
  assert (Hdb3 : db3 = snd (SwapModel.update_status uuid "completed" t3 db2)).
  { unfold db3, SwapModel.completeSwapRequest. now rewrite Hcomp. }
  pose proof (get_after_update db2 uuid "completed" t3 sw2 Hget2) as Hget3.
  rewrite <- Hdb3 in Hget3.
  assert (Hf3 : feedback db3 = feedback db) by (rewrite Hdb3; exact Hf2).
  set (sw3 := restamp "completed" t3 sw2) in *.
  assert (Hp2 : is_participant receiver sw2 = true).
  { unfold is_participant, sw2. cbn [SwapModel.receiverId restamp].
    rewrite Hrc, String.eqb_refl. apply orb_true_r. }
  assert (Hp3 : is_participant receiver sw3 = true) by exact Hp2.
  split; [rewrite (status_of_found _ _ _ Hget1); now rewrite Hst|].
  split; [exact (status_of_found _ _ _ Hget2)|].
  split; [rewrite (addFeedback_spec _ _ _ _ _ _ _ _ Hget2), Hp2; reflexivity|].
  split; [exact (status_of_found _ _ _ Hget3)|].
  assert (Hnone : SwapModel.select_feedback_of uuid receiver db3 = []).
  { apply no_feedback_on_swap. now rewrite Hf3. }
  assert (Hfresh3 : existsb (fun f => f_id f =? fuuid) (feedback db3) = false)
    by now rewrite Hf3.
  pose proof (participant_has_user _ _ _ _ Hget3 Hp3) as Huser.
  subst r. rewrite (addFeedback_spec _ _ _ _ _ _ _ _ Hget3), Hp3, Hnone.
  cbn [negb SwapModel.status sw3 restamp String.eqb Ascii.eqb Bool.eqb List.length Nat.ltb Nat.leb].
  rewrite (insert_feedback_ok db3 uuid receiver rating comment fuuid t4
             Hfresh3 (found_has_swap _ _ _ Hget3) Huser Hr Hnone Hfits).
  destruct (select_inserted_feedback db3 uuid receiver rating (or_null comment) fuuid t4
              Hfresh3 Huser) as (fb & rest & -> & _).
  split; [reflexivity|]. cbn [snd feedback with_feedback]. now rewrite Hf3.
Qed.

Lemma X16_from_request_to_feedback_witness :
  let db1 := snd (SwapController.createSwapRequest Example.alice_user
                    (SwapController.mk_create_body "u-bob" "k-guitar" "k-spanish" None)
                    "s-2" 40 Example.empty_ledger) in
  let db2 := snd (SwapModel.acceptSwapRequest "s-2" "u-bob" 41 db1) in
  let db3 := snd (SwapModel.completeSwapRequest "s-2" "u-alice" 42 db2) in
  status_of "s-2" db3 = Some "completed"
  /\ feedback (snd (SwapModel.addFeedback "s-2" "u-bob" 5 (Some "Great lesson") "f-1" 43 db3))
     = [mk_feedback "f-1" "s-2" "u-bob" 5 (Some "Great lesson") 43].
Proof.
  assert (Hr : (1 <= 5 <= 5)%Z) by lia.
  destruct (X16_from_request_to_feedback Example.empty_ledger Example.alice_user
              (SwapController.mk_create_body "u-bob" "k-guitar" "k-spanish" None)
              "s-2" 40 41 42 43 _ 5 (Some "Great lesson") "f-1"
              eq_refl eq_refl eq_refl Hr eq_refl) as (_ & _ & _ & H4 & _ & H6).
  exact (conj H4 H6).
Defined.

(** ** Instances of the frame properties *)

Lemma X3_status_update_frame_witness :
  SwapModel.getSwapRequestById "s-9"
    (snd (SwapModel.updateSwapRequestStatus "s-1" "accepted" "u-bob" 30
            (Example.with_swap1 "pending")))
  = (fst (SwapModel.getSwapRequestById "s-9" (Example.with_swap1 "pending")),
     snd (SwapModel.updateSwapRequestStatus "s-1" "accepted" "u-bob" 30
            (Example.with_swap1 "pending"))).
Proof.
  apply (X3_status_update_frame (Example.with_swap1 "pending") "s-1" "accepted" "u-bob" 30).
  discriminate.
Defined.

Lemma X11_removed_skill_is_not_offered_witness :
  offers (snd (SkillModelExt.removeOfferedSkill "u-alice" "k-guitar" Example.empty_ledger))
    "u-alice" "k-juggling"
  = offers Example.empty_ledger "u-alice" "k-juggling".
Proof.
  apply (X11_removed_skill_is_not_offered Example.empty_ledger "u-alice" "k-guitar").
  right. discriminate.
Defined.
